(** * lisk-v4-dex-adapter: a shallow embedding and its properties

    The development follows the layout of the repository:
    - [Js]             the few JavaScript notions the sources rely on
                       (truthiness, thrown errors, [Array.prototype.slice],
                       [Set] insertion order, [Buffer.from(_, 'hex')],
                       the properties an object inherits, Numbers as text);
    - [HttpClient]     lisk-service/client.js, the client with fallbacks;
    - [Meta]           lisk-service/meta.js, paths, filter keys, sort keys;
    - [Repository]     lisk-service/repository.js;
    - [Mapper]         liskv3/mapper.js;
    - [Adapter]        liskv3/adapter.js (class LiskV3DEXAdapter);
    - [Index]          what the repository expects of the remote index;
    - [Fixtures]       a small world in which the adapter runs.
    The properties follow, one module of facts per source file. *)

From Stdlib Require Import ZArith String Ascii List Permutation Sorted Lia.
From Stdlib Require Import DecimalString DecimalPos DecimalZ.
From stdpp Require Import base option list gmap strings.

Set Warnings "-register-all".

Local Open Scope string_scope.
Local Open Scope list_scope.
Local Open Scope Z_scope.

(* ===================================================================== *)
(** ** JavaScript values, errors and results *)
(* ===================================================================== *)

Module Js.

(** JSON-like values, as they come back from the HTTP layer.  Numbers are
    the integers the service reports (heights, timestamps, counts); see
    [toNumber] for the integers a Number holds. *)
Inductive Value : Type :=
| Undefined
| Null
| Bool (b : bool)
| Num (n : Z)
| Str (s : string)
| Arr (items : list Value)
| Obj (fields : list (string * Value)).

(** ToBoolean: what [if (v)] and [!v] test. *)
Definition truthy (v : Value) : bool :=
  match v with
  | Undefined | Null => false
  | Bool b => b
  | Num n => negb (n =? 0)
  | Str s => negb (String.eqb s "")
  | Arr _ | Obj _ => true
  end.

(** [v === 's'] for a string literal ['s']. *)
Definition isString (s : string) (v : Value) : bool :=
  match v with
  | Str x => String.eqb x s
  | _ => false
  end.

(** [o.key] on a value that is already known to be truthy: own property
    of an object, [undefined] otherwise. *)
Fixpoint assoc (key : string) (fields : list (string * Value)) : Value :=
  match fields with
  | [] => Undefined
  | (k, v) :: rest => if String.eqb k key then v else assoc key rest
  end.

Definition prop (key : string) (v : Value) : Value :=
  match v with
  | Obj fields => assoc key fields
  | _ => Undefined
  end.

(** The names exported by liskv3/errors.js, as adapter.js imports them. *)
Inductive ErrorName : Type :=
| multisigAccountDidNotExistError
| blockDidNotExistError
| accountWasNotMultisigError
| accountDidNotExistError
| transactionBroadcastError.

(** What the code throws: a plain [Error] (or one of the language's own,
    a TypeError, which the code tells apart from it nowhere), an error of
    the HTTP library (with [err.response.status] when the service
    answered), or the adapter's [InvalidActionError(name, message, cause)]. *)
Inductive Error : Type :=
| PlainError (message : string)
| HttpError (message : string) (status : option Z)
| InvalidActionError (name : ErrorName) (message : string) (cause : option Error).

Definition message (e : Error) : string :=
  match e with
  | PlainError m => m
  | HttpError m _ => m
  | InvalidActionError _ m _ => m
  end.

(** [err instanceof InvalidActionError] *)
Definition isInvalidActionError (e : Error) : bool :=
  match e with InvalidActionError _ _ _ => true | _ => false end.

(** [err && err.response && err.response.status === 404] *)
Definition notFound (e : Error) : bool :=
  match e with
  | HttpError _ (Some status) => status =? 404
  | _ => false
  end.

(** The outcome of a call: a returned value or a thrown error. *)
Inductive Result (A : Type) : Type :=
| Return (a : A)
| Throw (e : Error).
Arguments Return {A} a.
Arguments Throw {A} e.

Definition bind {A B} (r : Result A) (k : A -> Result B) : Result B :=
  match r with
  | Return a => k a
  | Throw e => Throw e
  end.

(** [try { r } catch (err) { handler err }] *)
Definition try_catch {A} (r : Result A) (handler : Error -> Result A) : Result A :=
  match r with
  | Return a => Return a
  | Throw e => handler e
  end.

(** *** Arrays, sets, buffers, number rendering *)

(** ToIntegerOrInfinity followed by the clamping of [Array.prototype.slice]
    on an index: a negative index counts from the end. *)
Definition relativeIndex (len i : Z) : Z :=
  if (i <? 0)%Z then Z.max (len + i) 0 else Z.min i len.

(** [l.slice(start, stop)]; [stop = None] is the omitted argument. *)
Definition slice {A} (l : list A) (start : Z) (stop : option Z) : list A :=
  let len := Z.of_nat (length l) in
  let k := relativeIndex len start in
  let final := match stop with None => len | Some e => relativeIndex len e end in
  take (Z.to_nat (final - k)) (drop (Z.to_nat k) l).

(** [new Set(l)] followed by [Array.from]: a set keeps its elements in
    the order of their first insertion. *)
Definition setAdd (s : list string) (x : string) : list string :=
  if decide (x ∈ s) then s else s ++ [x].

Definition arrayFromSet (l : list string) : list string :=
  foldl setAdd [] l.

(** Bytes of a [Buffer]. *)
Definition Buffer : Type := list Z.

Definition hexDigit (c : ascii) : option Z :=
  let n := Z.of_nat (nat_of_ascii c) in
  if ((48 <=? n) && (n <=? 57))%Z then Some (n - 48)
  else if ((97 <=? n) && (n <=? 102))%Z then Some (n - 87)
  else if ((65 <=? n) && (n <=? 70))%Z then Some (n - 55)
  else None.

(** [Buffer.from(s, 'hex')]: two digits per byte; decoding stops at the
    first pair that is not hexadecimal, and a trailing single character
    is dropped. *)
Fixpoint bufferFromHex (s : string) : Buffer :=
  match s with
  | String a (String b rest) =>
      match hexDigit a, hexDigit b with
      | Some x, Some y => (16 * x + y) :: bufferFromHex rest
      | _, _ => []
      end
  | _ => []
  end.

Definition hexChar (d : Z) : ascii :=
  ascii_of_nat (Z.to_nat (if (d <? 10)%Z then 48 + d else 87 + d)).

(** [buffer.toString('hex')] *)
Fixpoint bufferToHex (b : Buffer) : string :=
  match b with
  | [] => EmptyString
  | x :: rest => String (hexChar (x / 16)) (String (hexChar (x mod 16)) (bufferToHex rest))
  end.

(** [Buffer.from(v, 'hex')] for what a property access gave: a string is
    decoded, [undefined] is refused with a TypeError (an [Error] that
    is no [InvalidActionError] and has no [response]). *)
Definition invalidFirstArgument : string :=
  "The first argument must be of type string or an instance of Buffer, ArrayBuffer, or Array or an Array-like Object. Received undefined".

Definition bufferFrom (v : option string) : Result Buffer :=
  match v with
  | Some s => Return (bufferFromHex s)
  | None => Throw (PlainError invalidFirstArgument)
  end.

(** [l.map(f)] for a callback that may throw: the elements are visited in
    order and the first error ends the call. *)
Fixpoint arrayMap {A B} (f : A -> Result B) (l : list A) : Result (list B) :=
  match l with
  | [] => Return []
  | x :: rest =>
      bind (f x) (fun y => bind (arrayMap f rest) (fun ys => Return (y :: ys)))
  end.

(** The names of the properties of [Object.prototype], which an object
    created by [{}] inherits: eleven functions and the accessor
    [__proto__]. *)
Definition objectPrototypeNames : list string :=
  ["constructor"; "__defineGetter__"; "__defineSetter__"; "hasOwnProperty";
   "__lookupGetter__"; "__lookupSetter__"; "isPrototypeOf"; "propertyIsEnumerable";
   "toString"; "valueOf"; "__proto__"; "toLocaleString"].

(** *** Numbers as text *)

(** An integer [n] stands for the Number of that value.  A Number is a
    double: it holds 53 significant bits, and a real is read as the
    nearest double, the even one of two that are equally near. *)
Definition toNumber (n : Z) : Z :=
  let a := Z.abs n in
  let e := Z.log2 a in
  if (e <? 53)%Z then n
  else
    let ulp := 2 ^ (e - 52) in
    let q := a / ulp in
    let r := a mod ulp in
    let q := if (2 * r <? ulp)%Z then q
             else if (ulp <? 2 * r)%Z then q + 1
             else if Z.even q then q else q + 1 in
    Z.sgn n * (q * ulp).

Definition decimal (n : Z) : string :=
  NilZero.string_of_int (Z.to_int n).

Fixpoint dropTrailingZeros (s : string) : string :=
  match s with
  | EmptyString => EmptyString
  | String c rest =>
      let rest := dropTrailingZeros rest in
      if Ascii.eqb c "0" && String.eqb rest "" then EmptyString else String c rest
  end.

(** Number::toString for a value [x] of [n] digits, from [10^21] on: the
    decimal [s × 10^(n-k)] with the fewest digits [k] that is read back
    as [x]; of two with as many digits the nearer one, and the one with
    [s] even when they are equally near.  Seventeen digits tell any two
    doubles apart. *)
Fixpoint shortest (fuel : nat) (k : Z) (x n : Z) : Z :=
  match fuel with
  | O => x
  | S fuel =>
      let unit := 10 ^ (n - k) in
      let below := x / unit * unit in
      let above := below + unit in
      match (toNumber below =? x)%Z, (toNumber above =? x)%Z with
      | true, true =>
          if (x - below <? above - x)%Z then below
          else if (above - x <? x - below)%Z then above
          else if Z.even (below / unit) then below else above
      | true, false => below
      | false, true => above
      | false, false => shortest fuel (k + 1) x n
      end
  end.

(** The digits, a point after the first one, and the exponent. *)
Definition exponential (x : Z) : string :=
  let n := Z.of_nat (String.length (decimal x)) in
  let text := decimal (shortest 17 1 x n) in
  match dropTrailingZeros text with
  | String d EmptyString =>
      String d EmptyString +:+ "e+" +:+ decimal (Z.of_nat (String.length text) - 1)
  | String d rest =>
      String d EmptyString +:+ "." +:+ rest +:+ "e+"
      +:+ decimal (Z.of_nat (String.length text) - 1)
  | EmptyString => "0"
  end.

(** [`${n}`] for an integer Number: its decimal digits below [10^21],
    and the exponential notation from there on. *)
Definition exponentialFrom : Z := 10 ^ 21.

Definition numberToString (n : Z) : string :=
  let x := toNumber n in
  if (Z.abs x <? exponentialFrom)%Z then decimal x
  else (if (x <? 0)%Z then "-" else "") +:+ exponential (Z.abs x).



End Js.

Export Js.

Declare Scope js_scope.
Delimit Scope js_scope with js.
Notation "'await' x <- r 'then' k" := (Js.bind r (fun x => k))
  (at level 10, x name, r at level 100, k at level 200) : js_scope.

(* ===================================================================== *)
(** ** lisk-service/client.js *)
(* ===================================================================== *)

Module HttpClient.

(** [constructor(config)]: [this.baseUrl], [this.fallbacks]. *)
Record Config : Type := { baseUrl : string; fallbacks : list string }.

(** What a call leaves behind: the URLs requested, in order, and the
    messages passed to [logger.warn], in order. *)
Record Trace : Type := { requests : list string; warnings : list string }.

Definition start : Trace := {| requests := []; warnings := [] |}.

(** A computation that issues requests and logs: it returns or throws,
    and extends the trace. *)
Definition Task (A : Type) : Type := Trace -> Result A * Trace.

Definition ret {A} (a : A) : Task A := fun t => (Return a, t).
Definition throw {A} (e : Error) : Task A := fun t => (Throw e, t).

Definition andThen {A B} (m : Task A) (k : A -> Task B) : Task B :=
  fun t => match m t with
           | (Return a, t') => k a t'
           | (Throw e, t') => (Throw e, t')
           end.

(** [try { return await m } catch (e) { handler e }] *)
Definition catch {A} (m : Task A) (handler : Error -> Task A) : Task A :=
  fun t => match m t with
           | (Return a, t') => (Return a, t')
           | (Throw e, t') => handler e t'
           end.

(** [this.logger.warn(msg)] *)
Definition warn (msg : string) : Task unit :=
  fun t => (Return tt, {| requests := requests t; warnings := warnings t ++ [msg] |}).

Notation "'run' x <- m 'then' k" := (andThen m (fun x => k))
  (at level 10, x name, m at level 100, k at level 200).
Notation "'exec' m 'then' k" := (andThen m (fun _ => k))
  (at level 10, m at level 100, k at level 200).

Section Client.

(** The query parameters of a GET and the payload of a POST are opaque
    to the client. *)
Context {Params Payload : Type}.

(** [axios.get(url, {params})] and [axios.post(url, payload)].  The
    network is outside the program: the answer may depend on the URL,
    on what is sent and on when it is asked, so it is indexed by the
    number of requests the call has issued before this one.  What a
    request resolves to is kept as a [Value], of which the client tests
    nothing but the truthiness; a response object is truthy. *)
Variable axios_get : nat -> string -> Params -> Result Value.
Variable axios_post : nat -> string -> Payload -> Result Value.

Variable config : Config.

Definition request (answer : nat -> string -> Result Value) (url : string) : Task Value :=
  fun t => (answer (length (requests t)) url,
            {| requests := requests t ++ [url]; warnings := warnings t |}).

(** [static HttpGetRequestFn = (path, params) => (baseUrl) =>
      axios.get(`${baseUrl}${path}`, {params})] *)
Definition HttpGetRequestFn (path : string) (params : Params) : string -> Task Value :=
  fun baseUrl => request (fun n url => axios_get n url params) (baseUrl +:+ path).

(** [static HttpPostRequestFn = (path, payload) => (baseUrl) =>
      axios.post(`${baseUrl}${path}`, payload)] *)
Definition HttpPostRequestFn (path : string) (payload : Payload) : string -> Task Value :=
  fun baseUrl => request (fun n url => axios_post n url payload) (baseUrl +:+ path).

Definition fallbackWarning (fallback : string) : string :=
  "Failed to process data from fallback " +:+ fallback +:+ ", trying next fallback".

(** The [for (const fallback of this.fallbacks)] loop of
    [tryWithFallback], from a given position of the list on: the answer
    of a fallback is returned at once; a fallback that throws is logged
    and the loop goes on; [null] is returned after the last one. *)
Fixpoint tryWithFallbackFrom (requestFn : string -> Task Value)
    (remaining : list string) : Task Value :=
  match remaining with
  | [] => ret Null
  | fallback :: rest =>
      catch (requestFn fallback)
            (fun _ => exec warn (fallbackWarning fallback) then
                      tryWithFallbackFrom requestFn rest)
  end.

Definition tryWithFallback (requestFn : string -> Task Value) : Task Value :=
  tryWithFallbackFrom requestFn (fallbacks config).

Definition getWarning : string :=
  "Failed to get data from " +:+ baseUrl config +:+ ", trying fallbacks in given order".

Definition postWarning : string :=
  "Failed to get data from " +:+ baseUrl config +:+ ", trying fallbacks in the given order".

Definition get (path : string) (params : Params) : Task Value :=
  let getReqFn := HttpGetRequestFn path params in
  catch (getReqFn (baseUrl config))
        (fun err =>
           exec warn getWarning then
           run response <- tryWithFallback getReqFn then
           if truthy response then ret response else throw err).

Definition post (path : string) (payload : Payload) : Task Value :=
  let postReqFn := HttpPostRequestFn path payload in
  catch (postReqFn (baseUrl config))
        (fun err =>
           exec warn postWarning then
           run response <- tryWithFallback postReqFn then
           if truthy response then ret response else throw err).

End Client.

End HttpClient.

(* ===================================================================== *)
(** ** Data model *)
(* ===================================================================== *)

(** A block, with the fields the adapter reads. *)
Module Block.
Record t : Type := {
  id : string;
  height : Z;
  timestamp : Z;
  numberOfTransactions : Z
}.
End Block.

(** The authentication record of an account, [GET /api/v3/auth]. *)
Module AccountAuth.
Record t : Type := {
  mandatoryKeys : list string;
  optionalKeys : list string;
  numberOfSignatures : Z
}.
End AccountAuth.

Module SignaturePacket.
Record t : Type := {
  signerAddress : string;
  publicKey : string;
  signature : string
}.
End SignaturePacket.

(** A transaction as the service reports it.  [Sigs] is the type of its
    [signatures] property: hexadecimal strings on the wire, signature
    packets once the adapter has attached the signers. *)
Module ServiceTransaction.
Record Params : Type := { amount : string; recipientAddress : string; data : string }.
Record Sender : Type := { address : string }.
Record BlockRef : Type := { timestamp : Z }.
Record t (Sigs : Type) : Type := {
  id : string;
  moduleCommand : string;
  nonce : string;
  params : Params;
  sender : Sender;
  block : BlockRef;
  signatures : Sigs
}.
Arguments id {Sigs} _.
Arguments moduleCommand {Sigs} _.
Arguments nonce {Sigs} _.
Arguments params {Sigs} _.
Arguments sender {Sigs} _.
Arguments block {Sigs} _.
Arguments signatures {Sigs} _.
End ServiceTransaction.

(** A transaction as the adapter hands it to the DEX. *)
Module DexTransaction.
Record t : Type := {
  id : string;
  message : string;
  amount : string;
  timestamp : Z;
  senderAddress : string;
  recipientAddress : string;
  signatures : list SignaturePacket.t;
  nonce : string
}.
End DexTransaction.

(** The prepared transaction [postTransaction] receives, with the
    properties it reads. *)
Module PreparedTransaction.
Record t : Type := {
  signatures : list SignaturePacket.t;
  nonce : string;
  fee : string;
  senderPublicKey : string;
  tokenID : string;
  recipientAddress : string;
  amount : string;
  message : string
}.
End PreparedTransaction.

(** The object [postTransaction] encodes. *)
Module SignedTxn.
Record Params : Type := {
  tokenID : Buffer;
  recipientAddress : Buffer;
  amount : Z;
  data : string
}.
Record t : Type := {
  module : string;
  command : string;
  nonce : Z;
  fee : Z;
  senderPublicKey : Buffer;
  signatures : list Buffer;
  params : Params
}.
End SignedTxn.

(** A filter object: query parameters by name. *)
Abbreviation Filter := (gmap string Value).

(* ===================================================================== *)
(** ** lisk-service/meta.js *)
(* ===================================================================== *)

Module Meta.

Module Blocks.
Definition path : string := "/api/v3/blocks".
Module filter.
Definition blockId : string := "blockID".
Definition height : string := "height".
Definition timestamp : string := "timestamp".
Definition limit : string := "limit".
Definition offset : string := "offset".
Definition sort : string := "sort".
End filter.
Module sortBy.
Definition heightAsc : string := "height:asc".
Definition heightDesc : string := "height:desc".
Definition timestampAsc : string := "timestamp:asc".
Definition timestampDesc : string := "timestamp:desc".
End sortBy.
End Blocks.

Module Transactions.
Definition path : string := "/api/v3/transactions".
Module filter.
Definition transactionId : string := "transactionId".
Definition moduleCommand : string := "moduleCommand".
Definition senderAddress : string := "senderAddress".
Definition recipientAddress : string := "recipientAddress".
Definition timestamp : string := "timestamp".
Definition blockId : string := "blockID".
Definition height : string := "height".
Definition nonce : string := "nonce".
Definition limit : string := "limit".
Definition offset : string := "offset".
Definition sort : string := "sort".
End filter.
Module sortBy.
Definition amountAsc : string := "amount:asc".
Definition amountDesc : string := "amount:desc".
Definition timestampAsc : string := "timestamp:asc".
Definition timestampDesc : string := "timestamp:desc".
End sortBy.
End Transactions.

End Meta.

(* ===================================================================== *)
(** ** lisk-service/repository.js *)
(* ===================================================================== *)

Module Repository.

Definition DEFAULT_MAIN_NET_URL : string := "https://service.lisk.com".
Definition DEFAULT_ACK_TIMEOUT : Z := 20000.

(** The resources the adapter reads, each with the type of the [data]
    property of its answer. *)
Inductive Resource : Type := Auth | Blocks | Transactions.

Definition path (r : Resource) : string :=
  match r with
  | Auth => "/api/v3/auth"
  | Blocks => Meta.Blocks.path
  | Transactions => Meta.Transactions.path
  end.

Definition Data (r : Resource) : Type :=
  match r with
  | Auth => option AccountAuth.t
  | Blocks => list Block.t
  | Transactions => list (ServiceTransaction.t (list string))
  end.

(** The JSON body of an answer, [{data, meta}]. *)
Record Envelope (r : Resource) : Type := { data : Data r }.
Arguments data {r} _.

(** The response object of the HTTP library, [response.data] being the
    body. *)
Record Response (A : Type) : Type := { body : A }.
Arguments body {A} _.

(** The remote service behind [this.axiosClient]: what a GET of a URL
    with query parameters, and a POST of a payload to a URL, answer. *)
Record Service : Type := {
  axios_get : forall r : Resource, string -> Filter -> Result (Response (Envelope r));
  axios_post : string -> Value -> Result (Response Value)
}.

Record Config : Type := { config_serviceURL : option string; ackTimeout : option Z }.

Record t : Type := { serviceURL : string; timeout : Z }.

(** [constructor({config = {}, logger = console})] *)
Definition new (config : Config) : t :=
  {| serviceURL := match config_serviceURL config with
                   | Some url => if truthy (Str url) then url else DEFAULT_MAIN_NET_URL
                   | None => DEFAULT_MAIN_NET_URL
                   end;
     timeout := match ackTimeout config with
                | None => DEFAULT_ACK_TIMEOUT
                | Some ms => ms
                end |}.

Section Methods.

Variable service : Service.
Variable this : t.

Local Open Scope js_scope.

(** [async get(path, params = {})], at the path of resource [r]. *)
Definition get (r : Resource) (params : Filter) : Result (Envelope r) :=
  await response <- axios_get service r (serviceURL this +:+ path r) params then
  Return (body response).

(** [async post(path, payload = {})] *)
Definition post (path : string) (payload : Value) : Result Value :=
  await response <- axios_post service (serviceURL this +:+ path) payload then
  Return (body response).

(** [postTransaction(transaction)]: the payload is [{ transaction }]. *)
Definition postTransaction (transaction : string) : Result Value :=
  post Meta.Transactions.path (Obj [("transaction", Str transaction)]).

Definition getAuth (walletAddress : string) : Result (option AccountAuth.t) :=
  await answer <- get Auth {[ "address" := Str walletAddress ]} then
  Return (data answer).

Definition getTransactions (filterParams : Filter)
  : Result (list (ServiceTransaction.t (list string))) :=
  await answer <- get Transactions filterParams then
  Return (data answer).

Definition getBlocks (filterParams : Filter) : Result (list Block.t) :=
  await answer <- get Blocks filterParams then
  Return (data answer).

(** [getOutboundTransactions(senderAddress, fromTimestamp, limit,
    order = 'asc')]: [order] is [Undefined] when the argument is omitted. *)
Definition getOutboundTransactions (senderAddress : string) (fromTimestamp : Z)
    (limit : Value) (order : Value)
  : Result (list (ServiceTransaction.t (list string))) :=
  let order := match order with Undefined => Str "asc" | _ => order end in
  let transactionFilterParams : Filter :=
    <[ Meta.Transactions.filter.moduleCommand := Str "token:transfer" ]>
    (<[ Meta.Transactions.filter.limit := limit ]>
    (<[ Meta.Transactions.filter.senderAddress := Str senderAddress ]> ∅)) in
  let transactionFilterParams : Filter :=
    if isString "asc" order then
      <[ Meta.Transactions.filter.timestamp := Str (numberToString fromTimestamp +:+ ":") ]>
      (<[ Meta.Transactions.filter.sort := Str Meta.Transactions.sortBy.timestampAsc ]>
       transactionFilterParams)
    else
      <[ Meta.Transactions.filter.timestamp := Str ("0:" +:+ numberToString fromTimestamp) ]>
      (<[ Meta.Transactions.filter.sort := Str Meta.Transactions.sortBy.timestampDesc ]>
       transactionFilterParams) in
  getTransactions transactionFilterParams.

Definition getInboundTransactionsFromBlock (recipientAddress blockId : string)
  : Result (list (ServiceTransaction.t (list string))) :=
  getTransactions
    (<[ Meta.Transactions.filter.moduleCommand := Str "token:transfer" ]>
    (<[ Meta.Transactions.filter.blockId := Str blockId ]>
    (<[ Meta.Transactions.filter.recipientAddress := Str recipientAddress ]> ∅))).

Definition getOutboundTransactionsFromBlock (senderAddress blockId : string)
  : Result (list (ServiceTransaction.t (list string))) :=
  getTransactions
    (<[ Meta.Transactions.filter.moduleCommand := Str "token:transfer" ]>
    (<[ Meta.Transactions.filter.blockId := Str blockId ]>
    (<[ Meta.Transactions.filter.senderAddress := Str senderAddress ]> ∅))).

(** [getBlocksBetweenHeights(fromHeight, toHeight, limit)]: a height is
    a number, or [None] for [null] and [undefined]. *)
Definition getBlocksBetweenHeights (fromHeight toHeight : option Z) (limit : Value)
  : Result (list Block.t) :=
  let fromHeightString := match fromHeight with None => "" | Some h => numberToString h end in
  let toHeightString := match toHeight with None => "" | Some h => numberToString h end in
  let blockFilterParams : Filter :=
    <[ Meta.Blocks.filter.limit := limit ]>
    (<[ Meta.Blocks.filter.sort := Str Meta.Blocks.sortBy.heightAsc ]>
    (<[ Meta.Blocks.filter.height := Str (fromHeightString +:+ ":" +:+ toHeightString) ]> ∅)) in
  await blocks <- getBlocks blockFilterParams then
  Return (match blocks with
          | first :: rest =>
              if decide (Some (Block.height first) = fromHeight) then rest else blocks
          | [] => blocks
          end).

(** Modelled from the spec: [firstOrNull] of common/utils.js, which is
    not among the sources; the spec has [getLastBlock] return "the single
    block or a null/absent value if none" and [getBlockAtHeight] return
    the "first match or null".  [None] is the null value. *)
Definition firstOrNull {A} (list : list A) : option A :=
  match list with
  | first :: _ => Some first
  | [] => None
  end.

Definition getLastBlock : Result (option Block.t) :=
  let blockFilterParams : Filter :=
    <[ Meta.Blocks.filter.limit := Num 1 ]>
    (<[ Meta.Blocks.filter.sort := Str Meta.Blocks.sortBy.heightDesc ]> ∅) in
  await blocks <- getBlocks blockFilterParams then
  Return (firstOrNull blocks).

Definition getBlockAtHeight (height : Z) : Result (option Block.t) :=
  let blockFilterParams : Filter :=
    <[ Meta.Blocks.filter.height := Num height ]> ∅ in
  await blocks <- getBlocks blockFilterParams then
  Return (firstOrNull blocks).

End Methods.

End Repository.

(* ===================================================================== *)
(** ** liskv3/mapper.js *)
(* ===================================================================== *)

Module Mapper.

Section Mapper.

(** The hash function behind the identifier; which one is not said. *)
Variable deterministic_hash : string -> string -> string.

(** Modelled from the spec: [computeDEXTransactionId] of common/utils.js,
    which is not among the sources; the spec gives it as
    [id = deterministic_hash(senderAddress, nonce)], a fixed hash of these
    two values and of nothing else. *)
Definition computeDEXTransactionId (senderAddress nonce : string) : string :=
  deterministic_hash senderAddress nonce.

(** [transactionMapper = ({nonce, params: {amount, recipientAddress, data},
    sender, block: {timestamp}, signatures = []}) => ...]; [signatures] is
    [None] when the property is undefined. *)
Definition transactionMapper
    (transaction : ServiceTransaction.t (option (list SignaturePacket.t)))
  : DexTransaction.t :=
  let nonce := ServiceTransaction.nonce transaction in
  let amount := ServiceTransaction.amount (ServiceTransaction.params transaction) in
  let recipientAddress :=
    ServiceTransaction.recipientAddress (ServiceTransaction.params transaction) in
  let data := ServiceTransaction.data (ServiceTransaction.params transaction) in
  let sender := ServiceTransaction.sender transaction in
  let timestamp := ServiceTransaction.timestamp (ServiceTransaction.block transaction) in
  let signatures := default [] (ServiceTransaction.signatures transaction) in
  {| DexTransaction.id := computeDEXTransactionId (ServiceTransaction.address sender) nonce;
     DexTransaction.message := data;
     DexTransaction.amount := amount;
     DexTransaction.timestamp := timestamp;
     DexTransaction.senderAddress := ServiceTransaction.address sender;
     DexTransaction.recipientAddress := recipientAddress;
     DexTransaction.signatures := signatures;
     DexTransaction.nonce := nonce |}.

End Mapper.

(** [blockMapper = ({id, height, timestamp, numberOfTransactions}) =>
    ({id, height, timestamp, numberOfTransactions})] *)
Definition blockMapper (b : Block.t) : Block.t :=
  {| Block.id := Block.id b;
     Block.height := Block.height b;
     Block.timestamp := Block.timestamp b;
     Block.numberOfTransactions := Block.numberOfTransactions b |}.

End Mapper.

(* ===================================================================== *)
(** ** liskv3/adapter.js, class LiskV3DEXAdapter *)
(* ===================================================================== *)

Module Adapter.

(** What the adapter imports from the Lisk libraries, from lodash and
    from the language. *)
Record Library : Type := {
  (** [getBase32AddressFromPublicKey(publicKey, prefix)] *)
  getBase32AddressFromPublicKey : Buffer -> string -> string;
  (** [liskCryptography.address.getAddressFromLisk32Address(address)] *)
  getAddressFromLisk32Address : string -> Result Buffer;
  (** [liskTransactions.getBytes(signedTxn, tokenTransferSchema)] *)
  getBytes : SignedTxn.t -> Result Buffer;
  (** [BigInt(s)] *)
  BigInt : string -> Result Z;
  (** [shuffle(array)] of lodash, for the random draw of this call *)
  shuffle : list SignaturePacket.t -> list SignaturePacket.t;
  (** the hash behind [computeDEXTransactionId] of common/utils.js *)
  deterministic_hash : string -> string -> string
}.

(** [toBuffer] of common/utils.js, as the test suite of the adapter also
    defines it: [(data) => Buffer.from(data, 'hex')]. *)
Definition toBuffer (data : string) : Buffer := bufferFromHex data.

Record Config : Type := {
  config_dexWalletAddress : option string;
  config_chainSymbol : option string;
  config_repository : Repository.Config
}.

(** The fields of the adapter that the actions read.  The last two are
    assigned by [load]. *)
Record t : Type := {
  dexWalletAddress : option string;
  chainSymbol : string;
  liskServiceRepo : Repository.t;
  dexMultisigPublicKeys : list string;
  dexNumberOfSignatures : Z
}.

Section Actions.

Variable lib : Library.
Variable service : Repository.Service.

Local Open Scope js_scope.

(** [constructor] and then [load(channel)].  The calls on the host's
    channel are taken to return. *)
Definition load (config : Config) : Result t :=
  let dexWalletAddress := config_dexWalletAddress config in
  let chainSymbol :=
    match config_chainSymbol config with
    | Some symbol => if truthy (Str symbol) then symbol else "lsk"
    | None => "lsk"
    end in
  let liskServiceRepo := Repository.new (config_repository config) in
  match dexWalletAddress with
  | Some address =>
      if truthy (Str address) then
        await accountAuth <- Repository.getAuth service liskServiceRepo address then
        match accountAuth with
        | Some accountAuth =>
            Return {| dexWalletAddress := dexWalletAddress;
                      chainSymbol := chainSymbol;
                      liskServiceRepo := liskServiceRepo;
                      dexMultisigPublicKeys :=
                        arrayFromSet (AccountAuth.mandatoryKeys accountAuth
                                      ++ AccountAuth.optionalKeys accountAuth);
                      dexNumberOfSignatures := AccountAuth.numberOfSignatures accountAuth |}
        | None =>
            Throw (PlainError "Cannot read properties of undefined (reading 'mandatoryKeys')")
        end
      else Throw (PlainError "Dex wallet address not provided in the config")
  | None => Throw (PlainError "Dex wallet address not provided in the config")
  end.

Variable this : t.

(** [this.transactionMapper]: the signer of position [index] of the
    wallet's keys is attached to [transaction.signatures[index]]; the
    packets whose signature is undefined or empty are filtered out. *)
Definition transactionMapper (transaction : ServiceTransaction.t (list string))
  : DexTransaction.t :=
  let packets :=
    imap (fun index publicKey =>
            let signerAddress :=
              getBase32AddressFromPublicKey lib (toBuffer publicKey) (chainSymbol this) in
            (signerAddress, publicKey, ServiceTransaction.signatures transaction !! index))
         (dexMultisigPublicKeys this) in
  let kept :=
    omap (fun '(signerAddress, publicKey, signature) =>
            match signature with
            | Some signature =>
                if truthy (Str signature)
                then Some {| SignaturePacket.signerAddress := signerAddress;
                             SignaturePacket.publicKey := publicKey;
                             SignaturePacket.signature := signature |}
                else None
            | None => None
            end)
         packets in
  let sanitizedTransaction :=
    {| ServiceTransaction.id := ServiceTransaction.id transaction;
       ServiceTransaction.moduleCommand := ServiceTransaction.moduleCommand transaction;
       ServiceTransaction.nonce := ServiceTransaction.nonce transaction;
       ServiceTransaction.params := ServiceTransaction.params transaction;
       ServiceTransaction.sender := ServiceTransaction.sender transaction;
       ServiceTransaction.block := ServiceTransaction.block transaction;
       ServiceTransaction.signatures := Some kept |} in
  Mapper.transactionMapper (deterministic_hash lib) sanitizedTransaction.

Definition isMultisigAccount (accountAuth : AccountAuth.t) : bool :=
  (0 <? AccountAuth.numberOfSignatures accountAuth)%Z.

Definition notMultisigMessage (walletAddress : string) : string :=
  "Account with address " +:+ walletAddress +:+ " is not a multisig account".

Definition multisigLookupMessage (walletAddress : string) : string :=
  "Error getting multisig account with address " +:+ walletAddress.

Definition getMultisigWalletMembers (walletAddress : string) : Result (list string) :=
  try_catch
    (await accountAuth <- Repository.getAuth service (liskServiceRepo this) walletAddress then
     match accountAuth with
     | Some accountAuth =>
         if negb (isMultisigAccount accountAuth)
         then Throw (InvalidActionError accountWasNotMultisigError
                       (notMultisigMessage walletAddress) None)
         else Return (map (fun publicKey =>
                             getBase32AddressFromPublicKey lib (toBuffer publicKey)
                               (chainSymbol this))
                          (AccountAuth.optionalKeys accountAuth))
     | None =>
         Throw (InvalidActionError multisigAccountDidNotExistError
                  (multisigLookupMessage walletAddress) None)
     end)
    (fun err =>
       if isInvalidActionError err then Throw err
       else Throw (InvalidActionError multisigAccountDidNotExistError
                     (multisigLookupMessage walletAddress) (Some err))).

Definition getMinMultisigRequiredSignatures (walletAddress : string) : Result Z :=
  try_catch
    (await accountAuth <- Repository.getAuth service (liskServiceRepo this) walletAddress then
     match accountAuth with
     | Some accountAuth =>
         if negb (isMultisigAccount accountAuth)
         then Throw (InvalidActionError accountWasNotMultisigError
                       (notMultisigMessage walletAddress) None)
         else Return (AccountAuth.numberOfSignatures accountAuth)
     | None =>
         Throw (InvalidActionError multisigAccountDidNotExistError
                  (multisigLookupMessage walletAddress) None)
     end)
    (fun err =>
       if isInvalidActionError err then Throw err
       else Throw (InvalidActionError multisigAccountDidNotExistError
                     (multisigLookupMessage walletAddress) (Some err))).

Definition getOutboundTransactions (walletAddress : string) (fromTimestamp : Z)
    (limit order : Value) : Result (list DexTransaction.t) :=
  try_catch
    (await transactions <-
       Repository.getOutboundTransactions service (liskServiceRepo this)
         walletAddress fromTimestamp limit order then
     Return (map transactionMapper transactions))
    (fun err =>
       if notFound err then Return []
       else Throw (InvalidActionError accountDidNotExistError
                     ("Error getting outbound transactions with account address "
                      +:+ walletAddress) (Some err))).

(** The heights are rendered in the message as the filter renders
    numbers; [null] and [undefined] are not told apart by [None]. *)
Definition getBlocksBetweenHeights (fromHeight toHeight : option Z) (limit : Value)
  : Result (list Block.t) :=
  try_catch
    (await blocks <-
       Repository.getBlocksBetweenHeights service (liskServiceRepo this)
         fromHeight toHeight limit then
     Return (map Mapper.blockMapper blocks))
    (fun err =>
       if notFound err then Return []
       else Throw (InvalidActionError blockDidNotExistError
                     ("Error getting blocks between heights "
                      +:+ from_option numberToString "null" fromHeight +:+ " - "
                      +:+ from_option numberToString "null" toHeight) (Some err))).

Definition getInboundTransactionsFromBlock (walletAddress blockId : string)
  : Result (list DexTransaction.t) :=
  try_catch
    (await transactions <-
       Repository.getInboundTransactionsFromBlock service (liskServiceRepo this)
         walletAddress blockId then
     Return (map transactionMapper transactions))
    (fun err =>
       if notFound err then Return []
       else Throw (InvalidActionError accountDidNotExistError
                     ("Error getting inbound transactions with account address "
                      +:+ walletAddress) (Some err))).

Definition getOutboundTransactionsFromBlock (walletAddress blockId : string)
  : Result (list DexTransaction.t) :=
  try_catch
    (await transactions <-
       Repository.getOutboundTransactionsFromBlock service (liskServiceRepo this)
         walletAddress blockId then
     Return (map transactionMapper transactions))
    (fun err =>
       if notFound err then Return []
       else Throw (InvalidActionError accountDidNotExistError
                     ("Error getting outbound transactions with account address "
                      +:+ walletAddress) (Some err))).

Definition getMaxBlockHeight : Result Z :=
  try_catch
    (await block <- Repository.getLastBlock service (liskServiceRepo this) then
     match block with
     | Some block => Return (Block.height block)
     | None =>
         Throw (InvalidActionError blockDidNotExistError
                  "Error getting block at max height" None)
     end)
    (fun err =>
       if isInvalidActionError err then Throw err
       else Throw (InvalidActionError blockDidNotExistError
                     "Error getting block at max height" (Some err))).

Definition getBlockAtHeight (height : Z) : Result Block.t :=
  try_catch
    (await block <- Repository.getBlockAtHeight service (liskServiceRepo this) height then
     match block with
     | Some block => Return (Mapper.blockMapper block)
     | None =>
         Throw (InvalidActionError blockDidNotExistError
                  ("Error getting block at height " +:+ numberToString height) None)
     end)
    (fun err =>
       if isInvalidActionError err then Throw err
       else Throw (InvalidActionError blockDidNotExistError
                     ("Error getting block at height " +:+ numberToString height)
                     (Some err))).

(** *** [postTransaction({params: {transaction}})] *)

(** The choice of the signatures to send: the first packet, and the
    first [dexNumberOfSignatures - 1] of the others once shuffled. *)
Definition selectedSignatures (transaction : PreparedTransaction.t)
  : list SignaturePacket.t :=
  let signatures := PreparedTransaction.signatures transaction in
  match signatures with
  | first :: _ =>
      first :: slice (shuffle lib (slice signatures 1 None))
                     0 (Some (dexNumberOfSignatures this - 1))
  | [] => []
  end.

(** The object [publicKeySignatures]: created by [{}] and written by
    [publicKeySignatures[key] = signaturePacket].  Such an assignment
    gives the object a property of its own, except under the key
    ['__proto__'], the accessor of [Object.prototype], which makes the
    packet the prototype of the object instead; [None] is the prototype
    an object starts with, [Object.prototype]. *)
Record PublicKeySignatures : Type := {
  own : gmap string SignaturePacket.t;
  prototype : option SignaturePacket.t
}.

Definition assign (collected : PublicKeySignatures) (key : string)
    (signaturePacket : SignaturePacket.t) : PublicKeySignatures :=
  if String.eqb key "__proto__"
  then {| own := own collected; prototype := Some signaturePacket |}
  else {| own := <[ key := signaturePacket ]> (own collected);
          prototype := prototype collected |}.

(** What a property access on the object finds: a packet, a string (a
    property of the packet that is the prototype), a function or object
    of the language (a property of [Object.prototype]), or nothing. *)
Inductive Property : Type :=
| Packet (signaturePacket : SignaturePacket.t)
| Text (s : string)
| Builtin
| NoProperty.

(** A property of [Object.prototype], the end of the prototype chain. *)
Definition inherited (key : string) : Property :=
  if decide (key ∈ objectPrototypeNames) then Builtin else NoProperty.

(** [signaturePacket[key]] for a key that is not ['__proto__']. *)
Definition packetProperty (signaturePacket : SignaturePacket.t) (key : string) : Property :=
  if String.eqb key "signerAddress" then Text (SignaturePacket.signerAddress signaturePacket)
  else if String.eqb key "publicKey" then Text (SignaturePacket.publicKey signaturePacket)
  else if String.eqb key "signature" then Text (SignaturePacket.signature signaturePacket)
  else inherited key.

(** [publicKeySignatures[key]]: ['__proto__'] reads the prototype; any
    other key is looked up in the object, then along its prototypes. *)
Definition property (collected : PublicKeySignatures) (key : string) : Property :=
  if String.eqb key "__proto__" then
    match prototype collected with
    | Some signaturePacket => Packet signaturePacket
    | None => Builtin
    end
  else
    match own collected !! key with
    | Some signaturePacket => Packet signaturePacket
    | None =>
        match prototype collected with
        | Some signaturePacket => packetProperty signaturePacket key
        | None => inherited key
        end
    end.

(** The names of the properties of a packet. *)
Definition packetNames : list string := ["signerAddress"; "publicKey"; "signature"].

(** A key under which the object holds what the loop stored there and
    nothing else: it names no property of [Object.prototype] and no
    property of a packet.  A public key written in hexadecimal is such a
    key. *)
Definition ownKey (key : string) : Prop :=
  (key ∉ objectPrototypeNames) /\ (key ∉ packetNames).

(** The object once the [for ... of] loop has run. *)
Definition publicKeySignatures (selected : list SignaturePacket.t) : PublicKeySignatures :=
  foldl (fun collected signaturePacket =>
           assign collected (SignaturePacket.publicKey signaturePacket) signaturePacket)
        {| own := ∅; prototype := None |} selected.

(** [signaturePacket ? signaturePacket.signature : ''], [None] being
    [undefined]: a packet has a signature, the empty string is falsy, and
    neither another string nor a function has a property [signature]. *)
Definition signatureOrEmpty (signaturePacket : Property) : option string :=
  match signaturePacket with
  | Packet signaturePacket => Some (SignaturePacket.signature signaturePacket)
  | Text s => if truthy (Str s) then None else Some ""
  | Builtin => None
  | NoProperty => Some ""
  end.

(** [const signatures = this.dexMultisigPublicKeys.map(...)] *)
Definition signatures (selected : list SignaturePacket.t) : Result (list Buffer) :=
  arrayMap (fun memberPublicKey =>
              let signaturePacket := property (publicKeySignatures selected) memberPublicKey in
              bufferFrom (signatureOrEmpty signaturePacket))
           (dexMultisigPublicKeys this).

(** [let signedTxn = {...}], its properties evaluated in order. *)
Definition signedTxn (transaction : PreparedTransaction.t) : Result SignedTxn.t :=
  await signatures <- signatures (selectedSignatures transaction) then
  await nonce <- BigInt lib (PreparedTransaction.nonce transaction) then
  await fee <- BigInt lib (PreparedTransaction.fee transaction) then
  let senderPublicKey := bufferFromHex (PreparedTransaction.senderPublicKey transaction) in
  let tokenID := bufferFromHex (PreparedTransaction.tokenID transaction) in
  await recipientAddress <-
    getAddressFromLisk32Address lib (PreparedTransaction.recipientAddress transaction) then
  await amount <- BigInt lib (PreparedTransaction.amount transaction) then
  Return {| SignedTxn.module := "token";
            SignedTxn.command := "transfer";
            SignedTxn.nonce := nonce;
            SignedTxn.fee := fee;
            SignedTxn.senderPublicKey := senderPublicKey;
            SignedTxn.signatures := signatures;
            SignedTxn.params :=
              {| SignedTxn.tokenID := tokenID;
                 SignedTxn.recipientAddress := recipientAddress;
                 SignedTxn.amount := amount;
                 SignedTxn.data := PreparedTransaction.message transaction |} |}.

(** The [try] block: encode, submit, inspect the answer. *)
Definition broadcast (signedTxn : SignedTxn.t) : Result unit :=
  await binaryTxn <- getBytes lib signedTxn then
  let payloadTxn := bufferToHex binaryTxn in
  await response <- Repository.postTransaction service (liskServiceRepo this) payloadTxn then
  if negb (truthy response) || negb (truthy (prop "transactionID" response))
  then Throw (PlainError "Invalid transaction response")
  else Return tt.

Definition postTransaction (transaction : PreparedTransaction.t) : Result unit :=
  await signedTxn <- signedTxn transaction then
  try_catch
    (broadcast signedTxn)
    (fun err =>
       let baseMessage :=
         if truthy (Str (message err)) then " - " +:+ message err else "" in
       Throw (InvalidActionError transactionBroadcastError
                ("Error broadcasting transaction to the lisk network" +:+ baseMessage)
                (Some err))).

End Actions.

End Adapter.

(* ===================================================================== *)
(** ** The remote index, as the repository relies on it *)
(* ===================================================================== *)

(** How the service reads the filters the repository builds, after the
    comments of lisk-service/meta.js: a filter on [height] or [timestamp]
    "can be expressed as an interval ie. 1:20", both ends included, an
    empty end leaving that side open; [sort] names a key and a direction. *)
Module Index.

(** The text before and after the first colon. *)
Fixpoint splitAtColon (s : string) : option (string * string) :=
  match s with
  | EmptyString => None
  | String c rest =>
      if Ascii.eqb c ":" then Some (EmptyString, rest)
      else match splitAtColon rest with
           | Some (before, after) => Some (String c before, after)
           | None => None
           end
  end.

Definition parseBound (s : string) : option (option Z) :=
  if String.eqb s "" then Some None
  else match NilZero.int_of_string s with
       | Some d => Some (Some (Z.of_int d))
       | None => None
       end.

Definition parseInterval (s : string) : option (option Z * option Z) :=
  match splitAtColon s with
  | Some (lo, hi) =>
      match parseBound lo, parseBound hi with
      | Some lo, Some hi => Some (lo, hi)
      | _, _ => None
      end
  | None => None
  end.

Definition within (interval : option Z * option Z) (x : Z) : Prop :=
  (forall lo, interval.1 = Some lo -> lo <= x) /\
  (forall hi, interval.2 = Some hi -> x <= hi).

(** An answer honours a filter on blocks. *)
Definition honoursBlocks (f : Filter) (answer : list Block.t) : Prop :=
  (forall text interval,
      f !! Meta.Blocks.filter.height = Some (Str text) ->
      parseInterval text = Some interval ->
      Forall (fun b => within interval (Block.height b)) answer) /\
  (f !! Meta.Blocks.filter.sort = Some (Str Meta.Blocks.sortBy.heightAsc) ->
      Sorted Z.le (map Block.height answer)) /\
  (f !! Meta.Blocks.filter.sort = Some (Str Meta.Blocks.sortBy.heightDesc) ->
      Sorted Z.ge (map Block.height answer)).

Definition txTimestamp {Sigs} (tx : ServiceTransaction.t Sigs) : Z :=
  ServiceTransaction.timestamp (ServiceTransaction.block tx).

Definition txSender {Sigs} (tx : ServiceTransaction.t Sigs) : string :=
  ServiceTransaction.address (ServiceTransaction.sender tx).

(** An answer honours a filter on transactions. *)
Definition honoursTransactions {Sigs} (f : Filter)
    (answer : list (ServiceTransaction.t Sigs)) : Prop :=
  (forall address,
      f !! Meta.Transactions.filter.senderAddress = Some (Str address) ->
      Forall (fun tx => txSender tx = address) answer) /\
  (forall name,
      f !! Meta.Transactions.filter.moduleCommand = Some (Str name) ->
      Forall (fun tx => ServiceTransaction.moduleCommand tx = name) answer) /\
  (forall text interval,
      f !! Meta.Transactions.filter.timestamp = Some (Str text) ->
      parseInterval text = Some interval ->
      Forall (fun tx => within interval (txTimestamp tx)) answer) /\
  (f !! Meta.Transactions.filter.sort = Some (Str Meta.Transactions.sortBy.timestampAsc) ->
      Sorted Z.le (map txTimestamp answer)) /\
  (f !! Meta.Transactions.filter.sort = Some (Str Meta.Transactions.sortBy.timestampDesc) ->
      Sorted Z.ge (map txTimestamp answer)).

(** A filter on [height] that is a number asks for that height. *)
Definition honoursExactHeight (f : Filter) (answer : list Block.t) : Prop :=
  forall h,
    f !! Meta.Blocks.filter.height = Some (Num h) ->
    Forall (fun b => Block.height b = h) answer.

(** A filter on [recipientAddress]. *)
Definition honoursRecipient {Sigs} (f : Filter)
    (answer : list (ServiceTransaction.t Sigs)) : Prop :=
  forall address,
    f !! Meta.Transactions.filter.recipientAddress = Some (Str address) ->
    Forall (fun tx => ServiceTransaction.recipientAddress (ServiceTransaction.params tx)
                      = address) answer.

End Index.

(* ===================================================================== *)
(** ** The configuration of the client with fallbacks *)
(* ===================================================================== *)

(** [getDefaultHttpClientConfig] of the repository class that sits on
    the client with fallbacks (the class with [defaultTestNetUrl] and
    [defaultMainNetUrl]). *)
Module ClientConfig.

Definition defaultTestNetUrl : string := "https://testnet-service.lisk.com".
Definition defaultMainNetUrl : string := "https://service.lisk.com".

(** The properties of [config] the function reads; [None] is an
    undefined property. *)
Record Config : Type := {
  env : option string;
  liskServiceHost : option string;
  liskServiceHostFallbacks : option (list string)
}.

(** The function returns [{baseUrl, fallbacks}] and leaves an empty array
    in [config.liskServiceHostFallbacks] when it found none: the second
    component is [config] after the call. *)
Definition getDefaultHttpClientConfig (config : Config) : HttpClient.Config * Config :=
  let defaultUrl :=
    match env config with
    | Some name => if String.eqb name "test" then defaultTestNetUrl else defaultMainNetUrl
    | None => defaultMainNetUrl
    end in
  let baseUrl :=
    match liskServiceHost config with
    | Some host => if truthy (Str host) then host else defaultUrl
    | None => defaultUrl
    end in
  let config :=
    match liskServiceHostFallbacks config with
    | Some _ => config
    | None => {| env := env config;
                 liskServiceHost := liskServiceHost config;
                 liskServiceHostFallbacks := Some [] |}
    end in
  let fallbacks := default [] (liskServiceHostFallbacks config) ++ [defaultUrl] in
  ({| HttpClient.baseUrl := baseUrl; HttpClient.fallbacks := fallbacks |}, config).

End ClientConfig.

(* ===================================================================== *)
(** ** A small world to run the adapter in *)
(* ===================================================================== *)

(** A wallet with one mandatory and two optional keys and a threshold of
    two, a service that knows that account alone and answers every
    submission the same way, and stand-ins for the library calls. *)
Module Fixtures.

Definition account : AccountAuth.t :=
  {| AccountAuth.mandatoryKeys := ["aa"];
     AccountAuth.optionalKeys := ["bb"; "cc"];
     AccountAuth.numberOfSignatures := 2 |}.

Definition service (submission : Result Value) : Repository.Service :=
  {| Repository.axios_get := fun r _ _ =>
       match r return Result (Repository.Response (Repository.Envelope r)) with
       | Repository.Auth =>
           Return {| Repository.body :=
                       Repository.Build_Envelope Repository.Auth (Some account) |}
       | Repository.Blocks =>
           Return {| Repository.body := Repository.Build_Envelope Repository.Blocks [] |}
       | Repository.Transactions =>
           Return {| Repository.body := Repository.Build_Envelope Repository.Transactions [] |}
       end;
     Repository.axios_post := fun _ _ =>
       match submission with
       | Return answer => Return {| Repository.body := answer |}
       | Throw e => Throw e
       end |}.

Definition lib : Adapter.Library :=
  {| Adapter.getBase32AddressFromPublicKey := fun publicKey prefix =>
       prefix +:+ bufferToHex publicKey;
     Adapter.getAddressFromLisk32Address := fun address => Return (bufferFromHex address);
     Adapter.getBytes := fun signed => Return (concat (SignedTxn.signatures signed));
     Adapter.BigInt := fun text =>
       match NilZero.int_of_string text with
       | Some d => Return (Z.of_int d)
       | None => Throw (PlainError ("Cannot convert " +:+ text +:+ " to a BigInt"))
       end;
     Adapter.shuffle := reverse;
     Adapter.deterministic_hash := fun senderAddress nonce => senderAddress +:+ "-" +:+ nonce |}.

Definition config : Adapter.Config :=
  {| Adapter.config_dexWalletAddress := Some "lskdex";
     Adapter.config_chainSymbol := None;
     Adapter.config_repository :=
       {| Repository.config_serviceURL := None; Repository.ackTimeout := None |} |}.

(** The adapter once loaded. *)
Definition adapter : Adapter.t :=
  {| Adapter.dexWalletAddress := Some "lskdex";
     Adapter.chainSymbol := "lsk";
     Adapter.liskServiceRepo := Repository.new (Adapter.config_repository config);
     Adapter.dexMultisigPublicKeys := ["aa"; "bb"; "cc"];
     Adapter.dexNumberOfSignatures := 2 |}.

Definition packet (publicKey : string) : SignaturePacket.t :=
  {| SignaturePacket.signerAddress := "lsk" +:+ publicKey;
     SignaturePacket.publicKey := publicKey;
     SignaturePacket.signature := publicKey +:+ "01" |}.

Definition transaction (packets : list SignaturePacket.t) : PreparedTransaction.t :=
  {| PreparedTransaction.signatures := packets;
     PreparedTransaction.nonce := "1";
     PreparedTransaction.fee := "700000";
     PreparedTransaction.senderPublicKey := "aa";
     PreparedTransaction.tokenID := "0000000000000000";
     PreparedTransaction.recipientAddress := "0102";
     PreparedTransaction.amount := "20000000";
     PreparedTransaction.message := "testing" |}.

Definition accepted : Value :=
  Obj [("message", Str "Transaction payload was successfully passed to the network node.");
       ("transactionID", Str "bfd3521aeddd5f2b")].

(** A service given by what it answers for each resource and for a
    submission, whatever the URL and the parameters. *)
Definition index (auth : Result (option AccountAuth.t)) (blocks : Result (list Block.t))
    (transactions : Result (list (ServiceTransaction.t (list string))))
    (submission : Result Value) : Repository.Service :=
  {| Repository.axios_get := fun r _ _ =>
       match r return Result (Repository.Response (Repository.Envelope r)) with
       | Repository.Auth =>
           match auth with
           | Return a =>
               Return {| Repository.body := Repository.Build_Envelope Repository.Auth a |}
           | Throw e => Throw e
           end
       | Repository.Blocks =>
           match blocks with
           | Return l =>
               Return {| Repository.body := Repository.Build_Envelope Repository.Blocks l |}
           | Throw e => Throw e
           end
       | Repository.Transactions =>
           match transactions with
           | Return l =>
               Return {| Repository.body :=
                           Repository.Build_Envelope Repository.Transactions l |}
           | Throw e => Throw e
           end
       end;
     Repository.axios_post := fun _ _ =>
       match submission with
       | Return answer => Return {| Repository.body := answer |}
       | Throw e => Throw e
       end |}.

(** A service that fails every request with the same error. *)
Definition unreachable (err : Error) : Repository.Service :=
  index (Throw err) (Throw err) (Throw err) (Throw err).

Definition block (height : Z) : Block.t :=
  {| Block.id := "block" +:+ numberToString height;
     Block.height := height;
     Block.timestamp := 1700000000 + 10 * height;
     Block.numberOfTransactions := 0 |}.

(** A transfer as the service reports it, with its signatures in
    hexadecimal. *)
Definition transfer (sender recipient : string) (timestamp : Z) (signatures : list string)
  : ServiceTransaction.t (list string) :=
  {| ServiceTransaction.id := "upstream";
     ServiceTransaction.moduleCommand := "token:transfer";
     ServiceTransaction.nonce := "7";
     ServiceTransaction.params :=
       {| ServiceTransaction.amount := "100";
          ServiceTransaction.recipientAddress := recipient;
          ServiceTransaction.data := "" |};
     ServiceTransaction.sender := {| ServiceTransaction.address := sender |};
     ServiceTransaction.block := {| ServiceTransaction.timestamp := timestamp |};
     ServiceTransaction.signatures := signatures |}.

End Fixtures.

(* ===================================================================== *)
(** * Properties *)
(* ===================================================================== *)

(** ** The client with fallbacks *)

Module HttpClientFacts.

Import HttpClient.

Section Loop.

Variable answer : nat -> string -> Result Value.
Variable path : string.

Let requestFn : string -> Task Value := fun baseUrl => request answer (baseUrl +:+ path).
Let url : string -> string := fun baseUrl => baseUrl +:+ path.

(** The fallbacks are tried in order while they fail; when all have
    failed the loop ends with [null]. *)
Lemma tryWithFallbackFrom_exhausted (remaining : list string) (t : Trace) :
  (forall j fallback, remaining !! j = Some fallback ->
     exists e, answer (length (requests t) + j)%nat (url fallback) = Throw e) ->
  tryWithFallbackFrom requestFn remaining t
  = (Return Null,
     {| requests := requests t ++ map url remaining;
        warnings := warnings t ++ map fallbackWarning remaining |}).
Proof.
  revert t. induction remaining as [|fallback rest IH]; intros t Hfail.
  - cbn. rewrite !app_nil_r. by destruct t.
  - destruct (Hfail 0%nat fallback eq_refl) as [e He].
    rewrite Nat.add_0_r in He.
    cbn [tryWithFallbackFrom]. unfold catch, requestFn at 1, request.
    fold (url fallback). rewrite He.
    unfold andThen, warn. cbn [requests warnings].
    rewrite IH.
    + cbn [requests warnings map]. by rewrite <- !app_assoc.
    + intros j g Hg. cbn [requests]. rewrite length_app. cbn [length].
      replace (length (requests t) + 1 + j)%nat with (length (requests t) + S j)%nat by lia.
      by apply Hfail.
Qed.

(** The loop returns the answer of the first fallback that does not
    throw, and requests nothing after it. *)
Lemma tryWithFallbackFrom_first_success
    (failed : list string) (fallback : string) (rest : list string)
    (response : Value) (t : Trace) :
  (forall j earlier, failed !! j = Some earlier ->
     exists e, answer (length (requests t) + j)%nat (url earlier) = Throw e) ->
  answer (length (requests t) + length failed)%nat (url fallback) = Return response ->
  tryWithFallbackFrom requestFn (failed ++ fallback :: rest) t
  = (Return response,
     {| requests := requests t ++ map url (failed ++ [fallback]);
        warnings := warnings t ++ map fallbackWarning failed |}).
Proof.
  revert t. induction failed as [|g failed IH]; intros t Hfail Hok.
  - cbn [app length] in *. rewrite Nat.add_0_r in Hok.
    cbn [tryWithFallbackFrom]. unfold catch, requestFn at 1, request.
    fold (url fallback). rewrite Hok. cbn. by rewrite app_nil_r.
  - destruct (Hfail 0%nat g eq_refl) as [e He].
    rewrite Nat.add_0_r in He.
    cbn [app tryWithFallbackFrom]. unfold catch, requestFn at 1, request.
    fold (url g). rewrite He.
    unfold andThen, warn. cbn [requests warnings].
    rewrite IH.
    + cbn [requests warnings map app]. by rewrite <- !app_assoc.
    + intros j earlier Hj. cbn [requests]. rewrite length_app. cbn [length].
      replace (length (requests t) + 1 + j)%nat with (length (requests t) + S j)%nat by lia.
      by apply Hfail.
    + cbn [requests]. rewrite length_app. cbn [length] in *.
      replace (length (requests t) + 1 + length failed)%nat
        with (length (requests t) + S (length failed))%nat by lia.
      exact Hok.
Qed.

End Loop.

Section Calls.

Context {Params Payload : Type}.
Variable axios_get : nat -> string -> Params -> Result Value.
Variable axios_post : nat -> string -> Payload -> Result Value.
Variable config : Config.

(** X6: when the primary endpoint and every fallback refuse a
    submission, [post] throws the error of the primary endpoint, after
    sending the payload once to each endpoint in the declared order. *)
Lemma post_exhausted_raises_primary_error (path : string) (payload : Payload) (err : Error) :
  axios_post 0%nat (baseUrl config +:+ path) payload = Throw err ->
  (forall j fallback, fallbacks config !! j = Some fallback ->
     exists e, axios_post (S j) (fallback +:+ path) payload = Throw e) ->
  post axios_post config path payload start
  = (Throw err,
     {| requests := (baseUrl config +:+ path)
                    :: map (fun fallback => fallback +:+ path) (fallbacks config);
        warnings := postWarning config :: map fallbackWarning (fallbacks config) |}).
Proof.
  intros Hprimary Hfallbacks.
  unfold post, catch, HttpPostRequestFn at 1, request. cbn [start requests length].
  rewrite Hprimary. unfold andThen at 1, warn. cbn [requests warnings app].
  unfold andThen, tryWithFallback, HttpPostRequestFn.
  rewrite (tryWithFallbackFrom_exhausted (fun n url => axios_post n url payload) path).
  - reflexivity.
  - intros j fallback Hj. cbn [requests length Nat.add]. by apply Hfallbacks.
Qed.

(** C3: when the primary request and every fallback request fail, the
    client throws the error of the primary request, whatever the
    fallbacks threw, in [get] and in [post] alike: each has asked every
    endpoint once, in the declared order, and has warned once per
    endpoint that failed.  The list of fallbacks may be empty. *)
Theorem exhausted_raises_primary_error (path : string) (params : Params) (payload : Payload)
    (getError postError : Error) :
  (axios_get 0%nat (baseUrl config +:+ path) params = Throw getError ->
   (forall j fallback, fallbacks config !! j = Some fallback ->
      exists e, axios_get (S j) (fallback +:+ path) params = Throw e) ->
   get axios_get config path params start
   = (Throw getError,
      {| requests := (baseUrl config +:+ path)
                     :: map (fun fallback => fallback +:+ path) (fallbacks config);
         warnings := getWarning config :: map fallbackWarning (fallbacks config) |})) /\
  (axios_post 0%nat (baseUrl config +:+ path) payload = Throw postError ->
   (forall j fallback, fallbacks config !! j = Some fallback ->
      exists e, axios_post (S j) (fallback +:+ path) payload = Throw e) ->
   post axios_post config path payload start
   = (Throw postError,
      {| requests := (baseUrl config +:+ path)
                     :: map (fun fallback => fallback +:+ path) (fallbacks config);
         warnings := postWarning config :: map fallbackWarning (fallbacks config) |})).
Proof.
  split; intros Hprimary Hfallbacks.
  - unfold get, catch, HttpGetRequestFn at 1, request. cbn [start requests length].
    rewrite Hprimary. unfold andThen at 1, warn. cbn [requests warnings app].
    unfold andThen, tryWithFallback, HttpGetRequestFn.
    rewrite (tryWithFallbackFrom_exhausted (fun n url => axios_get n url params) path).
    + reflexivity.
    + intros j fallback Hj. cbn [requests length Nat.add]. by apply Hfallbacks.
  - unfold post, catch, HttpPostRequestFn at 1, request. cbn [start requests length].
    rewrite Hprimary. unfold andThen at 1, warn. cbn [requests warnings app].
    unfold andThen, tryWithFallback, HttpPostRequestFn.
    rewrite (tryWithFallbackFrom_exhausted (fun n url => axios_post n url payload) path).
    + reflexivity.
    + intros j fallback Hj. cbn [requests length Nat.add]. by apply Hfallbacks.
Qed.

(** C2, as the code has it: when the primary request fails and the
    fallback of position [k] is the first one that answers, [get] requests
    the primary and the fallbacks up to that one and no other, warns once
    for each endpoint that failed, and returns the answer if it is truthy;
    a falsy answer is not told apart from the [null] of an exhausted list,
    and the error of the primary request is thrown. *)
Theorem get_first_answering_fallback (path : string) (params : Params)
    (k : nat) (fallback : string) (response : Value) (err : Error) :
  fallbacks config !! k = Some fallback ->
  axios_get 0%nat (baseUrl config +:+ path) params = Throw err ->
  (forall j earlier, (j < k)%nat -> fallbacks config !! j = Some earlier ->
     exists e, axios_get (S j) (earlier +:+ path) params = Throw e) ->
  axios_get (S k) (fallback +:+ path) params = Return response ->
  get axios_get config path params start
  = (if truthy response then Return response else Throw err,
     {| requests := (baseUrl config +:+ path)
                    :: map (fun f => f +:+ path) (take (S k) (fallbacks config));
        warnings := getWarning config :: map fallbackWarning (take k (fallbacks config)) |}).
Proof.
  intros Hk Hprimary Hearlier Hanswer.
  unfold get, catch, HttpGetRequestFn at 1, request. cbn [start requests length].
  rewrite Hprimary. unfold andThen at 1, warn. cbn [requests warnings app].
  unfold andThen, tryWithFallback, HttpGetRequestFn.
  rewrite <- (take_drop_middle _ _ _ Hk) at 1.
  assert (Hlen : length (take k (fallbacks config)) = k).
  { apply length_take_le. apply lookup_lt_Some in Hk. lia. }
  rewrite (tryWithFallbackFrom_first_success (fun n url => axios_get n url params) path
             _ _ _ response).
  - cbn [requests warnings app]. rewrite (take_S_r _ _ _ Hk).
    by destruct (truthy response).
  - intros j earlier Hj. cbn [requests length Nat.add].
    pose proof (lookup_lt_Some _ _ _ Hj) as Hlt. rewrite Hlen in Hlt.
    rewrite lookup_take_lt in Hj by lia. by apply (Hearlier j).
  - cbn [requests length Nat.add]. by rewrite Hlen.
Qed.

(** X5: the same for [post]: when the primary endpoint refuses a
    submission and the fallback of position [k] is the first to answer,
    the payload has been sent once to the primary endpoint and to each
    fallback up to that one, and to no later fallback; a truthy answer is
    returned, a falsy one gives the error of the primary endpoint. *)
Lemma post_first_answering_fallback (path : string) (payload : Payload)
    (k : nat) (fallback : string) (response : Value) (err : Error) :
  fallbacks config !! k = Some fallback ->
  axios_post 0%nat (baseUrl config +:+ path) payload = Throw err ->
  (forall j earlier, (j < k)%nat -> fallbacks config !! j = Some earlier ->
     exists e, axios_post (S j) (earlier +:+ path) payload = Throw e) ->
  axios_post (S k) (fallback +:+ path) payload = Return response ->
  post axios_post config path payload start
  = (if truthy response then Return response else Throw err,
     {| requests := (baseUrl config +:+ path)
                    :: map (fun f => f +:+ path) (take (S k) (fallbacks config));
        warnings := postWarning config :: map fallbackWarning (take k (fallbacks config)) |}).
Proof.
  intros Hk Hprimary Hearlier Hanswer.
  unfold post, catch, HttpPostRequestFn at 1, request. cbn [start requests length].
  rewrite Hprimary. unfold andThen at 1, warn. cbn [requests warnings app].
  unfold andThen, tryWithFallback, HttpPostRequestFn.
  rewrite <- (take_drop_middle _ _ _ Hk) at 1.
  assert (Hlen : length (take k (fallbacks config)) = k).
  { apply length_take_le. apply lookup_lt_Some in Hk. lia. }
  rewrite (tryWithFallbackFrom_first_success (fun n url => axios_post n url payload) path
             _ _ _ response).
  - cbn [requests warnings app]. rewrite (take_S_r _ _ _ Hk).
    by destruct (truthy response).
  - intros j earlier Hj. cbn [requests length Nat.add].
    pose proof (lookup_lt_Some _ _ _ Hj) as Hlt. rewrite Hlen in Hlt.
    rewrite lookup_take_lt in Hj by lia. by apply (Hearlier j).
  - cbn [requests length Nat.add]. by rewrite Hlen.
Qed.

End Calls.

(** A primary endpoint and two fallbacks, none of which answers a query
    or accepts a submission. *)
Lemma exhausted_raises_primary_error_witness :
  let config := {| baseUrl := "https://primary"; fallbacks := ["https://a"; "https://b"] |} in
  let axios_get := fun (n : nat) (url : string) (_ : unit) =>
                     @Throw Value (HttpError url (Some 503)) in
  let axios_post := fun (n : nat) (url : string) (_ : Value) =>
                      @Throw Value (HttpError url (if (n =? 0)%nat then Some 409 else None)) in
  get axios_get config "/api/v3/blocks" tt start
  = (Throw (HttpError "https://primary/api/v3/blocks" (Some 503)),
     {| requests := ["https://primary/api/v3/blocks"; "https://a/api/v3/blocks";
                     "https://b/api/v3/blocks"];
        warnings := [getWarning config; fallbackWarning "https://a";
                     fallbackWarning "https://b"] |}) /\
  post axios_post config "/api/v3/transactions" (Obj [("transaction", Str "0a")]) start
  = (Throw (HttpError "https://primary/api/v3/transactions" (Some 409)),
     {| requests := ["https://primary/api/v3/transactions"; "https://a/api/v3/transactions";
                     "https://b/api/v3/transactions"];
        warnings := [postWarning config; fallbackWarning "https://a";
                     fallbackWarning "https://b"] |}).
Proof.
  intros config axios_get axios_post. split.
  - apply (exhausted_raises_primary_error axios_get axios_post config "/api/v3/blocks"
             tt Null (HttpError "https://primary/api/v3/blocks" (Some 503))
             (HttpError "" None)).
    + reflexivity.
    + intros j fallback _. eexists. reflexivity.
  - apply (exhausted_raises_primary_error
             (fun (n : nat) (url : string) (_ : unit) => @Throw Value (HttpError url None))
             axios_post config "/api/v3/transactions"
             tt (Obj [("transaction", Str "0a")]) (HttpError "" None)
             (HttpError "https://primary/api/v3/transactions" (Some 409))).
    + reflexivity.
    + intros j fallback _. eexists. reflexivity.
Defined.

(** The primary fails, the first fallback fails, the second answers. *)
Lemma get_first_answering_fallback_witness :
  let config := {| baseUrl := "https://primary";
                   fallbacks := ["https://a"; "https://b"; "https://c"] |} in
  let block := Obj [("data", Arr [Obj [("height", Num 100)]])] in
  let axios_get := fun (n : nat) (url : string) (_ : unit) =>
                     if (n <? 2)%nat then Throw (HttpError url None) else Return block in
  get axios_get config "/api/v3/blocks" tt start
  = (Return block,
     {| requests := ["https://primary/api/v3/blocks"; "https://a/api/v3/blocks";
                     "https://b/api/v3/blocks"];
        warnings := [getWarning config; fallbackWarning "https://a"] |}).
Proof.
  intros config block axios_get.
  refine (get_first_answering_fallback axios_get config "/api/v3/blocks" tt
            1%nat "https://b" block (HttpError "https://primary/api/v3/blocks" None)
            eq_refl eq_refl _ eq_refl).
  intros j earlier Hj Hearlier.
  destruct j as [|j]; [|lia].
  eexists; reflexivity.
Defined.

(** C2 as stated fails: a fallback that answers with a falsy value (here
    the empty string) does not make [get] return that value. *)
Lemma get_falsy_fallback_answer_not_returned :
  ~ (forall (axios_get : nat -> string -> unit -> Result Value) (config : Config)
       (path : string) (k : nat) (fallback : string) (response : Value) (err : Error),
       fallbacks config !! k = Some fallback ->
       axios_get 0%nat (baseUrl config +:+ path) tt = Throw err ->
       (forall j earlier, (j < k)%nat -> fallbacks config !! j = Some earlier ->
          exists e, axios_get (S j) (earlier +:+ path) tt = Throw e) ->
       axios_get (S k) (fallback +:+ path) tt = Return response ->
       (get axios_get config path tt start).1 = Return response).
Proof.
  intros claim.
  specialize (claim
    (fun n _ _ => match n with
                  | O => Throw (HttpError "connect ECONNREFUSED" None)
                  | S _ => Return (Str "")
                  end)
    {| baseUrl := "https://primary"; fallbacks := ["https://fallback"] |}
    "/api/v3/fees" 0%nat "https://fallback" (Str "")
    (HttpError "connect ECONNREFUSED" None)
    eq_refl eq_refl).
  cbv in claim.
  assert (H : @Throw Value (HttpError "connect ECONNREFUSED" None) = Return (Str "")).
  { apply claim; [intros j earlier Hj; lia | reflexivity]. }
  discriminate H.
Qed.

End HttpClientFacts.

(** ** Intervals as the repository renders them *)

Module IndexFacts.

Import Index.












End IndexFacts.

(** ** The repository *)

Module RepositoryFacts.

Import Repository.

(** Ascending without repetition is strictly ascending. *)
Lemma Sorted_le_NoDup_lt (l : list Z) :
  Sorted Z.le l -> NoDup l -> StronglySorted Z.lt l.
Proof.
  intros Hsorted Hnodup.
  apply Sorted_StronglySorted in Hsorted; [|intros x y z; lia].
  induction Hsorted as [|x l Hl IH Hx]; [constructor|].
  apply NoDup_cons in Hnodup as [Hnotin Hnodup].
  constructor; [by apply IH|].
  rewrite Forall_forall in Hx |- *. intros y Hy.
  specialize (Hx y Hy).
  assert (x <> y) by (intros ->; apply Hnotin; by apply list_elem_of_In).
  lia.
Qed.

Section Facts.

Variable service : Service.
Variable this : t.

(** C4: [getBlocksBetweenHeights(fromHeight, toHeight, limit)] asks for
    the interval [`${fromHeight}:${toHeight}`], an absent bound rendered
    as the empty string, sorted by ascending height, with the given limit.
    When the index answers that filter with blocks of the inclusive
    interval, a side without a bound being open, in ascending order of
    height, no height twice, the blocks returned are the answer without
    its first block if that one is at [fromHeight]: every returned block
    is above [fromHeight] (so none is at [fromHeight]) and at most at
    [toHeight], and heights are strictly ascending. *)
Theorem getBlocksBetweenHeights_above_fromHeight
    (fromHeight toHeight : option Z) (limit : Value) (answer : list Block.t) :
  let blockFilterParams : Filter :=
    <[ "limit" := limit ]>
    (<[ "sort" := Str "height:asc" ]>
    (<[ "height" := Str (from_option numberToString "" fromHeight +:+ ":"
                         +:+ from_option numberToString "" toHeight) ]> ∅)) in
  axios_get service Blocks (serviceURL this +:+ "/api/v3/blocks") blockFilterParams
    = Return {| body := Build_Envelope Blocks answer |} ->
  Forall (fun b => (forall h1, fromHeight = Some h1 -> h1 <= Block.height b) /\
                   (forall h2, toHeight = Some h2 -> Block.height b <= h2)) answer ->
  Sorted Z.le (map Block.height answer) ->
  NoDup (map Block.height answer) ->
  exists blocks,
    getBlocksBetweenHeights service this fromHeight toHeight limit = Return blocks /\
    (blocks = answer \/ exists first, answer = first :: blocks) /\
    (forall h1, fromHeight = Some h1 ->
       Forall (fun b => h1 < Block.height b /\ Block.height b <> h1) blocks) /\
    (forall h2, toHeight = Some h2 -> Forall (fun b => Block.height b <= h2) blocks) /\
    StronglySorted Z.lt (map Block.height blocks).
Proof.
  intros blockFilterParams Hanswer Hwithin Hsort Hnodup.
  assert (Hstrict : StronglySorted Z.lt (map Block.height answer)).
  { by apply Sorted_le_NoDup_lt. }
  assert (Hcall : getBlocks service this blockFilterParams = Return answer).
  { unfold getBlocks, get, path, Meta.Blocks.path. by rewrite Hanswer. }
  unfold getBlocksBetweenHeights.
  change (getBlocks service this _) with (getBlocks service this blockFilterParams).
  rewrite Hcall. cbn [bind].
  destruct answer as [|first rest].
  { exists []. split; [done|]. split; [by left|].
    split; [intros; constructor|]. split; [intros; constructor|constructor]. }
  cbn [map] in Hstrict. apply StronglySorted_inv in Hstrict as [Hrest Hfirst].
  apply Forall_cons in Hwithin as [[Hlo Hhi] Htail].
  case_decide as Hstrip.
  - exists rest. split; [done|]. split; [right; by exists first|].
    split; [|split; [|done]].
    + intros h1 ->. injection Hstrip as Hh1.
      apply List.Forall_forall. intros b Hb.
      assert (Block.height first < Block.height b).
      { eapply List.Forall_forall; [exact Hfirst|]. by apply in_map. }
      lia.
    + intros h2 ->. eapply Forall_impl; [exact Htail|].
      intros b [_ Hb]. by apply Hb.
  - exists (first :: rest). split; [done|]. split; [by left|].
    split; [|split; [|by constructor]].
    + intros h1 ->.
      assert (h1 < Block.height first).
      { specialize (Hlo h1 eq_refl).
        assert (Block.height first <> h1) by congruence. lia. }
      constructor; [lia|].
      apply List.Forall_forall. intros b Hb.
      assert (Block.height first < Block.height b).
      { eapply List.Forall_forall; [exact Hfirst|]. by apply in_map. }
      lia.
    + intros h2 ->. constructor; [by apply Hhi|].
      eapply Forall_impl; [exact Htail|].
      intros b [_ Hb]. by apply Hb.
Qed.


End Facts.

(** An index holding blocks 100 and 101, asked for [100:101]. *)
Lemma getBlocksBetweenHeights_above_fromHeight_witness :
  let block := fun h => {| Block.id := numberToString h; Block.height := h;
                           Block.timestamp := 10 * h; Block.numberOfTransactions := 0 |} in
  let service :=
    {| axios_get := fun r _ _ =>
         match r return Result (Response (Envelope r)) with
         | Blocks => Return {| body := Build_Envelope Blocks [block 100; block 101] |}
         | Auth => Return {| body := Build_Envelope Auth None |}
         | Transactions => Return {| body := Build_Envelope Transactions [] |}
         end;
       axios_post := fun _ _ => Throw (HttpError "Network Error" None) |} in
  let this := new {| config_serviceURL := None; ackTimeout := None |} in
  exists blocks,
    getBlocksBetweenHeights service this (Some 100) (Some 101) (Num 10) = Return blocks /\
    (blocks = [block 100; block 101] \/ exists first, [block 100; block 101] = first :: blocks) /\
    (forall h1, Some 100 = Some h1 ->
       Forall (fun b => h1 < Block.height b /\ Block.height b <> h1) blocks) /\
    (forall h2, Some 101 = Some h2 -> Forall (fun b => Block.height b <= h2) blocks) /\
    StronglySorted Z.lt (map Block.height blocks).
Proof.
  intros block service this.
  apply (getBlocksBetweenHeights_above_fromHeight service this (Some 100) (Some 101)
           (Num 10) [block 100; block 101]).
  - reflexivity.
  - repeat constructor; cbn; intros ? [= <-]; lia.
  - repeat constructor; cbn; lia.
  - cbn. apply NoDup_cons. split; [|apply NoDup_singleton].
    rewrite list_elem_of_singleton. lia.
Defined.


End RepositoryFacts.

(** ** Slices, sets and list bookkeeping *)

Module JsFacts.

Example slice_drops_first : slice ["a"; "b"; "c"] 1 None = ["b"; "c"].
Proof. reflexivity. Qed.

Example slice_keeps_prefix : slice ["a"; "b"; "c"] 0 (Some 2) = ["a"; "b"].
Proof. reflexivity. Qed.

Example slice_negative_end : slice ["a"; "b"; "c"] 0 (Some (-1)) = ["a"; "b"].
Proof. reflexivity. Qed.

Example arrayFromSet_first_seen_order :
  arrayFromSet (["b"; "a"] ++ ["c"; "b"; "a"; "d"]) = ["b"; "a"; "c"; "d"].
Proof. reflexivity. Qed.

Example bufferFromHex_stops_at_bad_pair : bufferFromHex "0aFfzz12" = [10; 255].
Proof. reflexivity. Qed.

Example bufferFromHex_not_hex : bufferFromHex "signature" = [].
Proof. reflexivity. Qed.

Example numberToString_samples :
  map numberToString [0; 42; -7; 23476951] = ["0"; "42"; "-7"; "23476951"].
Proof. reflexivity. Qed.

Example numberToString_exponential :
  map numberToString [10 ^ 21 - 1; 10 ^ 21; - 3 * 10 ^ 21; 2 ^ 70; 2 ^ 53 + 1]
  = ["1e+21"; "1e+21"; "-3e+21"; "1.1805916207174113e+21"; "9007199254740992"].
Proof. by vm_compute. Qed.

(** [l.slice(1)] drops the first element. *)
Lemma slice_from_1 {A} (x : A) (l : list A) : slice (x :: l) 1 None = l.
Proof.
  unfold slice, relativeIndex. cbn [length].
  replace (1 <? 0) with false by reflexivity.
  rewrite Z.min_l by lia.
  replace (Z.to_nat 1) with 1%nat by reflexivity. cbn [drop].
  apply take_ge. lia.
Qed.

(** [l.slice(0, n)] with [n] not negative keeps the first [n] elements. *)
Lemma slice_prefix {A} (l : list A) (n : Z) :
  0 <= n -> slice l 0 (Some n) = take (Z.to_nat n) l.
Proof.
  intros Hn. unfold slice, relativeIndex.
  replace (0 <? 0) with false by reflexivity.
  replace (n <? 0) with false by (symmetry; apply Z.ltb_ge; lia).
  rewrite (Z.min_l 0) by lia. rewrite Z.sub_0_r.
  change (Z.to_nat 0) with 0%nat. rewrite drop_0.
  destruct (Z.le_ge_cases n (Z.of_nat (length l))) as [Hle|Hge].
  - by rewrite Z.min_l.
  - rewrite Z.min_r by lia. rewrite Nat2Z.id.
    rewrite !take_ge; [done | lia | lia].
Qed.

Lemma setAdd_NoDup (s : list string) (x : string) : NoDup s -> NoDup (setAdd s x).
Proof.
  intros Hs. unfold setAdd. case_decide; [done|].
  apply NoDup_app. split; [done|]. split; [|apply NoDup_singleton].
  intros y Hy Hyx. apply list_elem_of_singleton in Hyx. by subst.
Qed.

Lemma elem_of_setAdd (s : list string) (x y : string) :
  y ∈ setAdd s x <-> y ∈ s \/ y = x.
Proof.
  unfold setAdd. case_decide.
  - split; [by left|]. intros [?| ->]; done.
  - rewrite elem_of_app, list_elem_of_singleton. tauto.
Qed.

Lemma foldl_setAdd_NoDup (l s : list string) : NoDup s -> NoDup (foldl setAdd s l).
Proof.
  revert s. induction l as [|x l IH]; intros s Hs; [done|].
  cbn [foldl]. apply IH. by apply setAdd_NoDup.
Qed.

Lemma elem_of_foldl_setAdd (l s : list string) (y : string) :
  y ∈ foldl setAdd s l <-> y ∈ s \/ y ∈ l.
Proof.
  revert s. induction l as [|x l IH]; intros s; cbn [foldl].
  - rewrite elem_of_nil. tauto.
  - rewrite IH, elem_of_setAdd, elem_of_cons. tauto.
Qed.

(** [Array.from(new Set(l))] has no element twice, and the elements of [l]. *)
Lemma arrayFromSet_NoDup (l : list string) : NoDup (arrayFromSet l).
Proof. apply foldl_setAdd_NoDup. constructor. Qed.

Lemma elem_of_arrayFromSet (l : list string) (y : string) : y ∈ arrayFromSet l <-> y ∈ l.
Proof.
  unfold arrayFromSet. rewrite elem_of_foldl_setAdd, elem_of_nil. tauto.
Qed.

(** A [map] whose callback returns on every element returns the mapped
    array. *)
Lemma arrayMap_Return {A B} (f : A -> Result B) (g : A -> B) (l : list A) :
  (forall x, x ∈ l -> f x = Return (g x)) -> arrayMap f l = Return (g <$> l).
Proof.
  induction l as [|x l IH]; intros Hf; [done|].
  cbn [arrayMap]. rewrite (Hf x) by apply list_elem_of_here. cbn [bind].
  rewrite IH; [done|]. intros y Hy. apply Hf. by apply list_elem_of_further.
Qed.

(** A [map] that returns has got an element from every call. *)
Lemma arrayMap_Return_inv {A B} (f : A -> Result B) (g : A -> B) (l : list A)
    (ys : list B) :
  arrayMap f l = Return ys ->
  (forall x y, x ∈ l -> f x = Return y -> y = g x) ->
  ys = g <$> l.
Proof.
  revert ys. induction l as [|x l IH]; intros ys Hys Hf.
  - cbn in Hys. by injection Hys as <-.
  - cbn [arrayMap] in Hys. destruct (f x) as [y|] eqn:Hy; cbn [bind] in Hys; [|done].
    destruct (arrayMap f l) as [rest|] eqn:Hrest; cbn [bind] in Hys; [|done].
    injection Hys as <-. cbn [fmap list_fmap]. f_equal.
    + apply (Hf x y); [apply list_elem_of_here | done].
    + apply IH; [done|]. intros z w Hz. apply Hf. by apply list_elem_of_further.
Qed.

(** Counting after a [map] is counting before it. *)
Lemma length_filter_fmap {A B} (f : A -> B) (P : B -> Prop)
    `{!forall y, Decision (P y)} (l : list A) :
  length (filter P (f <$> l)) = length (filter (fun x => P (f x)) l).
Proof.
  induction l as [|x l IH]; [done|].
  cbn [fmap list_fmap]. rewrite !filter_cons.
  destruct (decide (P (f x))); cbn [length]; by rewrite IH.
Qed.

End JsFacts.

(** ** The adapter: accounts and identifiers *)

Module AdapterFacts.

Import Adapter.

Section Accounts.

Variable lib : Library.
Variable service : Repository.Service.
Variable this : t.

(** What [getAuth] returns for an account the service knows. *)
Lemma getAuth_existing (walletAddress : string) (accountAuth : AccountAuth.t) :
  Repository.axios_get service Repository.Auth
    (Repository.serviceURL (liskServiceRepo this) +:+ "/api/v3/auth")
    {[ "address" := Str walletAddress ]}
    = Return {| Repository.body := Repository.Build_Envelope Repository.Auth (Some accountAuth) |} ->
  Repository.getAuth service (liskServiceRepo this) walletAddress = Return (Some accountAuth).
Proof.
  intros Hanswer. unfold Repository.getAuth, Repository.get, Repository.path.
  by rewrite Hanswer.
Qed.

(** For an existing multisig account the action returns one address per
    optional key, in the order of [optionalKeys]. *)
Lemma getMultisigWalletMembers_optionalKeys
    (walletAddress : string) (accountAuth : AccountAuth.t) :
  Repository.getAuth service (liskServiceRepo this) walletAddress = Return (Some accountAuth) ->
  0 < AccountAuth.numberOfSignatures accountAuth ->
  getMultisigWalletMembers lib service this walletAddress
  = Return (map (fun publicKey =>
                   getBase32AddressFromPublicKey lib (toBuffer publicKey) (chainSymbol this))
                (AccountAuth.optionalKeys accountAuth)).
Proof.
  intros Hauth Hmultisig. unfold getMultisigWalletMembers. rewrite Hauth.
  cbn [bind]. unfold isMultisigAccount.
  replace (0 <? AccountAuth.numberOfSignatures accountAuth) with true
    by (symmetry; by apply Z.ltb_lt).
  reflexivity.
Qed.

(** C8: for an existing account with [numberOfSignatures = 0], both
    [getMultisigWalletMembers] and [getMinMultisigRequiredSignatures]
    throw the [InvalidActionError] named [accountWasNotMultisigError];
    [isMultisigAccount] holds exactly when [numberOfSignatures > 0]. *)
Theorem not_multisig_account_is_rejected
    (walletAddress : string) (accountAuth : AccountAuth.t) :
  Repository.axios_get service Repository.Auth
    (Repository.serviceURL (liskServiceRepo this) +:+ "/api/v3/auth")
    {[ "address" := Str walletAddress ]}
    = Return {| Repository.body := Repository.Build_Envelope Repository.Auth (Some accountAuth) |} ->
  AccountAuth.numberOfSignatures accountAuth = 0 ->
  getMultisigWalletMembers lib service this walletAddress
    = Throw (InvalidActionError accountWasNotMultisigError
               ("Account with address " +:+ walletAddress +:+ " is not a multisig account")
               None) /\
  getMinMultisigRequiredSignatures service this walletAddress
    = Throw (InvalidActionError accountWasNotMultisigError
               ("Account with address " +:+ walletAddress +:+ " is not a multisig account")
               None) /\
  (forall account, isMultisigAccount account = true
                   <-> AccountAuth.numberOfSignatures account > 0).
Proof.
  intros Hanswer Hzero. apply getAuth_existing in Hanswer.
  split; [|split].
  - unfold getMultisigWalletMembers. rewrite Hanswer. cbn [bind].
    unfold isMultisigAccount. by rewrite Hzero.
  - unfold getMinMultisigRequiredSignatures. rewrite Hanswer. cbn [bind].
    unfold isMultisigAccount. by rewrite Hzero.
  - intros account. unfold isMultisigAccount. rewrite Z.ltb_lt. lia.
Qed.

(** The threshold of an existing multisig account is returned as it is. *)
Lemma getMinMultisigRequiredSignatures_multisig
    (walletAddress : string) (accountAuth : AccountAuth.t) :
  Repository.getAuth service (liskServiceRepo this) walletAddress = Return (Some accountAuth) ->
  0 < AccountAuth.numberOfSignatures accountAuth ->
  getMinMultisigRequiredSignatures service this walletAddress
  = Return (AccountAuth.numberOfSignatures accountAuth).
Proof.
  intros Hauth Hmultisig. unfold getMinMultisigRequiredSignatures. rewrite Hauth.
  cbn [bind]. unfold isMultisigAccount.
  replace (0 <? AccountAuth.numberOfSignatures accountAuth) with true
    by (symmetry; by apply Z.ltb_lt).
  reflexivity.
Qed.

End Accounts.

(** A service that knows one account, whatever the address asked. *)
Lemma not_multisig_account_is_rejected_witness :
  let lib :=
    {| getBase32AddressFromPublicKey := fun _ prefix => prefix;
       getAddressFromLisk32Address := fun _ => Return [];
       getBytes := fun _ => Return [];
       BigInt := fun _ => Return 0;
       shuffle := fun l => l;
       deterministic_hash := fun a n => a +:+ "-" +:+ n |} in
  let account := {| AccountAuth.mandatoryKeys := []; AccountAuth.optionalKeys := [];
                    AccountAuth.numberOfSignatures := 0 |} in
  let service :=
    {| Repository.axios_get := fun r _ _ =>
         match r return Result (Repository.Response (Repository.Envelope r)) with
         | Repository.Auth =>
             Return {| Repository.body :=
                         Repository.Build_Envelope Repository.Auth (Some account) |}
         | Repository.Blocks =>
             Return {| Repository.body := Repository.Build_Envelope Repository.Blocks [] |}
         | Repository.Transactions =>
             Return {| Repository.body :=
                         Repository.Build_Envelope Repository.Transactions [] |}
         end;
       Repository.axios_post := fun _ _ => Throw (HttpError "Network Error" None) |} in
  let this :=
    {| dexWalletAddress := Some "lskdex"; chainSymbol := "lsk";
       liskServiceRepo := Repository.new {| Repository.config_serviceURL := None;
                                            Repository.ackTimeout := None |};
       dexMultisigPublicKeys := []; dexNumberOfSignatures := 0 |} in
  getMultisigWalletMembers lib service this "lskx5t5"
    = Throw (InvalidActionError accountWasNotMultisigError
               "Account with address lskx5t5 is not a multisig account" None) /\
  getMinMultisigRequiredSignatures service this "lskx5t5"
    = Throw (InvalidActionError accountWasNotMultisigError
               "Account with address lskx5t5 is not a multisig account" None) /\
  (forall account, isMultisigAccount account = true
                   <-> AccountAuth.numberOfSignatures account > 0).
Proof.
  intros lib account service this.
  exact (not_multisig_account_is_rejected lib service this "lskx5t5" account
           eq_refl eq_refl).
Defined.

(** C1 fails on the code: for the account with one mandatory key ["aa"],
    one optional key ["bb"] and threshold 2, the member set, as [load]
    builds it, is [["aa"; "bb"]], and [getMultisigWalletMembers] returns
    the address of ["bb"] alone. *)
Theorem getMultisigWalletMembers_misses_mandatory_keys (lib : Library) :
  let account := {| AccountAuth.mandatoryKeys := ["aa"]; AccountAuth.optionalKeys := ["bb"];
                    AccountAuth.numberOfSignatures := 2 |} in
  let service :=
    {| Repository.axios_get := fun r _ _ =>
         match r return Result (Repository.Response (Repository.Envelope r)) with
         | Repository.Auth =>
             Return {| Repository.body :=
                         Repository.Build_Envelope Repository.Auth (Some account) |}
         | Repository.Blocks =>
             Return {| Repository.body := Repository.Build_Envelope Repository.Blocks [] |}
         | Repository.Transactions =>
             Return {| Repository.body :=
                         Repository.Build_Envelope Repository.Transactions [] |}
         end;
       Repository.axios_post := fun _ _ => Throw (HttpError "Network Error" None) |} in
  let config :=
    {| config_dexWalletAddress := Some "lskdex"; config_chainSymbol := None;
       config_repository := {| Repository.config_serviceURL := None;
                               Repository.ackTimeout := None |} |} in
  let address := fun publicKey =>
    getBase32AddressFromPublicKey lib (toBuffer publicKey) "lsk" in
  exists this,
    load service config = Return this /\
    dexMultisigPublicKeys this = ["aa"; "bb"] /\
    getMultisigWalletMembers lib service this "lskdex" = Return [address "bb"] /\
    getMultisigWalletMembers lib service this "lskdex"
      <> Return (map address (dexMultisigPublicKeys this)).
Proof.
  intros account service config address.
  eexists. split; [reflexivity|]. split; [reflexivity|]. split; [reflexivity|].
  cbv [getMultisigWalletMembers]. discriminate.
Qed.

(** The identifier the adapter's mapper assigns is computed from the
    address of the sender and the nonce, whatever the service reported. *)
Lemma adapter_transaction_id (lib : Library) (this : t)
    (transaction : ServiceTransaction.t (list string)) :
  DexTransaction.id (transactionMapper lib this transaction)
  = Mapper.computeDEXTransactionId (deterministic_hash lib)
      (ServiceTransaction.address (ServiceTransaction.sender transaction))
      (ServiceTransaction.nonce transaction).
Proof. reflexivity. Qed.

End AdapterFacts.

(** ** The adapter: assembling and broadcasting a transaction *)

Module PostTransactionFacts.

Import Adapter.

(** *** The object filled with the selected packets *)

(** The packets of a selection that carry a key; the last of them is the
    one the loop leaves under that key. *)
Local Abbreviation stored selected key :=
  (last (filter (fun p => SignaturePacket.publicKey p = key) selected)).

Lemma publicKeySignatures_snoc (selected : list SignaturePacket.t) (p : SignaturePacket.t) :
  publicKeySignatures (selected ++ [p])
  = assign (publicKeySignatures selected) (SignaturePacket.publicKey p) p.
Proof. unfold publicKeySignatures. by rewrite foldl_snoc. Qed.

Lemma stored_snoc (selected : list SignaturePacket.t) (p : SignaturePacket.t) (key : string) :
  stored (selected ++ [p]) key
  = if decide (SignaturePacket.publicKey p = key) then Some p else stored selected key.
Proof.
  rewrite filter_app, filter_singleton; [|exact []].
  case_decide; [by rewrite last_snoc | by rewrite app_nil_r].
Qed.

(** The own properties: the last packet of each key, and none under
    ['__proto__']. *)
Lemma own_publicKeySignatures (selected : list SignaturePacket.t) (key : string) :
  own (publicKeySignatures selected) !! key
  = if String.eqb key "__proto__" then None else stored selected key.
Proof.
  induction selected as [|q selected IH] using rev_ind.
  - cbn. rewrite lookup_empty. by destruct (String.eqb key "__proto__").
  - rewrite publicKeySignatures_snoc, stored_snoc. unfold assign.
    destruct (String.eqb_spec (SignaturePacket.publicKey q) "__proto__") as [Hq|Hq];
      cbn [own].
    + rewrite IH. destruct (String.eqb_spec key "__proto__") as [Hkey|Hkey]; [done|].
      case_decide; [congruence | done].
    + case_decide as Hkey.
      * subst key. rewrite lookup_insert_eq.
        by destruct (String.eqb_spec (SignaturePacket.publicKey q) "__proto__").
      * by rewrite lookup_insert_ne.
Qed.

(** The prototype: the last packet of key ['__proto__'], if there is one. *)
Lemma prototype_publicKeySignatures (selected : list SignaturePacket.t) :
  prototype (publicKeySignatures selected) = stored selected "__proto__".
Proof.
  induction selected as [|q selected IH] using rev_ind; [done|].
  rewrite publicKeySignatures_snoc, stored_snoc. unfold assign.
  destruct (String.eqb_spec (SignaturePacket.publicKey q) "__proto__") as [Hq|Hq];
    cbn [prototype]; case_decide; done.
Qed.

(** What a lookup finds, in terms of the selection. *)
Lemma property_publicKeySignatures (selected : list SignaturePacket.t) (key : string) :
  property (publicKeySignatures selected) key
  = match stored selected key with
    | Some p => Packet p
    | None =>
        if String.eqb key "__proto__" then Builtin
        else match stored selected "__proto__" with
             | Some q => packetProperty q key
             | None => inherited key
             end
    end.
Proof.
  unfold property. rewrite own_publicKeySignatures, prototype_publicKeySignatures.
  destruct (String.eqb_spec key "__proto__") as [->|Hkey]; by destruct (last _).
Qed.

(** A packet found under a key was selected and carries that key. *)
Lemma stored_Some (selected : list SignaturePacket.t) (key : string) (p : SignaturePacket.t) :
  stored selected key = Some p -> p ∈ selected /\ SignaturePacket.publicKey p = key.
Proof. intros Hp%last_Some_elem_of. by apply list_elem_of_filter in Hp as [? ?]. Qed.

(** Nothing is found under a key no selected packet carries. *)
Lemma stored_None (selected : list SignaturePacket.t) (key : string) :
  (forall p, p ∈ selected -> SignaturePacket.publicKey p <> key) ->
  stored selected key = None.
Proof.
  intros Hnone. destruct (stored selected key) as [p|] eqn:Hp; [|done].
  apply stored_Some in Hp as [Hin Hkey]. by apply Hnone in Hin.
Qed.

(** When no two selected packets share a key, each is found under its
    own key. *)
Lemma stored_NoDup (selected : list SignaturePacket.t) (p : SignaturePacket.t) :
  NoDup (SignaturePacket.publicKey <$> selected) ->
  p ∈ selected ->
  stored selected (SignaturePacket.publicKey p) = Some p.
Proof.
  induction selected as [|q selected IH] using rev_ind; intros Hnodup Hin.
  - by apply elem_of_nil in Hin.
  - rewrite stored_snoc.
    rewrite fmap_app in Hnodup. apply NoDup_app in Hnodup as (Hselected & Hfresh & _).
    apply elem_of_app in Hin as [Hin|Hin].
    + case_decide as Heq; [|by apply IH].
      exfalso. apply (Hfresh (SignaturePacket.publicKey p)).
      * by apply list_elem_of_fmap_2.
      * cbn. rewrite Heq. apply list_elem_of_singleton. done.
    + apply list_elem_of_singleton in Hin as ->. by case_decide.
Qed.

(** *** One entry of the vector *)

(** The entry for a key, when the lookup lets the conversion through:
    the decoded signature of the packet stored under the key, and the
    empty buffer when there is none. *)
Local Abbreviation entry selected key :=
  (bufferFromHex (from_option SignaturePacket.signature "" (stored selected key))).

(** Whenever the callback returns, it returns that entry. *)
Lemma entry_Return (selected : list SignaturePacket.t) (key : string) (b : Buffer) :
  bufferFrom (signatureOrEmpty (property (publicKeySignatures selected) key)) = Return b ->
  b = entry selected key.
Proof.
  rewrite property_publicKeySignatures.
  destruct (stored selected key) as [p|]; cbn [signatureOrEmpty bufferFrom from_option].
  { by intros [= <-]. }
  destruct (String.eqb key "__proto__"); [done|].
  destruct (stored selected "__proto__") as [q|].
  - unfold packetProperty, inherited.
    repeat (match goal with |- context [String.eqb ?a ?b] => destruct (String.eqb a b) end);
      cbn [signatureOrEmpty];
      try (match goal with |- context [truthy ?v] => destruct (truthy v) end);
      try case_decide; cbn [signatureOrEmpty bufferFrom]; try done; by intros [= <-].
  - unfold inherited. case_decide; cbn [signatureOrEmpty bufferFrom]; [done|].
    by intros [= <-].
Qed.

(** Under a key that names no inherited property, the callback returns:
    it is enough that the prototype is still [Object.prototype], or that
    the key is no name of a packet property either. *)
Lemma entry_own (selected : list SignaturePacket.t) (key : string) :
  key ∉ objectPrototypeNames ->
  stored selected "__proto__" = None \/ key ∉ packetNames ->
  bufferFrom (signatureOrEmpty (property (publicKeySignatures selected) key))
  = Return (entry selected key).
Proof.
  intros Hkey Hproto. rewrite property_publicKeySignatures.
  destruct (stored selected key) as [p|]; [done|].
  destruct (String.eqb_spec key "__proto__") as [->|_].
  { exfalso. apply Hkey. apply (bool_decide_unpack _). by vm_compute. }
  assert (Hinherited : inherited key = NoProperty).
  { unfold inherited. by case_decide. }
  destruct Hproto as [-> | Hpacket]; [by rewrite Hinherited|].
  destruct (stored selected "__proto__") as [q|]; [|by rewrite Hinherited].
  unfold packetProperty, packetNames in *.
  destruct (String.eqb_spec key "signerAddress") as [->|_].
  { exfalso. apply Hpacket. apply (bool_decide_unpack _). by vm_compute. }
  destruct (String.eqb_spec key "publicKey") as [->|_].
  { exfalso. apply Hpacket. apply (bool_decide_unpack _). by vm_compute. }
  destruct (String.eqb_spec key "signature") as [->|_].
  { exfalso. apply Hpacket. apply (bool_decide_unpack _). by vm_compute. }
  by rewrite Hinherited.
Qed.

(** Under a key that names a property of [Object.prototype] and that no
    selected packet carries, the conversion is refused. *)
Lemma entry_Builtin (selected : list SignaturePacket.t) (key : string) :
  key ∈ objectPrototypeNames ->
  (forall p, p ∈ selected -> SignaturePacket.publicKey p <> key) ->
  (forall p, p ∈ selected -> SignaturePacket.publicKey p <> "__proto__") ->
  bufferFrom (signatureOrEmpty (property (publicKeySignatures selected) key))
  = Throw (PlainError invalidFirstArgument).
Proof.
  intros Hkey Hnone Hproto. rewrite property_publicKeySignatures.
  rewrite (stored_None _ _ Hnone), (stored_None _ _ Hproto).
  destruct (String.eqb key "__proto__"); [done|].
  unfold inherited. by case_decide.
Qed.

Section Vector.

Variable this : t.

(** The vector the adapter assembles when every lookup lets the
    conversion through. *)
Local Abbreviation vectorOf selected :=
  ((fun key => entry selected key) <$> dexMultisigPublicKeys this).

(** Whenever the vector is assembled, it is that one. *)
Lemma signatures_Return (selected : list SignaturePacket.t) (vector : list Buffer) :
  signatures this selected = Return vector -> vector = vectorOf selected.
Proof.
  unfold signatures. intros Hvector.
  apply (JsFacts.arrayMap_Return_inv _ _ _ _ Hvector).
  intros key b _. apply entry_Return.
Qed.

(** It is assembled when no member key names a property of
    [Object.prototype], and no selected packet has made itself the
    prototype or no member key names a property of a packet. *)
Lemma signatures_own (selected : list SignaturePacket.t) :
  Forall (fun key => key ∉ objectPrototypeNames) (dexMultisigPublicKeys this) ->
  stored selected "__proto__" = None \/
    Forall (fun key => key ∉ packetNames) (dexMultisigPublicKeys this) ->
  signatures this selected = Return (vectorOf selected).
Proof.
  intros Hkeys Hproto. rewrite Forall_forall in Hkeys.
  unfold signatures. apply JsFacts.arrayMap_Return. intros key Hkey.
  apply entry_own; [by apply Hkeys|].
  destruct Hproto as [Hproto|Hpacket]; [by left|right].
  rewrite Forall_forall in Hpacket. by apply Hpacket.
Qed.

Lemma signatures_ownKey (selected : list SignaturePacket.t) :
  Forall ownKey (dexMultisigPublicKeys this) ->
  signatures this selected = Return (vectorOf selected).
Proof.
  intros Hkeys. apply signatures_own.
  - eapply Forall_impl; [exact Hkeys|]. by intros key [? ?].
  - right. eapply Forall_impl; [exact Hkeys|]. by intros key [? ?].
Qed.

(** The vector has one entry per member key. *)
Lemma vectorOf_length (selected : list SignaturePacket.t) :
  length (vectorOf selected) = length (dexMultisigPublicKeys this).
Proof. by rewrite length_fmap. Qed.

(** The entry at the position of a key is the signature of the selected
    packet with that key. *)
Lemma vectorOf_lookup_selected (selected : list SignaturePacket.t)
    (i : nat) (p : SignaturePacket.t) :
  NoDup (SignaturePacket.publicKey <$> selected) ->
  p ∈ selected ->
  dexMultisigPublicKeys this !! i = Some (SignaturePacket.publicKey p) ->
  vectorOf selected !! i = Some (bufferFromHex (SignaturePacket.signature p)).
Proof.
  intros Hnodup Hin Hi. rewrite list_lookup_fmap, Hi. cbn.
  by rewrite stored_NoDup.
Qed.

(** The entry at the position of a key that no selected packet carries
    is the empty buffer. *)
Lemma vectorOf_lookup_placeholder (selected : list SignaturePacket.t)
    (i : nat) (key : string) :
  (forall p, p ∈ selected -> SignaturePacket.publicKey p <> key) ->
  dexMultisigPublicKeys this !! i = Some key ->
  vectorOf selected !! i = Some [].
Proof.
  intros Hnone Hi. rewrite list_lookup_fmap, Hi. cbn.
  by rewrite stored_None.
Qed.


(** With distinct member keys and signatures that decode to at least one
    byte, there are exactly as many. *)
Lemma nonempty_vectorOf_eq (selected : list SignaturePacket.t) :
  NoDup (dexMultisigPublicKeys this) ->
  NoDup (SignaturePacket.publicKey <$> selected) ->
  Forall (fun p => SignaturePacket.publicKey p ∈ dexMultisigPublicKeys this /\
                   bufferFromHex (SignaturePacket.signature p) <> []) selected ->
  length (filter (fun b : Buffer => b <> []) (vectorOf selected)) = length selected.
Proof.
  intros Hmembers Hnodup Hvalid. rewrite Forall_forall in Hvalid.
  rewrite JsFacts.length_filter_fmap.
  rewrite <- (length_fmap SignaturePacket.publicKey selected).
  apply Permutation_length, NoDup_Permutation; [by apply NoDup_filter | done |].
  intros key. rewrite list_elem_of_filter, list_elem_of_fmap. split.
  - intros [Hentry _].
    destruct (stored selected key) as [p|] eqn:Hp; [|done].
    apply stored_Some in Hp as [Hin <-]. by exists p.
  - intros (p & -> & Hin). destruct (Hvalid p Hin) as [Hmember Hsignature].
    split; [|done]. by rewrite stored_NoDup.
Qed.

End Vector.

Section Posting.

Variable lib : Library.
Variable service : Repository.Service.

(** [load] leaves the deduplicated keys of the wallet's account, mandatory
    keys first, and its threshold. *)
Lemma load_members (config : Config) (this : t) :
  load service config = Return this ->
  exists accountAuth,
    dexMultisigPublicKeys this
      = arrayFromSet (AccountAuth.mandatoryKeys accountAuth
                      ++ AccountAuth.optionalKeys accountAuth) /\
    dexNumberOfSignatures this = AccountAuth.numberOfSignatures accountAuth.
Proof.
  unfold load. destruct (config_dexWalletAddress config) as [address|]; [|done].
  destruct (truthy (Str address)); [|done].
  destruct (Repository.getAuth service _ address) as [[accountAuth|]|]; cbn [bind]; try done.
  intros [= <-]. by exists accountAuth.
Qed.

Lemma load_NoDup (config : Config) (this : t) :
  load service config = Return this -> NoDup (dexMultisigPublicKeys this).
Proof.
  intros (accountAuth & -> & _)%load_members. apply JsFacts.arrayFromSet_NoDup.
Qed.

Variable this : t.

(** The [catch] block of [postTransaction]. *)
Local Abbreviation rethrow :=
  (fun err : Error =>
     @Throw unit
       (InvalidActionError transactionBroadcastError
          ("Error broadcasting transaction to the lisk network"
           +:+ (if truthy (Str (message err)) then " - " +:+ message err else ""))
          (Some err))).

(** With a threshold of at least one, the selection is the first packet
    and the first [dexNumberOfSignatures - 1] of the others as shuffled. *)
Lemma selectedSignatures_cons (transaction : PreparedTransaction.t)
    (first : SignaturePacket.t) (others : list SignaturePacket.t) :
  PreparedTransaction.signatures transaction = first :: others ->
  0 < dexNumberOfSignatures this ->
  selectedSignatures lib this transaction
  = first :: take (Z.to_nat (dexNumberOfSignatures this - 1)) (shuffle lib others).
Proof.
  intros Hsignatures Hthreshold. unfold selectedSignatures. rewrite Hsignatures.
  by rewrite JsFacts.slice_from_1, JsFacts.slice_prefix by lia.
Qed.

(** The vector that is encoded is the one assembled from the selection. *)
Lemma signedTxn_signatures (transaction : PreparedTransaction.t) (signed : SignedTxn.t) :
  signedTxn lib this transaction = Return signed ->
  signatures this (selectedSignatures lib this transaction)
  = Return (SignedTxn.signatures signed).
Proof.
  unfold signedTxn.
  destruct (signatures this _) as [vector|]; cbn [bind]; [|done].
  destruct (BigInt lib (PreparedTransaction.nonce transaction)); cbn [bind]; [|done].
  destruct (BigInt lib (PreparedTransaction.fee transaction)); cbn [bind]; [|done].
  destruct (getAddressFromLisk32Address lib _); cbn [bind]; [|done].
  destruct (BigInt lib (PreparedTransaction.amount transaction)); cbn [bind]; [|done].
  by intros [= <-].
Qed.

(** Once the vector is assembled, [postTransaction] converts the numbers
    and the recipient, and encodes and submits the transaction that
    carries the vector. *)
Lemma postTransaction_assembled (transaction : PreparedTransaction.t) (vector : list Buffer) :
  signatures this (selectedSignatures lib this transaction) = Return vector ->
  postTransaction lib service this transaction
  = (await nonce <- BigInt lib (PreparedTransaction.nonce transaction) then
     await fee <- BigInt lib (PreparedTransaction.fee transaction) then
     await recipientAddress <-
       getAddressFromLisk32Address lib (PreparedTransaction.recipientAddress transaction) then
     await amount <- BigInt lib (PreparedTransaction.amount transaction) then
     try_catch
       (broadcast lib service this
          {| SignedTxn.module := "token";
             SignedTxn.command := "transfer";
             SignedTxn.nonce := nonce;
             SignedTxn.fee := fee;
             SignedTxn.senderPublicKey :=
               bufferFromHex (PreparedTransaction.senderPublicKey transaction);
             SignedTxn.signatures := vector;
             SignedTxn.params :=
               {| SignedTxn.tokenID := bufferFromHex (PreparedTransaction.tokenID transaction);
                  SignedTxn.recipientAddress := recipientAddress;
                  SignedTxn.amount := amount;
                  SignedTxn.data := PreparedTransaction.message transaction |} |})
       rethrow)%js.
Proof.
  intros Hvector. unfold postTransaction, signedTxn. rewrite Hvector. cbn [bind].
  destruct (BigInt lib (PreparedTransaction.nonce transaction)); cbn [bind]; [|done].
  destruct (BigInt lib (PreparedTransaction.fee transaction)); cbn [bind]; [|done].
  destruct (getAddressFromLisk32Address lib _); cbn [bind]; [|done].
  by destruct (BigInt lib (PreparedTransaction.amount transaction)).
Qed.

(** What [postTransaction] does once the transaction is encoded and the
    service has answered the submission. *)
Lemma postTransaction_answered (transaction : PreparedTransaction.t)
    (signed : SignedTxn.t) (binaryTxn : Buffer) (response : Value) :
  signedTxn lib this transaction = Return signed ->
  getBytes lib signed = Return binaryTxn ->
  Repository.axios_post service
    (Repository.serviceURL (liskServiceRepo this) +:+ "/api/v3/transactions")
    (Obj [("transaction", Str (bufferToHex binaryTxn))])
    = Return {| Repository.body := response |} ->
  postTransaction lib service this transaction
  = if truthy response && truthy (prop "transactionID" response)
    then Return tt
    else Throw (InvalidActionError transactionBroadcastError
                  "Error broadcasting transaction to the lisk network - Invalid transaction response"
                  (Some (PlainError "Invalid transaction response"))).
Proof.
  intros Hsigned Hbytes Hanswer.
  unfold postTransaction. rewrite Hsigned. cbn [bind].
  unfold broadcast. rewrite Hbytes. cbn [bind].
  unfold Repository.postTransaction, Repository.post, Meta.Transactions.path.
  rewrite Hanswer. cbn [bind Repository.body].
  by destruct (truthy response), (truthy (prop "transactionID" response)).
Qed.

(** C7: once the submission has been answered (the HTTP call returned),
    [postTransaction] returns when the answer is truthy and its
    [transactionID] is truthy, and otherwise throws the
    [InvalidActionError] named [transactionBroadcastError].  So it throws
    for an absent answer and for an answer without a [transactionID], and
    returns for an answer that holds a non-empty [transactionID]. *)
Theorem postTransaction_needs_transactionID (transaction : PreparedTransaction.t)
    (signed : SignedTxn.t) (binaryTxn : Buffer) (response : Value) :
  signedTxn lib this transaction = Return signed ->
  getBytes lib signed = Return binaryTxn ->
  Repository.axios_post service
    (Repository.serviceURL (liskServiceRepo this) +:+ "/api/v3/transactions")
    (Obj [("transaction", Str (bufferToHex binaryTxn))])
    = Return {| Repository.body := response |} ->
  let rejected :=
    Throw (InvalidActionError transactionBroadcastError
             "Error broadcasting transaction to the lisk network - Invalid transaction response"
             (Some (PlainError "Invalid transaction response"))) in
  (response = Undefined \/ response = Null ->
     postTransaction lib service this transaction = rejected) /\
  (prop "transactionID" response = Undefined ->
     postTransaction lib service this transaction = rejected) /\
  (forall fields identifier,
     response = Obj fields -> assoc "transactionID" fields = Str identifier ->
     identifier <> "" ->
     postTransaction lib service this transaction = Return tt) /\
  postTransaction lib service this transaction
  = if truthy response && truthy (prop "transactionID" response)
    then Return tt else rejected.
Proof.
  intros Hsigned Hbytes Hanswer rejected.
  pose proof (postTransaction_answered _ _ _ _ Hsigned Hbytes Hanswer) as Hpost.
  rewrite Hpost. repeat split.
  - by intros [-> | ->].
  - intros ->. by rewrite andb_false_r.
  - intros fields identifier -> Hid Hnonempty. cbn [truthy prop andb]. rewrite Hid.
    cbn [truthy]. by destruct identifier.
Qed.

(** The selection keeps packets of the transaction. *)
Lemma selectedSignatures_sublist (transaction : PreparedTransaction.t)
    (first : SignaturePacket.t) (others : list SignaturePacket.t) :
  PreparedTransaction.signatures transaction = first :: others ->
  0 < dexNumberOfSignatures this ->
  selectedSignatures lib this transaction `sublist_of` first :: shuffle lib others.
Proof.
  intros Hsignatures Hthreshold. rewrite (selectedSignatures_cons _ _ _ Hsignatures Hthreshold).
  apply sublist_skip, sublist_take.
Qed.

(** C5, as the code has it: for the adapter loaded for a multisig account
    of threshold [T], whose member keys are the deduplicated mandatory and
    optional keys of the account in that order and name no property of
    [Object.prototype], and a transaction with at least [T] packets, whose
    public keys are distinct keys of the account and whose signatures
    decode from hexadecimal to at least one byte: whatever permutation
    [shuffle] returns, [postTransaction] assembles a vector of signatures
    with one entry per member key, exactly [T] of them non-empty; the
    signature of the first packet is at the position of its key; the
    entry at the position of each key is the signature of the selected
    packet with that key, and empty when no selected packet has it; the
    selection is the first packet and [T - 1] of the others; and
    [postTransaction] goes on to convert the numbers and the recipient
    and to encode and submit the transaction that carries this vector. *)
Theorem postTransaction_signature_vector (config : Config)
    (transaction : PreparedTransaction.t)
    (first : SignaturePacket.t) (others : list SignaturePacket.t) :
  load service config = Return this ->
  Forall (fun key => key ∉ objectPrototypeNames) (dexMultisigPublicKeys this) ->
  0 < dexNumberOfSignatures this ->
  shuffle lib others ≡ₚ others ->
  PreparedTransaction.signatures transaction = first :: others ->
  dexNumberOfSignatures this <= Z.of_nat (length (first :: others)) ->
  NoDup (SignaturePacket.publicKey <$> first :: others) ->
  Forall (fun p => SignaturePacket.publicKey p ∈ dexMultisigPublicKeys this /\
                   bufferFromHex (SignaturePacket.signature p) <> []) (first :: others) ->
  let selected := selectedSignatures lib this transaction in
  exists vector,
    signatures this selected = Return vector /\
    (exists accountAuth,
       dexMultisigPublicKeys this
         = arrayFromSet (AccountAuth.mandatoryKeys accountAuth
                         ++ AccountAuth.optionalKeys accountAuth) /\
       dexNumberOfSignatures this = AccountAuth.numberOfSignatures accountAuth) /\
    length vector = length (dexMultisigPublicKeys this) /\
    length (filter (fun b : Buffer => b <> []) vector)
      = Z.to_nat (dexNumberOfSignatures this) /\
    (exists i, dexMultisigPublicKeys this !! i = Some (SignaturePacket.publicKey first) /\
               vector !! i = Some (bufferFromHex (SignaturePacket.signature first))) /\
    (forall i key, dexMultisigPublicKeys this !! i = Some key ->
       (forall p, p ∈ selected -> SignaturePacket.publicKey p = key ->
          vector !! i = Some (bufferFromHex (SignaturePacket.signature p))) /\
       ((forall p, p ∈ selected -> SignaturePacket.publicKey p <> key) ->
          vector !! i = Some [])) /\
    (exists chosen, selected = first :: chosen /\ chosen `sublist_of` shuffle lib others /\
                    Z.of_nat (length chosen) = dexNumberOfSignatures this - 1) /\
    postTransaction lib service this transaction
    = (await nonce <- BigInt lib (PreparedTransaction.nonce transaction) then
       await fee <- BigInt lib (PreparedTransaction.fee transaction) then
       await recipientAddress <-
         getAddressFromLisk32Address lib (PreparedTransaction.recipientAddress transaction) then
       await amount <- BigInt lib (PreparedTransaction.amount transaction) then
       try_catch
         (broadcast lib service this
            {| SignedTxn.module := "token";
               SignedTxn.command := "transfer";
               SignedTxn.nonce := nonce;
               SignedTxn.fee := fee;
               SignedTxn.senderPublicKey :=
                 bufferFromHex (PreparedTransaction.senderPublicKey transaction);
               SignedTxn.signatures := vector;
               SignedTxn.params :=
                 {| SignedTxn.tokenID :=
                      bufferFromHex (PreparedTransaction.tokenID transaction);
                    SignedTxn.recipientAddress := recipientAddress;
                    SignedTxn.amount := amount;
                    SignedTxn.data := PreparedTransaction.message transaction |} |})
         (fun err =>
            Throw (InvalidActionError transactionBroadcastError
                     ("Error broadcasting transaction to the lisk network"
                      +:+ (if truthy (Str (message err))
                           then " - " +:+ message err else ""))
                     (Some err))))%js.
Proof.
  intros Hload Hkeys Hthreshold Hshuffle Hsignatures Henough Hdistinct Hvalid selected.
  pose proof (load_NoDup _ _ Hload) as Hmembers.
  pose proof (selectedSignatures_cons _ _ _ Hsignatures Hthreshold) as Hselected.
  pose proof (selectedSignatures_sublist _ _ _ Hsignatures Hthreshold) as Hsub.
  fold selected in Hselected, Hsub.
  assert (Hall : first :: shuffle lib others ≡ₚ first :: others) by by rewrite Hshuffle.
  assert (Hdistinct' : NoDup (SignaturePacket.publicKey <$> selected)).
  { apply (sublist_NoDup _ (SignaturePacket.publicKey <$> first :: shuffle lib others)).
    - by rewrite Hall.
    - by apply fmap_sublist. }
  assert (Hsubset : forall p, p ∈ selected -> p ∈ first :: others).
  { intros p Hp. rewrite <- Hall. by eapply sublist_subseteq. }
  assert (Hselvalid :
            Forall (fun p => SignaturePacket.publicKey p ∈ dexMultisigPublicKeys this /\
                             bufferFromHex (SignaturePacket.signature p) <> []) selected).
  { rewrite Forall_forall in Hvalid |- *. intros p Hp. by apply Hvalid, Hsubset. }
  assert (Hlength : length selected = Z.to_nat (dexNumberOfSignatures this)).
  { rewrite Hselected. cbn [length]. rewrite length_take.
    rewrite (Permutation_length Hshuffle). cbn [length] in Henough. lia. }
  assert (Hfirst : first ∈ selected) by (rewrite Hselected; apply list_elem_of_here).
  assert (Hvector : signatures this selected
                    = Return ((fun key => entry selected key) <$> dexMultisigPublicKeys this)).
  { apply signatures_own; [exact Hkeys|]. left. apply stored_None.
    intros p Hp Hproto. rewrite Forall_forall in Hselvalid. rewrite Forall_forall in Hkeys.
    destruct (Hselvalid p Hp) as [Hmember _]. rewrite Hproto in Hmember.
    apply (Hkeys _ Hmember). apply (bool_decide_unpack _). by vm_compute. }
  exists ((fun key => entry selected key) <$> dexMultisigPublicKeys this).
  split; [exact Hvector|].
  split; [by apply (load_members config)|].
  split; [apply vectorOf_length|].
  split; [by rewrite nonempty_vectorOf_eq|].
  split.
  { apply Forall_cons in Hvalid as [[Hmember _] _].
    apply list_elem_of_lookup in Hmember as [i Hi].
    exists i. split; [done|]. by apply vectorOf_lookup_selected. }
  split.
  { intros i key Hi. split.
    - intros p Hp <-. by apply vectorOf_lookup_selected.
    - intros Hnone. by eapply vectorOf_lookup_placeholder. }
  split; [|by apply postTransaction_assembled].
  exists (take (Z.to_nat (dexNumberOfSignatures this - 1)) (shuffle lib others)).
  split; [done|]. split; [apply sublist_take|].
  rewrite Hselected in Hlength. cbn [length] in Hlength. lia.
Qed.


End Posting.

(** C5 as stated fails: a signature that is not empty need not decode
    to a byte.  Two packets of member keys with the signature ['zz'], for
    a threshold of two: the vector is assembled with no entry that is not
    empty. *)
Lemma vector_of_undecodable_signatures :
  ~ (forall (lib : Library) (service : Repository.Service) (config : Config) (this : t)
       (transaction : PreparedTransaction.t)
       (first : SignaturePacket.t) (others : list SignaturePacket.t),
       load service config = Return this ->
       0 < dexNumberOfSignatures this ->
       shuffle lib others ≡ₚ others ->
       PreparedTransaction.signatures transaction = first :: others ->
       dexNumberOfSignatures this <= Z.of_nat (length (first :: others)) ->
       NoDup (SignaturePacket.publicKey <$> first :: others) ->
       Forall (fun p => SignaturePacket.publicKey p ∈ dexMultisigPublicKeys this /\
                        SignaturePacket.signature p <> "") (first :: others) ->
       exists vector,
         signatures this (selectedSignatures lib this transaction) = Return vector /\
         length (filter (fun b : Buffer => b <> []) vector)
           = Z.to_nat (dexNumberOfSignatures this)).
Proof.
  intros claim.
  pose (unsigned := fun publicKey =>
          {| SignaturePacket.signerAddress := "lsk" +:+ publicKey;
             SignaturePacket.publicKey := publicKey;
             SignaturePacket.signature := "zz" |}).
  destruct (claim Fixtures.lib (Fixtures.service (Return Fixtures.accepted)) Fixtures.config
              Fixtures.adapter (Fixtures.transaction [unsigned "bb"; unsigned "cc"])
              (unsigned "bb") [unsigned "cc"]) as (vector & Hvector & Hcount).
  - reflexivity.
  - reflexivity.
  - apply reverse_Permutation.
  - reflexivity.
  - cbn. lia.
  - apply (bool_decide_unpack _). by vm_compute.
  - repeat constructor; try (apply (bool_decide_unpack _); by vm_compute); discriminate.
  - vm_compute in Hvector. injection Hvector as <-. vm_compute in Hcount. discriminate Hcount.
Qed.


(** Three packets for a threshold of two: the first and one more are
    sent, each at the position of its key, and the service accepts the
    transaction. *)
Lemma postTransaction_signature_vector_witness :
  let transaction :=
    Fixtures.transaction [Fixtures.packet "bb"; Fixtures.packet "aa"; Fixtures.packet "cc"] in
  signatures Fixtures.adapter (selectedSignatures Fixtures.lib Fixtures.adapter transaction)
    = Return [[]; [187; 1]; [204; 1]] /\
  postTransaction Fixtures.lib (Fixtures.service (Return Fixtures.accepted)) Fixtures.adapter
    transaction = Return tt.
Proof.
  intros transaction.
  destruct (postTransaction_signature_vector Fixtures.lib
              (Fixtures.service (Return Fixtures.accepted)) Fixtures.adapter Fixtures.config
              transaction (Fixtures.packet "bb") [Fixtures.packet "aa"; Fixtures.packet "cc"])
    as (vector & Hvector & _ & _ & _ & _ & _ & _ & Hpost).
  - reflexivity.
  - apply (bool_decide_unpack _). by vm_compute.
  - reflexivity.
  - apply reverse_Permutation.
  - reflexivity.
  - cbn. lia.
  - apply (bool_decide_unpack _). by vm_compute.
  - repeat constructor; try (apply (bool_decide_unpack _); by vm_compute); by vm_compute.
  - split; [reflexivity|]. rewrite Hpost. reflexivity.
Defined.

(** The service answers the submission with a [transactionID]. *)
Lemma postTransaction_needs_transactionID_witness :
  postTransaction Fixtures.lib (Fixtures.service (Return Fixtures.accepted)) Fixtures.adapter
    (Fixtures.transaction [Fixtures.packet "bb"; Fixtures.packet "cc"])
  = Return tt.
Proof.
  edestruct (postTransaction_needs_transactionID Fixtures.lib
               (Fixtures.service (Return Fixtures.accepted)) Fixtures.adapter
               (Fixtures.transaction [Fixtures.packet "bb"; Fixtures.packet "cc"]))
    as (_ & _ & Haccepted & _).
  - reflexivity.
  - reflexivity.
  - reflexivity.
  - eapply Haccepted; [reflexivity | reflexivity | discriminate].
Defined.


End PostTransactionFacts.

(* ===================================================================== *)
(** * Further properties *)
(* ===================================================================== *)

(** ** The client with fallbacks, whatever the network does *)

Module HttpClientMore.

Import HttpClient.

Section Outcomes.

Variable answer : nat -> string -> Result Value.
Variable path : string.

(** Asked in order from request number [base] on, either every fallback
    throws or there is a first one that answers. *)
Lemma fallbacks_all_fail_or_first_answers (remaining : list string) (base : nat) :
  (forall j fallback, remaining !! j = Some fallback ->
     exists e, answer (base + j)%nat (fallback +:+ path) = Throw e) \/
  (exists k fallback response,
     remaining !! k = Some fallback /\
     answer (base + k)%nat (fallback +:+ path) = Return response /\
     forall j earlier, (j < k)%nat -> remaining !! j = Some earlier ->
       exists e, answer (base + j)%nat (earlier +:+ path) = Throw e).
Proof.
  revert base. induction remaining as [|fallback rest IH]; intros base.
  - left. intros j f Hj. by rewrite lookup_nil in Hj.
  - destruct (answer (base + 0)%nat (fallback +:+ path)) as [response|e] eqn:Hhead.
    + right. exists 0%nat, fallback, response. split; [done|]. split; [done|].
      intros j earlier Hj. lia.
    + destruct (IH (S base)) as [Hall | (k & f & response & Hk & Hanswer & Hearlier)].
      * left. intros [|j] f Hj.
        -- injection Hj as <-. by exists e.
        -- replace (base + S j)%nat with (S base + j)%nat by lia. by apply Hall.
      * right. exists (S k), f, response. split; [done|]. split.
        -- by replace (base + S k)%nat with (S base + k)%nat by lia.
        -- intros [|j] earlier Hj Hlookup.
           ++ injection Hlookup as <-. by exists e.
           ++ replace (base + S j)%nat with (S base + j)%nat by lia.
              apply Hearlier; [lia | done].
Qed.

End Outcomes.

Section Get.

Context {Params : Type}.
Variable axios_get : nat -> string -> Params -> Result Value.
Variable config : Config.
Variable path : string.
Variable params : Params.

Let url (endpoint : string) : string := endpoint +:+ path.

(** The three ways a call of [get] can go. *)
Lemma get_cases :
  (exists response,
     axios_get 0%nat (url (baseUrl config)) params = Return response /\
     get axios_get config path params start
     = (Return response, {| requests := [url (baseUrl config)]; warnings := [] |})) \/
  (exists err,
     axios_get 0%nat (url (baseUrl config)) params = Throw err /\
     (forall j fallback, fallbacks config !! j = Some fallback ->
        exists e, axios_get (S j) (url fallback) params = Throw e) /\
     get axios_get config path params start
     = (Throw err,
        {| requests := url (baseUrl config) :: map url (fallbacks config);
           warnings := getWarning config :: map fallbackWarning (fallbacks config) |})) \/
  (exists err k fallback response,
     axios_get 0%nat (url (baseUrl config)) params = Throw err /\
     fallbacks config !! k = Some fallback /\
     axios_get (S k) (url fallback) params = Return response /\
     get axios_get config path params start
     = (if truthy response then Return response else Throw err,
        {| requests := url (baseUrl config) :: map url (take (S k) (fallbacks config));
           warnings := getWarning config
                       :: map fallbackWarning (take k (fallbacks config)) |})).
Proof.
  destruct (axios_get 0%nat (url (baseUrl config)) params) as [response|err] eqn:Hprimary.
  { left. exists response. split; [done|].
    unfold get, catch, HttpGetRequestFn at 1, request. cbn [start requests length].
    fold (url (baseUrl config)). by rewrite Hprimary. }
  right.
  destruct (fallbacks_all_fail_or_first_answers
              (fun n u => axios_get n u params) path (fallbacks config) 1)
    as [Hall | (k & fallback & response & Hk & Hanswer & Hearlier)].
  - left. exists err. split; [done|]. split; [exact Hall|].
    unfold get, catch, HttpGetRequestFn at 1, request. cbn [start requests length].
    fold (url (baseUrl config)). rewrite Hprimary.
    unfold andThen at 1, warn. cbn [requests warnings app].
    unfold andThen, tryWithFallback, HttpGetRequestFn.
    rewrite (HttpClientFacts.tryWithFallbackFrom_exhausted
               (fun n u => axios_get n u params) path); [reflexivity|].
    intros j f Hj. cbn [requests length]. by apply Hall.
  - right. exists err, k, fallback, response.
    split; [done|]. split; [done|]. split; [exact Hanswer|].
    unfold get, catch, HttpGetRequestFn at 1, request. cbn [start requests length].
    fold (url (baseUrl config)). rewrite Hprimary.
    unfold andThen at 1, warn. cbn [requests warnings app].
    unfold andThen, tryWithFallback, HttpGetRequestFn.
    rewrite <- (take_drop_middle _ _ _ Hk) at 1.
    assert (Hlen : length (take k (fallbacks config)) = k).
    { apply length_take_le. apply lookup_lt_Some in Hk. lia. }
    rewrite (HttpClientFacts.tryWithFallbackFrom_first_success
               (fun n u => axios_get n u params) path _ _ _ response).
    + cbn [requests warnings app]. rewrite (take_S_r _ _ _ Hk).
      by destruct (truthy response).
    + intros j earlier Hj. cbn [requests length].
      pose proof (lookup_lt_Some _ _ _ Hj) as Hlt. rewrite Hlen in Hlt.
      rewrite lookup_take_lt in Hj by lia. by apply (Hearlier j).
    + cbn [requests length]. by rewrite Hlen.
Qed.

(** X1: when the primary endpoint answers, [get] returns that answer as
    it is, truthy or not, after that single request: no fallback is asked
    and nothing is logged. *)
Theorem get_primary_answer_returned (response : Value) :
  axios_get 0%nat (baseUrl config +:+ path) params = Return response ->
  get axios_get config path params start
  = (Return response, {| requests := [baseUrl config +:+ path]; warnings := [] |}).
Proof.
  intros Hprimary.
  unfold get, catch, HttpGetRequestFn at 1, request. cbn [start requests length].
  by rewrite Hprimary.
Qed.

(** X2: whatever the endpoints do, an error thrown by [get] is the error
    the primary endpoint threw at the first request. *)
Theorem get_throws_the_primary_error (e : Error) :
  (get axios_get config path params start).1 = Throw e ->
  axios_get 0%nat (baseUrl config +:+ path) params = Throw e.
Proof.
  destruct get_cases
    as [(response & _ & ->) | [(err & Hprimary & _ & ->)
                              | (err & k & fallback & response & Hprimary & _ & _ & ->)]];
    cbn [fst].
  - discriminate.
  - by intros [= <-].
  - destruct (truthy response); [discriminate|]. by intros [= <-].
Qed.

(** X3: whatever the endpoints do, [get] asks the primary endpoint first
    and then the fallbacks in their declared order without skipping or
    repeating a position, so at most once each; it logs at most one
    warning per request. *)
Theorem get_requests_in_declared_order :
  let trace := (get axios_get config path params start).2 in
  exists n,
    (n <= length (fallbacks config))%nat /\
    requests trace
    = (baseUrl config +:+ path)
      :: map (fun fallback => fallback +:+ path) (take n (fallbacks config)) /\
    (length (warnings trace) <= length (requests trace))%nat.
Proof.
  destruct get_cases
    as [(response & _ & ->) | [(err & Hprimary & _ & ->)
                              | (err & k & fallback & response & Hprimary & Hk & _ & ->)]];
    cbn [snd requests warnings].
  - exists 0%nat. split; [lia|]. split; [by rewrite take_0|]. cbn. lia.
  - exists (length (fallbacks config)). split; [lia|].
    split; [by rewrite firstn_all|].
    cbn [length]. rewrite !length_map. lia.
  - exists (S k). apply lookup_lt_Some in Hk.
    split; [lia|]. split; [done|].
    cbn [length]. rewrite !length_map, !length_take. lia.
Qed.

(** X4: whatever the endpoints do, a value returned by [get] is the
    answer to the last request it made, and it is truthy unless it came
    from the primary endpoint. *)
Theorem get_returns_the_last_answer (response : Value) :
  (get axios_get config path params start).1 = Return response ->
  let trace := (get axios_get config path params start).2 in
  exists asked,
    last (requests trace) = Some asked /\
    axios_get (length (requests trace) - 1)%nat asked params = Return response /\
    ((1 < length (requests trace))%nat -> truthy response = true).
Proof.
  destruct get_cases
    as [(answer & Hprimary & ->) | [(err & Hprimary & _ & ->)
                                  | (err & k & fallback & answer & Hprimary & Hk & Hanswer & ->)]];
    cbn [fst snd requests].
  - intros [= <-]. exists (baseUrl config +:+ path). split; [done|].
    split; [exact Hprimary|]. cbn. lia.
  - discriminate.
  - destruct (truthy answer) eqn:Htruthy; [|discriminate]. intros [= <-].
    exists (fallback +:+ path).
    rewrite (take_S_r _ _ _ Hk), map_app. cbn [map].
    rewrite app_comm_cons, last_snoc. split; [done|].
    rewrite length_app, length_cons, length_map, length_take. cbn [length].
    apply lookup_lt_Some in Hk.
    replace (S (k `min` length (fallbacks config)) + 1 - 1)%nat with (S k) by lia.
    split; [exact Hanswer | done].
Qed.

End Get.

(** The primary endpoint answers with an empty string. *)
Lemma get_primary_answer_returned_witness :
  get (fun (n : nat) (url : string) (_ : unit) => Return (Str ""))
      {| baseUrl := "https://primary"; fallbacks := ["https://a"] |} "/api/v3/fees" tt start
  = (Return (Str ""), {| requests := ["https://primary/api/v3/fees"]; warnings := [] |}).
Proof.
  exact (get_primary_answer_returned (fun _ _ _ => Return (Str ""))
           {| baseUrl := "https://primary"; fallbacks := ["https://a"] |}
           "/api/v3/fees" tt (Str "") eq_refl).
Defined.

(** The primary endpoint times out, the only fallback answers [null]. *)
Lemma get_throws_the_primary_error_witness :
  let axios_get := fun (n : nat) (url : string) (_ : unit) =>
                     match n with
                     | O => Throw (HttpError "timeout of 20000ms exceeded" None)
                     | S _ => Return Null
                     end in
  axios_get 0%nat "https://primary/api/v3/fees" tt
  = Throw (HttpError "timeout of 20000ms exceeded" None).
Proof.
  intros axios_get.
  exact (get_throws_the_primary_error axios_get
           {| baseUrl := "https://primary"; fallbacks := ["https://a"] |}
           "/api/v3/fees" tt (HttpError "timeout of 20000ms exceeded" None) eq_refl).
Defined.

(** The primary endpoint and the first fallback fail, the second fallback
    answers. *)
Lemma get_returns_the_last_answer_witness :
  let axios_get := fun (n : nat) (url : string) (_ : unit) =>
                     if (n <? 2)%nat then Throw (HttpError url (Some 502))
                     else Return (Obj [("data", Arr [])]) in
  let config := {| baseUrl := "https://primary";
                   fallbacks := ["https://a"; "https://b"; "https://c"] |} in
  let trace := (get axios_get config "/api/v3/blocks" tt start).2 in
  exists asked,
    last (requests trace) = Some asked /\
    axios_get (length (requests trace) - 1)%nat asked tt = Return (Obj [("data", Arr [])]) /\
    ((1 < length (requests trace))%nat -> truthy (Obj [("data", Arr [])]) = true).
Proof.
  intros axios_get config.
  exact (get_returns_the_last_answer axios_get config "/api/v3/blocks" tt
           (Obj [("data", Arr [])]) eq_refl).
Defined.

(** A submission: the primary endpoint refuses, the first fallback
    accepts; the second fallback is not asked. *)
Lemma post_first_answering_fallback_witness :
  let config := {| baseUrl := "https://primary";
                   fallbacks := ["https://a"; "https://b"] |} in
  let accepted := Obj [("data", Obj [("transactionId", Str "bfd3")])] in
  let axios_post := fun (n : nat) (url : string) (_ : string) =>
                      match n with
                      | O => Throw (HttpError "Request failed with status code 503" (Some 503))
                      | S _ => Return accepted
                      end in
  post axios_post config "/api/v2/transactions" "0a0b" start
  = (Return accepted,
     {| requests := ["https://primary/api/v2/transactions"; "https://a/api/v2/transactions"];
        warnings := [postWarning config] |}).
Proof.
  intros config accepted axios_post.
  refine (HttpClientFacts.post_first_answering_fallback axios_post config
            "/api/v2/transactions" "0a0b" 0%nat "https://a" accepted
            (HttpError "Request failed with status code 503" (Some 503))
            eq_refl eq_refl _ eq_refl).
  intros j earlier Hj. lia.
Defined.

(** A submission that no endpoint takes. *)
Lemma post_exhausted_raises_primary_error_witness :
  let config := {| baseUrl := "https://primary"; fallbacks := ["https://a"] |} in
  let axios_post := fun (n : nat) (url : string) (_ : string) =>
                      @Throw Value (HttpError url (Some 500)) in
  post axios_post config "/api/v2/transactions" "0a0b" start
  = (Throw (HttpError "https://primary/api/v2/transactions" (Some 500)),
     {| requests := ["https://primary/api/v2/transactions"; "https://a/api/v2/transactions"];
        warnings := [postWarning config; fallbackWarning "https://a"] |}).
Proof.
  intros config axios_post.
  refine (HttpClientFacts.post_exhausted_raises_primary_error axios_post config
            "/api/v2/transactions" "0a0b" _ eq_refl _).
  intros j fallback _. eexists. reflexivity.
Defined.

End HttpClientMore.

(** ** The configuration of the client *)

Module ClientConfigFacts.

Import ClientConfig.

(** X7: whatever the configuration, the list of fallbacks built ends
    with the default URL of the environment, after the configured
    fallbacks in their order, so it is never empty; the base URL is never
    empty, and is that default URL when no host is configured; after the
    call the configuration holds a list of fallbacks, and a second call
    on it builds the same. *)
Theorem getDefaultHttpClientConfig_default_is_last (config : Config) :
  let client := (getDefaultHttpClientConfig config).1 in
  let after := (getDefaultHttpClientConfig config).2 in
  let defaultUrl :=
    if decide (env config = Some "test") then defaultTestNetUrl else defaultMainNetUrl in
  last (HttpClient.fallbacks client) = Some defaultUrl /\
  take (length (HttpClient.fallbacks client) - 1) (HttpClient.fallbacks client)
    = default [] (liskServiceHostFallbacks config) /\
  HttpClient.baseUrl client <> "" /\
  (liskServiceHost config = None -> HttpClient.baseUrl client = defaultUrl) /\
  liskServiceHostFallbacks after = Some (default [] (liskServiceHostFallbacks config)) /\
  getDefaultHttpClientConfig after = (client, after).
Proof.
  intros client after defaultUrl.
  assert (Hdefault : defaultUrl = match env config with
                                  | Some name => if String.eqb name "test"
                                                 then defaultTestNetUrl else defaultMainNetUrl
                                  | None => defaultMainNetUrl
                                  end).
  { unfold defaultUrl. destruct (env config) as [name|]; [|by case_decide].
    destruct (String.eqb_spec name "test") as [->|Hne]; case_decide; congruence. }
  assert (Hnonempty : defaultUrl <> "").
  { unfold defaultUrl. by case_decide. }
  subst client after. unfold getDefaultHttpClientConfig. rewrite <- Hdefault.
  destruct config as [environment host configured]. cbn [env liskServiceHost
    liskServiceHostFallbacks fst snd HttpClient.fallbacks HttpClient.baseUrl] in *.
  split; [destruct configured; cbn [from_option id liskServiceHostFallbacks];
          by rewrite last_snoc|].
  split.
  { destruct configured as [l|]; cbn [from_option id liskServiceHostFallbacks].
    - rewrite length_app. cbn [length].
      replace (length l + 1 - 1)%nat with (length l) by lia. by rewrite take_app_length.
    - reflexivity. }
  split.
  { destruct host as [h|]; [|done]. destruct h; cbn [truthy String.eqb negb]; done. }
  split; [by intros ->|].
  split; [by destruct configured|].
  destruct configured; cbn [env liskServiceHost liskServiceHostFallbacks]; by rewrite <- Hdefault.
Qed.

End ClientConfigFacts.

(** ** The repository, beyond the two queries above *)

Module RepositoryMore.

Import Repository.

Section More.

Variable service : Service.
Variable this : t.

(** X8: the repository handles no error: when the service fails every
    request with an error, each query and the submission throw that same
    error. *)
Theorem repository_rethrows_service_error (err : Error)
    (walletAddress blockId payload : string) (timestamp height : Z)
    (fromHeight toHeight : option Z) (limit order : Value) :
  (forall r url params, axios_get service r url params = Throw err) ->
  (forall url body, axios_post service url body = Throw err) ->
  getAuth service this walletAddress = Throw err /\
  getOutboundTransactions service this walletAddress timestamp limit order = Throw err /\
  getInboundTransactionsFromBlock service this walletAddress blockId = Throw err /\
  getOutboundTransactionsFromBlock service this walletAddress blockId = Throw err /\
  getBlocksBetweenHeights service this fromHeight toHeight limit = Throw err /\
  getLastBlock service this = Throw err /\
  getBlockAtHeight service this height = Throw err /\
  postTransaction service this payload = Throw err.
Proof.
  intros Hget Hpost.
  unfold getAuth, getOutboundTransactions, getInboundTransactionsFromBlock,
    getOutboundTransactionsFromBlock, getBlocksBetweenHeights, getLastBlock,
    getBlockAtHeight, postTransaction, getTransactions, getBlocks, get, post.
  rewrite !Hget, Hpost. by repeat split.
Qed.

(** X9: with no assumption on what the index answers,
    [getBlocksBetweenHeights] returns the answer as it is or without its
    first block, never fewer: the first block is dropped exactly when it
    is at [fromHeight], so nothing is dropped when [fromHeight] is absent
    or the answer is empty, and only the first block is ever looked at. *)
Theorem getBlocksBetweenHeights_drops_at_most_the_first
    (fromHeight toHeight : option Z) (limit : Value) (answer : list Block.t) :
  axios_get service Blocks (serviceURL this +:+ "/api/v3/blocks")
    (<[ "limit" := limit ]>
     (<[ "sort" := Str "height:asc" ]>
     (<[ "height" := Str (from_option numberToString "" fromHeight +:+ ":"
                          +:+ from_option numberToString "" toHeight) ]> ∅)))
    = Return {| body := Build_Envelope Blocks answer |} ->
  exists blocks,
    getBlocksBetweenHeights service this fromHeight toHeight limit = Return blocks /\
    blocks `suffix_of` answer /\
    (length answer <= S (length blocks))%nat /\
    (blocks = answer <-> head (Block.height <$> answer) <> fromHeight \/ answer = []) /\
    (fromHeight = None -> blocks = answer).
Proof.
  intros Hanswer.
  unfold getBlocksBetweenHeights, getBlocks, get, path, Meta.Blocks.path.
  unfold Meta.Blocks.filter.limit, Meta.Blocks.filter.sort, Meta.Blocks.filter.height,
    Meta.Blocks.sortBy.heightAsc.
  change (match fromHeight with Some h => numberToString h | None => "" end)
    with (from_option numberToString "" fromHeight).
  change (match toHeight with Some h => numberToString h | None => "" end)
    with (from_option numberToString "" toHeight).
  rewrite Hanswer. cbn [bind body data].
  destruct answer as [|first rest].
  { exists []. split; [done|]. split; [done|]. split; [lia|]. split; [|done].
    split; [by right | done]. }
  case_decide as Hstrip.
  - exists rest. split; [done|]. split; [by exists [first]|]. split; [cbn; lia|].
    split.
    + split.
      * intros Heq. apply (f_equal length) in Heq. cbn in Heq. lia.
      * intros [Hhead | Hnil]; [|done]. cbn in Hhead. by rewrite Hstrip in Hhead.
    + intros Hnone. by rewrite Hnone in Hstrip.
  - exists (first :: rest). split; [done|]. split; [done|]. split; [lia|].
    split; [|done]. split; [|done]. intros _. left. cbn. congruence.
Qed.

(** X10: [getOutboundTransactionsFromBlock(senderAddress, blockId)] asks
    for the transfers with that sender in that block, with no limit, no
    sort and no bound on the timestamp, and returns what the index
    answers; when the index honours the filter, every returned transaction
    is a token transfer sent by [senderAddress]. *)
Theorem getOutboundTransactionsFromBlock_answer (senderAddress blockId : string)
    (answer : list (ServiceTransaction.t (list string))) :
  let transactionFilterParams : Filter :=
    <[ "moduleCommand" := Str "token:transfer" ]>
    (<[ "blockID" := Str blockId ]>
    (<[ "senderAddress" := Str senderAddress ]> ∅)) in
  axios_get service Transactions (serviceURL this +:+ "/api/v3/transactions")
    transactionFilterParams
    = Return {| body := Build_Envelope Transactions answer |} ->
  Index.honoursTransactions transactionFilterParams answer ->
  getOutboundTransactionsFromBlock service this senderAddress blockId = Return answer /\
  Forall (fun tx => Index.txSender tx = senderAddress /\
                    ServiceTransaction.moduleCommand tx = "token:transfer") answer /\
  transactionFilterParams !! "limit" = None /\
  transactionFilterParams !! "sort" = None /\
  transactionFilterParams !! "timestamp" = None.
Proof.
  intros transactionFilterParams Hanswer (Hsender & Hcommand & _).
  split.
  { unfold getOutboundTransactionsFromBlock, getTransactions, get, path,
      Meta.Transactions.path, Meta.Transactions.filter.moduleCommand,
      Meta.Transactions.filter.blockId, Meta.Transactions.filter.senderAddress.
    fold transactionFilterParams. by rewrite Hanswer. }
  split; [|done].
  specialize (Hsender senderAddress eq_refl).
  specialize (Hcommand "token:transfer" eq_refl).
  rewrite Forall_forall in Hsender, Hcommand |- *. intros tx Htx.
  split; [by apply Hsender | by apply Hcommand].
Qed.

(** X11: [getInboundTransactionsFromBlock(recipientAddress, blockId)]
    asks for the transfers with that recipient in that block, with no
    limit and no sort, and returns what the index answers; when the index
    honours the filter, every returned transaction is a token transfer
    received by [recipientAddress]. *)
Theorem getInboundTransactionsFromBlock_answer (recipientAddress blockId : string)
    (answer : list (ServiceTransaction.t (list string))) :
  let transactionFilterParams : Filter :=
    <[ "moduleCommand" := Str "token:transfer" ]>
    (<[ "blockID" := Str blockId ]>
    (<[ "recipientAddress" := Str recipientAddress ]> ∅)) in
  axios_get service Transactions (serviceURL this +:+ "/api/v3/transactions")
    transactionFilterParams
    = Return {| body := Build_Envelope Transactions answer |} ->
  Index.honoursTransactions transactionFilterParams answer ->
  Index.honoursRecipient transactionFilterParams answer ->
  getInboundTransactionsFromBlock service this recipientAddress blockId = Return answer /\
  Forall (fun tx =>
            ServiceTransaction.recipientAddress (ServiceTransaction.params tx)
              = recipientAddress /\
            ServiceTransaction.moduleCommand tx = "token:transfer") answer /\
  transactionFilterParams !! "senderAddress" = None /\
  transactionFilterParams !! "limit" = None /\
  transactionFilterParams !! "sort" = None.
Proof.
  intros transactionFilterParams Hanswer (_ & Hcommand & _) Hrecipient.
  split.
  { unfold getInboundTransactionsFromBlock, getTransactions, get, path,
      Meta.Transactions.path, Meta.Transactions.filter.moduleCommand,
      Meta.Transactions.filter.blockId, Meta.Transactions.filter.recipientAddress.
    fold transactionFilterParams. by rewrite Hanswer. }
  split; [|done].
  specialize (Hrecipient recipientAddress eq_refl).
  specialize (Hcommand "token:transfer" eq_refl).
  rewrite Forall_forall in Hrecipient, Hcommand |- *. intros tx Htx.
  split; [by apply Hrecipient | by apply Hcommand].
Qed.

End More.

(** A service that is down. *)
Lemma repository_rethrows_service_error_witness :
  let err := HttpError "connect ECONNREFUSED" None in
  let this := new {| config_serviceURL := None; ackTimeout := None |} in
  getAuth (Fixtures.unreachable err) this "lskdex" = Throw err /\
  getOutboundTransactions (Fixtures.unreachable err) this "lskdex" 0 (Num 3) Undefined
    = Throw err /\
  getInboundTransactionsFromBlock (Fixtures.unreachable err) this "lskdex" "3dd1" = Throw err /\
  getOutboundTransactionsFromBlock (Fixtures.unreachable err) this "lskdex" "3dd1" = Throw err /\
  getBlocksBetweenHeights (Fixtures.unreachable err) this (Some 1) (Some 2) (Num 3) = Throw err /\
  getLastBlock (Fixtures.unreachable err) this = Throw err /\
  getBlockAtHeight (Fixtures.unreachable err) this 9 = Throw err /\
  postTransaction (Fixtures.unreachable err) this "0a0b" = Throw err.
Proof.
  intros err this.
  apply (repository_rethrows_service_error (Fixtures.unreachable err) this err).
  - intros [] url params; reflexivity.
  - reflexivity.
Defined.

(** The index holds blocks 14577190 and 14577191 and is asked with limit
    one from 14577190: the only block of the answer is dropped. *)
Lemma getBlocksBetweenHeights_drops_at_most_the_first_witness :
  let answer := [Fixtures.block 14577190] in
  let service := Fixtures.index (Return None) (Return answer) (Return []) (Return Null) in
  let this := new {| config_serviceURL := None; ackTimeout := None |} in
  exists blocks,
    getBlocksBetweenHeights service this (Some 14577190) (Some 14577191) (Num 1)
      = Return blocks /\
    blocks `suffix_of` answer /\
    (length answer <= S (length blocks))%nat /\
    (blocks = answer <-> head (Block.height <$> answer) <> Some 14577190 \/ answer = []) /\
    (Some 14577190 = None -> blocks = answer).
Proof.
  intros answer service this.
  exact (getBlocksBetweenHeights_drops_at_most_the_first service this
           (Some 14577190) (Some 14577191) (Num 1) answer eq_refl).
Defined.

(** One transfer of the sender in the block. *)
Lemma getOutboundTransactionsFromBlock_answer_witness :
  let answer := [Fixtures.transfer "lsks" "lskr" 1702420100 []] in
  let service := Fixtures.index (Return None) (Return []) (Return answer) (Return Null) in
  let this := new {| config_serviceURL := None; ackTimeout := None |} in
  getOutboundTransactionsFromBlock service this "lsks" "3dd1" = Return answer /\
  Forall (fun tx => Index.txSender tx = "lsks" /\
                    ServiceTransaction.moduleCommand tx = "token:transfer") answer.
Proof.
  intros answer service this.
  destruct (getOutboundTransactionsFromBlock_answer service this "lsks" "3dd1" answer)
    as (Hcall & Hall & _).
  - reflexivity.
  - split; [|split; [|split; [|split]]].
    + intros address Haddress. vm_compute in Haddress. injection Haddress as <-.
      repeat constructor.
    + intros name Hname. vm_compute in Hname. injection Hname as <-.
      repeat constructor.
    + intros text interval Htext. vm_compute in Htext. discriminate Htext.
    + intros Hsort. vm_compute in Hsort. discriminate Hsort.
    + intros Hsort. vm_compute in Hsort. discriminate Hsort.
  - by split.
Defined.

(** One transfer to the recipient in the block. *)
Lemma getInboundTransactionsFromBlock_answer_witness :
  let answer := [Fixtures.transfer "lsks" "lskr" 1702420100 []] in
  let service := Fixtures.index (Return None) (Return []) (Return answer) (Return Null) in
  let this := new {| config_serviceURL := None; ackTimeout := None |} in
  getInboundTransactionsFromBlock service this "lskr" "3dd1" = Return answer /\
  Forall (fun tx =>
            ServiceTransaction.recipientAddress (ServiceTransaction.params tx) = "lskr" /\
            ServiceTransaction.moduleCommand tx = "token:transfer") answer.
Proof.
  intros answer service this.
  destruct (getInboundTransactionsFromBlock_answer service this "lskr" "3dd1" answer)
    as (Hcall & Hall & _).
  - reflexivity.
  - split; [|split; [|split; [|split]]].
    + intros address Haddress. vm_compute in Haddress. discriminate Haddress.
    + intros name Hname. vm_compute in Hname. injection Hname as <-.
      repeat constructor.
    + intros text interval Htext. vm_compute in Htext. discriminate Htext.
    + intros Hsort. vm_compute in Hsort. discriminate Hsort.
    + intros Hsort. vm_compute in Hsort. discriminate Hsort.
  - intros address Haddress. vm_compute in Haddress. injection Haddress as <-.
    repeat constructor.
  - by split.
Defined.

End RepositoryMore.

(** ** The adapter: what the read actions return and throw *)

Module AdapterMore.

Import Adapter.

Lemma blockMapper_id (b : Block.t) : Mapper.blockMapper b = b.
Proof. by destruct b. Qed.

Section Reads.

Variable lib : Library.
Variable service : Repository.Service.
Variable this : t.

(** X12: [getMaxBlockHeight] asks for one block in descending order of
    height; it returns the height of the first block of the answer, which
    is the highest of the answer when the index honours the sort, and
    throws the [InvalidActionError] named [blockDidNotExistError], without
    a cause, when the answer is empty. *)
Theorem getMaxBlockHeight_first_of_descending (answer : list Block.t) :
  let blockFilterParams : Filter :=
    <[ "limit" := Num 1 ]> (<[ "sort" := Str "height:desc" ]> ∅) in
  Repository.axios_get service Repository.Blocks
    (Repository.serviceURL (liskServiceRepo this) +:+ "/api/v3/blocks") blockFilterParams
    = Return {| Repository.body := Repository.Build_Envelope Repository.Blocks answer |} ->
  Index.honoursBlocks blockFilterParams answer ->
  match answer with
  | first :: _ =>
      getMaxBlockHeight service this = Return (Block.height first) /\
      Forall (fun b => Block.height b <= Block.height first) answer
  | [] =>
      getMaxBlockHeight service this
      = Throw (InvalidActionError blockDidNotExistError
                 "Error getting block at max height" None)
  end.
Proof.
  intros blockFilterParams Hanswer (_ & _ & Hdesc).
  assert (Hcall : Repository.getLastBlock service (liskServiceRepo this)
                  = Return (Repository.firstOrNull answer)).
  { unfold Repository.getLastBlock, Repository.getBlocks, Repository.get, Repository.path,
      Meta.Blocks.path, Meta.Blocks.filter.limit, Meta.Blocks.filter.sort,
      Meta.Blocks.sortBy.heightDesc.
    fold blockFilterParams. by rewrite Hanswer. }
  unfold getMaxBlockHeight. rewrite Hcall.
  destruct answer as [|first rest]; [done|].
  split; [done|].
  specialize (Hdesc eq_refl).
  apply Sorted_StronglySorted in Hdesc; [|intros x y z; lia].
  cbn [map] in Hdesc. apply StronglySorted_inv in Hdesc as [_ Hfirst].
  constructor; [lia|].
  apply List.Forall_forall. intros b Hb.
  assert (Block.height first >= Block.height b).
  { eapply List.Forall_forall; [exact Hfirst|]. by apply in_map. }
  lia.
Qed.

(** X13: [getBlockAtHeight(height)] asks for that height alone and
    returns the first block of the answer, which is at that height when
    the index honours the filter; it throws the [InvalidActionError] named
    [blockDidNotExistError], without a cause, when the answer is empty. *)
Theorem getBlockAtHeight_first_match (height : Z) (answer : list Block.t) :
  let blockFilterParams : Filter := <[ "height" := Num height ]> ∅ in
  Repository.axios_get service Repository.Blocks
    (Repository.serviceURL (liskServiceRepo this) +:+ "/api/v3/blocks") blockFilterParams
    = Return {| Repository.body := Repository.Build_Envelope Repository.Blocks answer |} ->
  Index.honoursExactHeight blockFilterParams answer ->
  match answer with
  | first :: _ =>
      getBlockAtHeight service this height = Return first /\ Block.height first = height
  | [] =>
      getBlockAtHeight service this height
      = Throw (InvalidActionError blockDidNotExistError
                 ("Error getting block at height " +:+ numberToString height) None)
  end.
Proof.
  intros blockFilterParams Hanswer Hexact.
  assert (Hcall : Repository.getBlockAtHeight service (liskServiceRepo this) height
                  = Return (Repository.firstOrNull answer)).
  { unfold Repository.getBlockAtHeight, Repository.getBlocks, Repository.get,
      Repository.path, Meta.Blocks.path, Meta.Blocks.filter.height.
    fold blockFilterParams. by rewrite Hanswer. }
  unfold getBlockAtHeight. rewrite Hcall.
  destruct answer as [|first rest]; [done|].
  cbn [bind Repository.firstOrNull try_catch]. rewrite blockMapper_id.
  split; [done|].
  specialize (Hexact height eq_refl). by apply Forall_cons in Hexact as [? _].
Qed.

(** X14: whatever the service does, an error thrown by a read action of
    the adapter is an [InvalidActionError]. *)
Theorem read_actions_throw_InvalidActionError
    (walletAddress blockId : string) (timestamp height : Z)
    (fromHeight toHeight : option Z) (limit order : Value) (e : Error) :
  getMultisigWalletMembers lib service this walletAddress = Throw e \/
  getMinMultisigRequiredSignatures service this walletAddress = Throw e \/
  getOutboundTransactions lib service this walletAddress timestamp limit order = Throw e \/
  getInboundTransactionsFromBlock lib service this walletAddress blockId = Throw e \/
  getOutboundTransactionsFromBlock lib service this walletAddress blockId = Throw e \/
  getMaxBlockHeight service this = Throw e \/
  getBlocksBetweenHeights service this fromHeight toHeight limit = Throw e \/
  getBlockAtHeight service this height = Throw e ->
  isInvalidActionError e = true.
Proof.
  unfold getMultisigWalletMembers, getMinMultisigRequiredSignatures, getOutboundTransactions,
    getInboundTransactionsFromBlock, getOutboundTransactionsFromBlock, getMaxBlockHeight,
    getBlocksBetweenHeights, getBlockAtHeight, try_catch, bind.
  intros [H|[H|[H|[H|[H|[H|[H|H]]]]]]];
    repeat (case_match; simplify_eq); done.
Qed.

(** X15: when the service fails with an error, the four actions that
    return lists return the empty list if the error is a response of
    status 404, and otherwise throw an [InvalidActionError] that carries
    the error as its cause, named [accountDidNotExistError] for the
    actions on transactions and [blockDidNotExistError] for
    [getBlocksBetweenHeights]. *)
Theorem list_actions_on_service_error (err : Error)
    (walletAddress blockId : string) (timestamp : Z)
    (fromHeight toHeight : option Z) (limit order : Value) :
  (forall r url params, Repository.axios_get service r url params = Throw err) ->
  getOutboundTransactions lib service this walletAddress timestamp limit order
  = (if notFound err then Return []
     else Throw (InvalidActionError accountDidNotExistError
                   ("Error getting outbound transactions with account address "
                    +:+ walletAddress) (Some err))) /\
  getInboundTransactionsFromBlock lib service this walletAddress blockId
  = (if notFound err then Return []
     else Throw (InvalidActionError accountDidNotExistError
                   ("Error getting inbound transactions with account address "
                    +:+ walletAddress) (Some err))) /\
  getOutboundTransactionsFromBlock lib service this walletAddress blockId
  = (if notFound err then Return []
     else Throw (InvalidActionError accountDidNotExistError
                   ("Error getting outbound transactions with account address "
                    +:+ walletAddress) (Some err))) /\
  (notFound err = true ->
     getBlocksBetweenHeights service this fromHeight toHeight limit = Return []) /\
  (notFound err = false ->
     exists message,
       getBlocksBetweenHeights service this fromHeight toHeight limit
       = Throw (InvalidActionError blockDidNotExistError message (Some err))).
Proof.
  intros Hdown.
  unfold getOutboundTransactions, getInboundTransactionsFromBlock,
    getOutboundTransactionsFromBlock, getBlocksBetweenHeights,
    Repository.getOutboundTransactions, Repository.getInboundTransactionsFromBlock,
    Repository.getOutboundTransactionsFromBlock, Repository.getBlocksBetweenHeights,
    Repository.getTransactions, Repository.getBlocks, Repository.get.
  rewrite !Hdown. cbn [bind try_catch].
  repeat split; try done.
  - by intros ->.
  - intros ->. by eexists.
Qed.

(** X16: the actions on a single account or block do not turn a missing
    entity into an empty result.  When the service fails with an error
    (a response of status 404 included), each throws an
    [InvalidActionError] with that error as its cause, named
    [multisigAccountDidNotExistError] for the two multisig actions and
    [blockDidNotExistError] for [getMaxBlockHeight] and
    [getBlockAtHeight]. *)
Theorem single_entity_actions_on_service_error (err : Error)
    (walletAddress : string) (height : Z) :
  (forall r url params, Repository.axios_get service r url params = Throw err) ->
  isInvalidActionError err = false ->
  getMultisigWalletMembers lib service this walletAddress
  = Throw (InvalidActionError multisigAccountDidNotExistError
             ("Error getting multisig account with address " +:+ walletAddress)
             (Some err)) /\
  getMinMultisigRequiredSignatures service this walletAddress
  = Throw (InvalidActionError multisigAccountDidNotExistError
             ("Error getting multisig account with address " +:+ walletAddress)
             (Some err)) /\
  getMaxBlockHeight service this
  = Throw (InvalidActionError blockDidNotExistError
             "Error getting block at max height" (Some err)) /\
  getBlockAtHeight service this height
  = Throw (InvalidActionError blockDidNotExistError
             ("Error getting block at height " +:+ numberToString height) (Some err)).
Proof.
  intros Hdown Hplain.
  unfold getMultisigWalletMembers, getMinMultisigRequiredSignatures, getMaxBlockHeight,
    getBlockAtHeight, Repository.getAuth, Repository.getLastBlock,
    Repository.getBlockAtHeight, Repository.getBlocks, Repository.get.
  rewrite !Hdown. cbn [bind try_catch]. by rewrite Hplain.
Qed.

(** X17: for an address the service has no account for (the answer holds
    no data), both multisig actions throw the [InvalidActionError] named
    [multisigAccountDidNotExistError], without a cause. *)
Theorem multisig_actions_on_unknown_account (walletAddress : string) :
  Repository.axios_get service Repository.Auth
    (Repository.serviceURL (liskServiceRepo this) +:+ "/api/v3/auth")
    {[ "address" := Str walletAddress ]}
    = Return {| Repository.body := Repository.Build_Envelope Repository.Auth None |} ->
  getMultisigWalletMembers lib service this walletAddress
  = Throw (InvalidActionError multisigAccountDidNotExistError
             ("Error getting multisig account with address " +:+ walletAddress) None) /\
  getMinMultisigRequiredSignatures service this walletAddress
  = Throw (InvalidActionError multisigAccountDidNotExistError
             ("Error getting multisig account with address " +:+ walletAddress) None).
Proof.
  intros Hanswer.
  unfold getMultisigWalletMembers, getMinMultisigRequiredSignatures, Repository.getAuth,
    Repository.get, Repository.path.
  by rewrite Hanswer.
Qed.

(** X18: whatever the service does, the multisig actions return only for
    an existing account with a positive [numberOfSignatures]:
    [getMinMultisigRequiredSignatures] returns that number, so never zero
    or less, and [getMultisigWalletMembers] returns one address per
    optional key of that account, in their order. *)
Theorem multisig_actions_return_for_multisig_accounts
    (walletAddress : string) (members : list string) (required : Z) :
  getMultisigWalletMembers lib service this walletAddress = Return members \/
  getMinMultisigRequiredSignatures service this walletAddress = Return required ->
  exists accountAuth,
    Repository.getAuth service (liskServiceRepo this) walletAddress
      = Return (Some accountAuth) /\
    0 < AccountAuth.numberOfSignatures accountAuth /\
    (getMultisigWalletMembers lib service this walletAddress = Return members ->
       members = map (fun publicKey =>
                        getBase32AddressFromPublicKey lib (toBuffer publicKey)
                          (chainSymbol this))
                     (AccountAuth.optionalKeys accountAuth)) /\
    (getMinMultisigRequiredSignatures service this walletAddress = Return required ->
       required = AccountAuth.numberOfSignatures accountAuth /\ 0 < required).
Proof.
  unfold getMultisigWalletMembers, getMinMultisigRequiredSignatures, isMultisigAccount.
  destruct (Repository.getAuth service (liskServiceRepo this) walletAddress)
    as [[accountAuth|]|err]; cbn [bind try_catch].
  - destruct (Z.ltb_spec 0 (AccountAuth.numberOfSignatures accountAuth)) as [Hpos|Hnot];
      cbn [negb try_catch isInvalidActionError].
    + intros _. exists accountAuth. split; [done|]. split; [done|].
      split; [by intros [= <-] | by intros [= <-]].
    + intros [H|H]; discriminate H.
  - intros [H|H]; discriminate H.
  - destruct (isInvalidActionError err); intros [H|H]; discriminate H.
Qed.

End Reads.

(** The index answers with its highest block. *)
Lemma getMaxBlockHeight_first_of_descending_witness :
  let service :=
    Fixtures.index (Return None) (Return [Fixtures.block 23476951]) (Return []) (Return Null) in
  getMaxBlockHeight service Fixtures.adapter = Return 23476951 /\
  Forall (fun b => Block.height b <= 23476951) [Fixtures.block 23476951].
Proof.
  intros service.
  apply (getMaxBlockHeight_first_of_descending service Fixtures.adapter
           [Fixtures.block 23476951]).
  - reflexivity.
  - split; [|split].
    + intros text interval Htext. vm_compute in Htext. discriminate Htext.
    + intros Hsort. vm_compute in Hsort. discriminate Hsort.
    + intros _. repeat constructor.
Defined.

(** The index has no block at height 9. *)
Lemma getBlockAtHeight_first_match_witness :
  let service := Fixtures.index (Return None) (Return []) (Return []) (Return Null) in
  getBlockAtHeight service Fixtures.adapter 9
  = Throw (InvalidActionError blockDidNotExistError "Error getting block at height 9" None).
Proof.
  intros service.
  apply (getBlockAtHeight_first_match service Fixtures.adapter 9 []).
  - reflexivity.
  - intros h Hh. constructor.
Defined.

(** The account of the fixture service asked while the service is down. *)
Lemma read_actions_throw_InvalidActionError_witness :
  isInvalidActionError
    (InvalidActionError multisigAccountDidNotExistError
       "Error getting multisig account with address lskdex"
       (Some (HttpError "Network Error" None))) = true.
Proof.
  apply (read_actions_throw_InvalidActionError Fixtures.lib
           (Fixtures.unreachable (HttpError "Network Error" None)) Fixtures.adapter
           "lskdex" "3dd1" 0 9 None None Undefined Undefined).
  left. reflexivity.
Defined.

(** The service answers 404 to every request. *)
Lemma list_actions_on_service_error_witness :
  let err := HttpError "Request failed with status code 404" (Some 404) in
  getOutboundTransactions Fixtures.lib (Fixtures.unreachable err) Fixtures.adapter
    "lskdex" 0 (Num 3) Undefined = Return [] /\
  getInboundTransactionsFromBlock Fixtures.lib (Fixtures.unreachable err) Fixtures.adapter
    "lskdex" "3dd1" = Return [] /\
  getOutboundTransactionsFromBlock Fixtures.lib (Fixtures.unreachable err) Fixtures.adapter
    "lskdex" "3dd1" = Return [] /\
  getBlocksBetweenHeights (Fixtures.unreachable err) Fixtures.adapter (Some 100) (Some 200)
    (Num 1) = Return [].
Proof.
  intros err.
  destruct (list_actions_on_service_error Fixtures.lib (Fixtures.unreachable err)
              Fixtures.adapter err "lskdex" "3dd1" 0 (Some 100) (Some 200) (Num 3) Undefined)
    as (Hout & Hin & Hfrom & _).
  { intros [] url params; reflexivity. }
  destruct (list_actions_on_service_error Fixtures.lib (Fixtures.unreachable err)
              Fixtures.adapter err "lskdex" "3dd1" 0 (Some 100) (Some 200) (Num 1) Undefined)
    as (_ & _ & _ & Hblocks & _).
  { intros [] url params; reflexivity. }
  split; [exact Hout|]. split; [exact Hin|]. split; [exact Hfrom|].
  apply Hblocks. reflexivity.
Defined.

(** The service answers 404 to every request. *)
Lemma single_entity_actions_on_service_error_witness :
  let err := HttpError "Request failed with status code 404" (Some 404) in
  getMultisigWalletMembers Fixtures.lib (Fixtures.unreachable err) Fixtures.adapter "ldpos63"
  = Throw (InvalidActionError multisigAccountDidNotExistError
             "Error getting multisig account with address ldpos63" (Some err)) /\
  getMinMultisigRequiredSignatures (Fixtures.unreachable err) Fixtures.adapter "ldpos63"
  = Throw (InvalidActionError multisigAccountDidNotExistError
             "Error getting multisig account with address ldpos63" (Some err)) /\
  getMaxBlockHeight (Fixtures.unreachable err) Fixtures.adapter
  = Throw (InvalidActionError blockDidNotExistError
             "Error getting block at max height" (Some err)) /\
  getBlockAtHeight (Fixtures.unreachable err) Fixtures.adapter 9
  = Throw (InvalidActionError blockDidNotExistError
             "Error getting block at height 9" (Some err)).
Proof.
  intros err.
  apply (single_entity_actions_on_service_error Fixtures.lib (Fixtures.unreachable err)
           Fixtures.adapter err "ldpos63" 9).
  - intros [] url params; reflexivity.
  - reflexivity.
Defined.

(** The service answers without data. *)
Lemma multisig_actions_on_unknown_account_witness :
  let service := Fixtures.index (Return None) (Return []) (Return []) (Return Null) in
  getMultisigWalletMembers Fixtures.lib service Fixtures.adapter "ldpos63"
  = Throw (InvalidActionError multisigAccountDidNotExistError
             "Error getting multisig account with address ldpos63" None) /\
  getMinMultisigRequiredSignatures service Fixtures.adapter "ldpos63"
  = Throw (InvalidActionError multisigAccountDidNotExistError
             "Error getting multisig account with address ldpos63" None).
Proof.
  intros service.
  exact (multisig_actions_on_unknown_account Fixtures.lib service Fixtures.adapter
           "ldpos63" eq_refl).
Defined.

(** The account of the fixture service, of threshold two. *)
Lemma multisig_actions_return_for_multisig_accounts_witness :
  exists accountAuth,
    Repository.getAuth (Fixtures.service (Return Null))
      (liskServiceRepo Fixtures.adapter) "lskdex" = Return (Some accountAuth) /\
    0 < AccountAuth.numberOfSignatures accountAuth.
Proof.
  destruct (multisig_actions_return_for_multisig_accounts Fixtures.lib
              (Fixtures.service (Return Null)) Fixtures.adapter "lskdex" [] 2)
    as (accountAuth & Hauth & Hpositive & _).
  - right. reflexivity.
  - by exists accountAuth.
Defined.

End AdapterMore.

(** ** The adapter: more on [load] and [postTransaction] *)

Module PostTransactionMore.

Import Adapter.

(** *** Sets *)

Lemma foldl_setAdd_sublist (l s : list string) :
  exists added, foldl setAdd s l = s ++ added /\ added `sublist_of` l.
Proof.
  revert s. induction l as [|x l IH]; intros s; cbn [foldl].
  - exists []. by rewrite app_nil_r.
  - unfold setAdd at 2. case_decide.
    + destruct (IH s) as (added & -> & Hsub). exists added. split; [done|].
      by apply sublist_cons.
    + destruct (IH (s ++ [x])) as (added & -> & Hsub). exists (x :: added).
      split; [by rewrite <- app_assoc|]. by apply sublist_skip.
Qed.

Lemma foldl_setAdd_NoDup_id (l s : list string) :
  NoDup (s ++ l) -> foldl setAdd s l = s ++ l.
Proof.
  revert s. induction l as [|x l IH]; intros s Hnodup; cbn [foldl].
  - by rewrite app_nil_r.
  - unfold setAdd. case_decide as Hin.
    + apply NoDup_app in Hnodup as (_ & Hfresh & _).
      exfalso. apply (Hfresh x Hin). apply list_elem_of_here.
    + rewrite IH; [by rewrite <- app_assoc|]. by rewrite <- app_assoc.
Qed.

(** The order of a set: an element stands before another one when it
    was inserted first. *)
Lemma arrayFromSet_order (l : list string) (i j : nat) (x y : string) :
  arrayFromSet l !! i = Some x ->
  arrayFromSet l !! j = Some y ->
  (i < j)%nat ->
  exists n, x ∈ take n l /\ y ∉ take n l.
Proof.
  revert i j x y. induction l as [|z l IH] using rev_ind; intros i j x y Hx Hy Hlt.
  { change (arrayFromSet []) with (@nil string) in Hx. by rewrite lookup_nil in Hx. }
  assert (Hlift : (exists n, x ∈ take n l /\ y ∉ take n l) ->
                  exists n, x ∈ take n (l ++ [z]) /\ y ∉ take n (l ++ [z])).
  { intros (n & Hin & Hout). exists (min n (length l)).
    rewrite take_app_le by lia.
    destruct (Nat.le_gt_cases n (length l)) as [Hle|Hgt].
    - by rewrite Nat.min_l by lia.
    - rewrite Nat.min_r by lia. rewrite take_ge in Hin, Hout by lia.
      by rewrite take_ge by lia. }
  unfold arrayFromSet in Hx, Hy. rewrite foldl_snoc in Hx, Hy.
  fold (arrayFromSet l) in Hx, Hy. unfold setAdd in Hx, Hy.
  case_decide as Hz; [by apply Hlift, (IH i j)|].
  pose proof (lookup_lt_Some _ _ _ Hy) as Hj. rewrite length_app in Hj. cbn in Hj.
  destruct (decide (j < length (arrayFromSet l))%nat) as [Hold|Hnew].
  - rewrite lookup_app_l in Hx, Hy by lia. by apply Hlift, (IH i j).
  - rewrite lookup_app_l in Hx by lia. rewrite lookup_app_r in Hy by lia.
    replace (j - length (arrayFromSet l))%nat with 0%nat in Hy by lia.
    injection Hy as <-. exists (length l).
    rewrite take_app_le by lia. rewrite take_ge by lia.
    split.
    + apply JsFacts.elem_of_arrayFromSet. by eapply list_elem_of_lookup_2.
    + by rewrite <- JsFacts.elem_of_arrayFromSet.
Qed.

(** *** Maps that throw *)

(** A [map] throws what its callback threw on one of the elements. *)
Lemma arrayMap_Throw_inv {A B} (f : A -> Result B) (l : list A) (e : Error) :
  arrayMap f l = Throw e -> exists x, x ∈ l /\ f x = Throw e.
Proof.
  induction l as [|x l IH]; [done|].
  cbn [arrayMap]. destruct (f x) as [y|e'] eqn:Hx; cbn [bind].
  - destruct (arrayMap f l) as [ys|e'']; cbn [bind]; [done|].
    intros [= ->]. destruct (IH eq_refl) as (z & Hz & Hthrow).
    exists z. split; [by apply list_elem_of_further | done].
  - intros [= ->]. exists x. split; [apply list_elem_of_here | done].
Qed.

(** A [map] that returns has had its callback return on every element. *)
Lemma arrayMap_Return_elem {A B} (f : A -> Result B) (l : list A) (ys : list B) (x : A) :
  arrayMap f l = Return ys -> x ∈ l -> exists y, f x = Return y.
Proof.
  revert ys. induction l as [|z l IH]; intros ys Hys Hx; [by apply elem_of_nil in Hx|].
  cbn [arrayMap] in Hys. destruct (f z) as [y|] eqn:Hz; cbn [bind] in Hys; [|done].
  destruct (arrayMap f l) as [rest|]; cbn [bind] in Hys; [|done].
  apply elem_of_cons in Hx as [-> | Hx]; [by exists y | by apply (IH rest)].
Qed.

(** A [map] whose callback returns one value or throws one error,
    according to a test of the element. *)
Lemma arrayMap_test {A B} (f : A -> Result B) (P : A -> Prop) `{!forall x, Decision (P x)}
    (b : B) (e : Error) (l : list A) :
  (forall x, f x = if decide (P x) then Return b else Throw e) ->
  arrayMap f l = if decide (Forall P l) then Return (replicate (length l) b) else Throw e.
Proof.
  intros Hf. induction l as [|x l IH].
  - cbn [arrayMap length replicate]. by rewrite decide_True by constructor.
  - cbn [arrayMap]. rewrite Hf, IH.
    destruct (decide (P x)) as [Hx|Hx]; cbn [bind].
    + destruct (decide (Forall P l)) as [Hl|Hl]; cbn [bind].
      * rewrite decide_True by by constructor. done.
      * rewrite decide_False; [done|]. by intros [_ ?]%Forall_cons.
    + rewrite decide_False; [done|]. by intros [? _]%Forall_cons.
Qed.

(** [l.slice(0, stop)] is a prefix of [l], whatever [stop]. *)
Lemma slice_from_0_prefix {A} (l : list A) (stop : Z) :
  exists n, slice l 0 (Some stop) = take n l.
Proof.
  unfold slice. exists (Z.to_nat (relativeIndex (Z.of_nat (length l)) stop
                                  - relativeIndex (Z.of_nat (length l)) 0)).
  replace (relativeIndex (Z.of_nat (length l)) 0) with 0; [by rewrite drop_0|].
  unfold relativeIndex. cbn. lia.
Qed.

Section Load.

Variable service : Repository.Service.

(** X19: the member keys [load] leaves are the keys of the wallet's
    account without repetition: each mandatory and each optional key is
    there once, nothing else is, and they stand in the order of their
    first occurrence, mandatory keys first: of two member keys the one
    that stands first is the one that some prefix of the account's keys
    holds without the other.  So they are a sublist of the account's
    keys, and when the account lists no key twice they are the mandatory
    keys followed by the optional keys.  The threshold is the account's
    [numberOfSignatures], the chain symbol is ['lsk'] unless configured. *)
Theorem load_member_keys (config : Config) (this : t) :
  load service config = Return this ->
  exists walletAddress accountAuth,
    config_dexWalletAddress config = Some walletAddress /\
    Repository.getAuth service (liskServiceRepo this) walletAddress
      = Return (Some accountAuth) /\
    let keys := AccountAuth.mandatoryKeys accountAuth ++ AccountAuth.optionalKeys accountAuth in
    NoDup (dexMultisigPublicKeys this) /\
    (forall key, key ∈ dexMultisigPublicKeys this <-> key ∈ keys) /\
    (forall i j x y,
       dexMultisigPublicKeys this !! i = Some x ->
       dexMultisigPublicKeys this !! j = Some y ->
       (i < j)%nat ->
       exists n, x ∈ take n keys /\ y ∉ take n keys) /\
    dexMultisigPublicKeys this `sublist_of` keys /\
    (NoDup keys -> dexMultisigPublicKeys this = keys) /\
    dexNumberOfSignatures this = AccountAuth.numberOfSignatures accountAuth /\
    (config_chainSymbol config = None -> chainSymbol this = "lsk").
Proof.
  unfold load. destruct (config_dexWalletAddress config) as [address|]; [|done].
  destruct (truthy (Str address)); [|done].
  destruct (Repository.getAuth service _ address) as [[accountAuth|]|] eqn:Hauth;
    cbn [bind]; try done.
  intros [= <-]. exists address, accountAuth.
  cbn [dexMultisigPublicKeys dexNumberOfSignatures liskServiceRepo chainSymbol].
  split; [done|]. split; [exact Hauth|].
  split; [apply JsFacts.arrayFromSet_NoDup|].
  split; [apply JsFacts.elem_of_arrayFromSet|].
  split; [apply arrayFromSet_order|].
  split.
  { unfold arrayFromSet. destruct (foldl_setAdd_sublist
      (AccountAuth.mandatoryKeys accountAuth ++ AccountAuth.optionalKeys accountAuth) [])
      as (added & -> & Hsub). done. }
  split; [intros Hnodup; by apply (foldl_setAdd_NoDup_id _ [])|].
  split; [done|]. by intros ->.
Qed.

(** X20: [load] needs the address of the wallet and lets every failure
    through as it is: without an address (undefined or empty) it throws
    the plain [Error] 'Dex wallet address not provided in the config',
    and an error of the service is thrown unchanged, not as an
    [InvalidActionError]. *)
Theorem load_failures (config : Config) (err : Error) :
  (config_dexWalletAddress config = None \/ config_dexWalletAddress config = Some "" ->
     load service config
     = Throw (PlainError "Dex wallet address not provided in the config")) /\
  ((forall r url params, Repository.axios_get service r url params = Throw err) ->
   forall walletAddress,
     config_dexWalletAddress config = Some walletAddress -> walletAddress <> "" ->
     load service config = Throw err).
Proof.
  split.
  - unfold load. by intros [-> | ->].
  - intros Hdown walletAddress Haddress Hnonempty. unfold load. rewrite Haddress.
    replace (truthy (Str walletAddress)) with true by by destruct walletAddress.
    unfold Repository.getAuth, Repository.get. by rewrite Hdown.
Qed.

End Load.

Section Posting.

Variable lib : Library.
Variable service : Repository.Service.
Variable this : t.

(** X21: whatever the threshold, zero and negative values included, the
    packets selected are the first packet followed by a prefix of the
    shuffled others: when [shuffle] permutes, no packet is selected that
    was not supplied, none more often than supplied, and the first packet
    always is. *)
Theorem selectedSignatures_within_supplied (transaction : PreparedTransaction.t)
    (first : SignaturePacket.t) (others : list SignaturePacket.t) :
  PreparedTransaction.signatures transaction = first :: others ->
  shuffle lib others ≡ₚ others ->
  let selected := selectedSignatures lib this transaction in
  (exists n, selected = first :: take n (shuffle lib others)) /\
  selected ⊆+ first :: others /\
  (length selected <= length (first :: others))%nat.
Proof.
  intros Hsignatures Hshuffle selected.
  assert (Hshape : exists n, selected = first :: take n (shuffle lib others)).
  { unfold selected, selectedSignatures. rewrite Hsignatures, JsFacts.slice_from_1.
    destruct (slice_from_0_prefix (shuffle lib others) (dexNumberOfSignatures this - 1))
      as [n ->]. by exists n. }
  split; [exact Hshape|]. destruct Hshape as [n ->].
  assert (Hsub : first :: take n (shuffle lib others) ⊆+ first :: others).
  { apply submseteq_skip. rewrite <- Hshuffle at 2.
    apply sublist_submseteq, sublist_take. }
  split; [exact Hsub|]. by apply submseteq_length.
Qed.

(** X22: for a transaction without signature packets nothing is
    selected, whatever the threshold.  When no member key names a
    property of [Object.prototype], the vector has one empty entry per
    member key and is the one put in the transaction; when a member key
    does, the lookup finds that property, the conversion of its
    undefined [signature] is refused, and [postTransaction] throws that
    TypeError as it is, with nothing sent. *)
Theorem postTransaction_without_signatures (transaction : PreparedTransaction.t) :
  PreparedTransaction.signatures transaction = [] ->
  selectedSignatures lib this transaction = [] /\
  (Forall (fun key => key ∉ objectPrototypeNames) (dexMultisigPublicKeys this) ->
     signatures this (selectedSignatures lib this transaction)
     = Return (replicate (length (dexMultisigPublicKeys this)) []) /\
     (forall signed, signedTxn lib this transaction = Return signed ->
        SignedTxn.signatures signed = replicate (length (dexMultisigPublicKeys this)) [])) /\
  (~ Forall (fun key => key ∉ objectPrototypeNames) (dexMultisigPublicKeys this) ->
     signatures this (selectedSignatures lib this transaction)
     = Throw (PlainError invalidFirstArgument) /\
     postTransaction lib service this transaction = Throw (PlainError invalidFirstArgument)).
Proof.
  intros Hnone.
  assert (Hselected : selectedSignatures lib this transaction = []).
  { unfold selectedSignatures. by rewrite Hnone. }
  assert (Hvector :
            signatures this []
            = if decide (Forall (fun key => key ∉ objectPrototypeNames)
                                (dexMultisigPublicKeys this))
              then Return (replicate (length (dexMultisigPublicKeys this)) [])
              else Throw (PlainError invalidFirstArgument)).
  { unfold signatures. apply arrayMap_test. intros key.
    unfold property, publicKeySignatures. cbn [foldl own prototype].
    rewrite lookup_empty. unfold inherited.
    destruct (String.eqb_spec key "__proto__") as [->|_].
    - rewrite decide_False; [done|]. intros Hout. apply Hout.
      apply (bool_decide_unpack _). by vm_compute.
    - destruct (decide (key ∈ objectPrototypeNames)) as [Hin|Hout].
      + by rewrite decide_False by by intros Hout.
      + by rewrite decide_True. }
  split; [exact Hselected|]. rewrite Hselected. split.
  - intros Hkeys. rewrite decide_True in Hvector by done. split; [exact Hvector|].
    intros signed Hsigned.
    apply (PostTransactionFacts.signedTxn_signatures lib this) in Hsigned.
    rewrite Hselected, Hvector in Hsigned. by injection Hsigned as <-.
  - intros Hkeys. rewrite decide_False in Hvector by done. split; [exact Hvector|].
    unfold postTransaction, signedTxn. by rewrite Hselected, Hvector.
Qed.

(** X23: with no assumption on the packets, a vector that is assembled
    holds, at the position of a member key, the signature of the last
    selected packet with that key, and the empty buffer when there is
    none: of two selected packets with one key the later one is sent.
    The vector is assembled when the member keys name no property that
    the object of the packets inherits. *)
Theorem signatures_last_packet_of_key (selected : list SignaturePacket.t) :
  (Forall ownKey (dexMultisigPublicKeys this) ->
     exists vector, signatures this selected = Return vector) /\
  (forall vector i key,
     signatures this selected = Return vector ->
     dexMultisigPublicKeys this !! i = Some key ->
     vector !! i
     = Some (bufferFromHex
               (from_option SignaturePacket.signature ""
                  (last (filter (fun p => SignaturePacket.publicKey p = key) selected))))).
Proof.
  split.
  - intros Hkeys. eexists. by apply PostTransactionFacts.signatures_ownKey.
  - intros vector i key Hvector Hi.
    rewrite (PostTransactionFacts.signatures_Return this selected vector Hvector).
    by rewrite list_lookup_fmap, Hi.
Qed.

(** X24: when the member keys name no property that the object of the
    packets inherits, packets whose public key is not a member key do not
    count: the vector is assembled, and it is the one of the selection
    without them. *)
Theorem signatures_ignore_other_keys (selected : list SignaturePacket.t) :
  Forall ownKey (dexMultisigPublicKeys this) ->
  (exists vector, signatures this selected = Return vector) /\
  signatures this selected
  = signatures this
      (filter (fun p => SignaturePacket.publicKey p ∈ dexMultisigPublicKeys this) selected).
Proof.
  intros Hkeys.
  rewrite !(PostTransactionFacts.signatures_ownKey this _ Hkeys).
  split; [by eexists|]. f_equal.
  apply list_fmap_ext. intros i key Hi. rewrite list_filter_filter.
  rewrite (list_filter_iff
             (fun p => SignaturePacket.publicKey p = key /\
                       SignaturePacket.publicKey p ∈ dexMultisigPublicKeys this)
             (fun p => SignaturePacket.publicKey p = key)); [done|].
  intros p. split; [tauto|].
  intros Hkey. split; [done|]. rewrite Hkey. by eapply list_elem_of_lookup_2.
Qed.

(** X29: the object of the packets is a plain object, so a member key
    that names a property of [Object.prototype] finds that property when
    no selected packet carries the key (and none has made itself the
    prototype): the conversion of its undefined [signature] is refused,
    no vector is assembled, and [postTransaction] throws that TypeError
    as it is, with nothing converted, encoded or sent. *)
Theorem inherited_member_key_refused (selected : list SignaturePacket.t) (key : string) :
  key ∈ dexMultisigPublicKeys this ->
  key ∈ objectPrototypeNames ->
  (forall p, p ∈ selected ->
     SignaturePacket.publicKey p <> key /\ SignaturePacket.publicKey p <> "__proto__") ->
  signatures this selected = Throw (PlainError invalidFirstArgument) /\
  (forall transaction,
     selectedSignatures lib this transaction = selected ->
     postTransaction lib service this transaction = Throw (PlainError invalidFirstArgument)).
Proof.
  intros Hmember Hinherited Hnone.
  assert (Hvector : signatures this selected = Throw (PlainError invalidFirstArgument)).
  { destruct (signatures this selected) as [vector|e] eqn:Hvector.
    - unfold signatures in Hvector.
      destruct (arrayMap_Return_elem _ _ _ key Hvector Hmember) as [b Hb].
      rewrite PostTransactionFacts.entry_Builtin in Hb; [done | done | |];
        intros p Hp; by destruct (Hnone p Hp).
    - unfold signatures in Hvector.
      apply arrayMap_Throw_inv in Hvector as (other & _ & Hother).
      destruct (signatureOrEmpty _); [done|]. by injection Hother as <-. }
  split; [exact Hvector|].
  intros transaction Hselected. unfold postTransaction, signedTxn.
  by rewrite Hselected, Hvector.
Qed.

(** X25: an error thrown inside the [try] block, by the encoding or by
    the submission, comes out as the [InvalidActionError] named
    [transactionBroadcastError] with that error as its cause and its
    message appended to the text, if it has one. *)
Theorem postTransaction_wraps_broadcast_failure (transaction : PreparedTransaction.t)
    (signed : SignedTxn.t) (err : Error) :
  signedTxn lib this transaction = Return signed ->
  (getBytes lib signed = Throw err \/
   exists binaryTxn,
     getBytes lib signed = Return binaryTxn /\
     Repository.axios_post service
       (Repository.serviceURL (liskServiceRepo this) +:+ "/api/v3/transactions")
       (Obj [("transaction", Str (bufferToHex binaryTxn))]) = Throw err) ->
  postTransaction lib service this transaction
  = Throw (InvalidActionError transactionBroadcastError
             ("Error broadcasting transaction to the lisk network"
              +:+ (if truthy (Str (message err)) then " - " +:+ message err else ""))
             (Some err)).
Proof.
  intros Hsigned Hfailure. unfold postTransaction. rewrite Hsigned. cbn [bind].
  assert (Hbroadcast : broadcast lib service this signed = Throw err).
  { unfold broadcast. destruct Hfailure as [-> | (binaryTxn & -> & Hpost)]; [done|].
    cbn [bind]. unfold Repository.postTransaction, Repository.post, Meta.Transactions.path.
    by rewrite Hpost. }
  by rewrite Hbroadcast.
Qed.

(** X26: an error thrown before the [try] block, while the vector of
    signatures is assembled (the TypeError of [Buffer.from] on a lookup
    that found an inherited property) or while the transaction object is
    built ([BigInt] on the nonce, the fee or the amount, the decoding of
    the recipient address), leaves [postTransaction] as it is: it is not
    wrapped in an [InvalidActionError], whatever the service would
    answer. *)
Theorem postTransaction_conversion_error_unwrapped (transaction : PreparedTransaction.t)
    (e : Error) :
  signedTxn lib this transaction = Throw e ->
  postTransaction lib service this transaction = Throw e /\
  (signatures this (selectedSignatures lib this transaction) = Throw e /\
     e = PlainError invalidFirstArgument \/
   BigInt lib (PreparedTransaction.nonce transaction) = Throw e \/
   BigInt lib (PreparedTransaction.fee transaction) = Throw e \/
   getAddressFromLisk32Address lib (PreparedTransaction.recipientAddress transaction)
     = Throw e \/
   BigInt lib (PreparedTransaction.amount transaction) = Throw e).
Proof.
  intros Hsigned. split; [unfold postTransaction; by rewrite Hsigned|].
  unfold signedTxn in Hsigned.
  destruct (signatures this _) as [vector|e0] eqn:Hvector; cbn [bind] in Hsigned.
  2: { injection Hsigned as <-. left. split; [done|].
       unfold signatures in Hvector.
       apply arrayMap_Throw_inv in Hvector as (key & _ & Hkey).
       destruct (signatureOrEmpty _); [done|]. by injection Hkey as <-. }
  right.
  destruct (BigInt lib (PreparedTransaction.nonce transaction)); cbn [bind] in Hsigned;
    [|injection Hsigned as <-; by left].
  destruct (BigInt lib (PreparedTransaction.fee transaction)); cbn [bind] in Hsigned;
    [|injection Hsigned as <-; right; by left].
  destruct (getAddressFromLisk32Address lib _); cbn [bind] in Hsigned;
    [|injection Hsigned as <-; right; right; by left].
  destruct (BigInt lib (PreparedTransaction.amount transaction)); cbn [bind] in Hsigned;
    [discriminate | injection Hsigned as <-; by repeat right].
Qed.

End Posting.

End PostTransactionMore.

(** ** The adapter: signatures of the transactions it reports *)

Module TransactionMapperFacts.

Import Adapter.

Lemma bufferToHex_empty (b : Buffer) : bufferToHex b = "" <-> b = [].
Proof. by destruct b. Qed.

Lemma truthy_Str (text : string) : truthy (Str text) = true <-> text <> "".
Proof. by destruct text. Qed.

(** Keys that survive a position-wise filter keep their order. *)
Lemma omap_imap_sublist {X} (F : nat -> string -> X) (G : X -> option SignaturePacket.t)
    (keys : list string) :
  (forall i key p, G (F i key) = Some p -> SignaturePacket.publicKey p = key) ->
  SignaturePacket.publicKey <$> omap G (imap F keys) `sublist_of` keys.
Proof.
  revert F. induction keys as [|key keys IH]; intros F Hkey; [done|].
  rewrite imap_cons. cbn [omap list_omap].
  destruct (G (F 0%nat key)) as [p|] eqn:Hp.
  - cbn [fmap list_fmap]. rewrite (Hkey _ _ _ Hp). apply sublist_skip.
    apply IH. intros i k q. apply Hkey.
  - apply sublist_cons. apply IH. intros i k q. apply Hkey.
Qed.

Section Mapper.

Variable lib : Library.
Variable this : t.

Let address (publicKey : string) : string :=
  getBase32AddressFromPublicKey lib (toBuffer publicKey) (chainSymbol this).

(** The packets reported, one by one. *)
Lemma elem_of_transactionMapper_signatures
    (transaction : ServiceTransaction.t (list string)) (p : SignaturePacket.t) :
  p ∈ DexTransaction.signatures (transactionMapper lib this transaction) <->
  exists i,
    dexMultisigPublicKeys this !! i = Some (SignaturePacket.publicKey p) /\
    ServiceTransaction.signatures transaction !! i = Some (SignaturePacket.signature p) /\
    SignaturePacket.signature p <> "" /\
    SignaturePacket.signerAddress p = address (SignaturePacket.publicKey p).
Proof.
  unfold transactionMapper, Mapper.transactionMapper.
  cbn [DexTransaction.signatures ServiceTransaction.signatures default from_option id].
  rewrite list_elem_of_omap. split.
  - intros ([[signerAddress publicKey] signature] & Hin & Hkept).
    apply elem_of_lookup_imap in Hin as (i & key & Heq & Hi).
    injection Heq as -> -> ->.
    destruct (ServiceTransaction.signatures transaction !! i) as [text|] eqn:Htext;
      [|done].
    destruct (truthy (Str text)) eqn:Htruthy; [|done].
    injection Hkept as <-. cbn. exists i.
    split; [done|]. split; [done|]. split; [by apply truthy_Str | done].
  - intros (i & Hi & Htext & Hnonempty & Haddress).
    exists (address (SignaturePacket.publicKey p), SignaturePacket.publicKey p,
            Some (SignaturePacket.signature p)).
    split.
    + apply elem_of_lookup_imap. exists i, (SignaturePacket.publicKey p).
      split; [by rewrite Htext | done].
    + apply truthy_Str in Hnonempty. rewrite Hnonempty, <- Haddress. by destruct p.
Qed.

(** Their keys, in the order of the member keys. *)
Lemma transactionMapper_signatures_sublist
    (transaction : ServiceTransaction.t (list string)) :
  SignaturePacket.publicKey
    <$> DexTransaction.signatures (transactionMapper lib this transaction)
  `sublist_of` dexMultisigPublicKeys this.
Proof.
  unfold transactionMapper, Mapper.transactionMapper.
  cbn [DexTransaction.signatures ServiceTransaction.signatures default from_option id].
  apply omap_imap_sublist. intros i key p.
  destruct (ServiceTransaction.signatures transaction !! i) as [text|]; [|done].
  destruct (truthy (Str text)); [|done]. by intros [= <-].
Qed.

(** X27: the signature packets of a reported transaction are read by
    position: a packet is reported exactly for each position of the
    member keys at which the transaction holds a non-empty signature,
    with that key, that signature and the address derived from the key;
    the packets follow the order of the member keys, so there are at most
    as many as member keys. *)
Theorem transactionMapper_signatures_by_position
    (transaction : ServiceTransaction.t (list string)) :
  let packets := DexTransaction.signatures (transactionMapper lib this transaction) in
  (forall p,
     p ∈ packets <->
     exists i,
       dexMultisigPublicKeys this !! i = Some (SignaturePacket.publicKey p) /\
       ServiceTransaction.signatures transaction !! i = Some (SignaturePacket.signature p) /\
       SignaturePacket.signature p <> "" /\
       SignaturePacket.signerAddress p = address (SignaturePacket.publicKey p)) /\
  SignaturePacket.publicKey <$> packets `sublist_of` dexMultisigPublicKeys this /\
  (length packets <= length (dexMultisigPublicKeys this))%nat.
Proof.
  intros packets.
  pose proof (transactionMapper_signatures_sublist transaction) as Hsub.
  split; [intros p; apply elem_of_transactionMapper_signatures|].
  split; [exact Hsub|].
  apply sublist_length in Hsub. by rewrite length_fmap in Hsub.
Qed.

(** X28: a transaction reported with the vector of signatures that
    [postTransaction] assembles from a selection (each entry in
    hexadecimal) is mapped back to that selection: for selected packets
    with distinct member keys and non-empty signatures written in
    lower-case hexadecimal, the reported packets carry the same pairs of
    public key and signature, in the order of the member keys rather than
    the order supplied, each with the address derived from its key. *)
Theorem reported_signatures_are_the_selected_ones
    (selected : list SignaturePacket.t) (vector : list Buffer)
    (transaction : ServiceTransaction.t (list string)) :
  NoDup (dexMultisigPublicKeys this) ->
  NoDup (SignaturePacket.publicKey <$> selected) ->
  Forall (fun p => SignaturePacket.publicKey p ∈ dexMultisigPublicKeys this /\
                   bufferFromHex (SignaturePacket.signature p) <> [] /\
                   bufferToHex (bufferFromHex (SignaturePacket.signature p))
                   = SignaturePacket.signature p) selected ->
  signatures this selected = Return vector ->
  ServiceTransaction.signatures transaction = bufferToHex <$> vector ->
  let packets := DexTransaction.signatures (transactionMapper lib this transaction) in
  let pair := fun p => (SignaturePacket.publicKey p, SignaturePacket.signature p) in
  pair <$> packets ≡ₚ pair <$> selected /\
  SignaturePacket.publicKey <$> packets `sublist_of` dexMultisigPublicKeys this /\
  Forall (fun p => SignaturePacket.signerAddress p = address (SignaturePacket.publicKey p))
         packets.
Proof.
  intros Hmembers Hnodup Hvalid Hvector Hreported packets pair.
  rewrite Forall_forall in Hvalid.
  apply PostTransactionFacts.signatures_Return in Hvector. subst vector.
  pose proof (transactionMapper_signatures_sublist transaction) as Hsub.
  fold packets in Hsub.
  split; [|split; [exact Hsub|]].
  - apply NoDup_Permutation.
    + apply (NoDup_fmap_1 fst). rewrite <- list_fmap_compose.
      by apply (sublist_NoDup _ _ Hmembers).
    + apply (NoDup_fmap_1 fst). by rewrite <- list_fmap_compose.
    + intros [key text]. rewrite !list_elem_of_fmap. split.
      * intros (p & Hpair & Hp). injection Hpair as -> ->.
        apply elem_of_transactionMapper_signatures in Hp
          as (i & Hi & Htext & Hnonempty & _).
        rewrite Hreported, !list_lookup_fmap, Hi in Htext.
        cbn in Htext. injection Htext as Htext.
        destruct (last (filter (fun q => SignaturePacket.publicKey q
                                         = SignaturePacket.publicKey p) selected))
          as [q|] eqn:Hq; cbn in Htext.
        -- apply PostTransactionFacts.stored_Some in Hq as [Hin Hkey].
           destruct (Hvalid q Hin) as (_ & _ & Hcanonical).
           exists q. split; [|done]. unfold pair. by rewrite Hkey, <- Htext, Hcanonical.
        -- by rewrite <- Htext in Hnonempty.
      * intros (q & Hpair & Hin). injection Hpair as -> ->.
        destruct (Hvalid q Hin) as (Hmember & Hdecodes & Hcanonical).
        apply list_elem_of_lookup in Hmember as [i Hi].
        exists {| SignaturePacket.signerAddress := address (SignaturePacket.publicKey q);
                  SignaturePacket.publicKey := SignaturePacket.publicKey q;
                  SignaturePacket.signature := SignaturePacket.signature q |}.
        split; [done|].
        apply elem_of_transactionMapper_signatures. exists i. cbn.
        split; [done|]. split; [|split; [|done]].
        -- rewrite Hreported, !list_lookup_fmap, Hi. cbn.
           rewrite (PostTransactionFacts.stored_NoDup selected q Hnodup Hin). cbn.
           by rewrite Hcanonical.
        -- intros Hempty. by rewrite Hempty in Hdecodes.
  - apply Forall_forall. intros p Hp.
    by apply elem_of_transactionMapper_signatures in Hp as (_ & _ & _ & _ & Haddress).
Qed.

End Mapper.

End TransactionMapperFacts.

(** ** The same, run in the small world *)

Module MoreWitnesses.

Import Adapter.

(** The fixture adapter is what [load] leaves for the fixture account. *)
Lemma load_member_keys_witness :
  exists walletAddress accountAuth,
    config_dexWalletAddress Fixtures.config = Some walletAddress /\
    Repository.getAuth (Fixtures.service (Return Null)) (liskServiceRepo Fixtures.adapter)
      walletAddress = Return (Some accountAuth) /\
    let keys := AccountAuth.mandatoryKeys accountAuth ++ AccountAuth.optionalKeys accountAuth in
    NoDup (dexMultisigPublicKeys Fixtures.adapter) /\
    (forall key, key ∈ dexMultisigPublicKeys Fixtures.adapter <-> key ∈ keys) /\
    (forall i j x y,
       dexMultisigPublicKeys Fixtures.adapter !! i = Some x ->
       dexMultisigPublicKeys Fixtures.adapter !! j = Some y ->
       (i < j)%nat ->
       exists n, x ∈ take n keys /\ y ∉ take n keys) /\
    dexMultisigPublicKeys Fixtures.adapter `sublist_of` keys /\
    (NoDup keys -> dexMultisigPublicKeys Fixtures.adapter = keys) /\
    dexNumberOfSignatures Fixtures.adapter = AccountAuth.numberOfSignatures accountAuth /\
    (config_chainSymbol Fixtures.config = None -> chainSymbol Fixtures.adapter = "lsk").
Proof.
  exact (PostTransactionMore.load_member_keys (Fixtures.service (Return Null))
           Fixtures.config Fixtures.adapter eq_refl).
Defined.

(** No wallet address in the configuration. *)
Lemma load_failures_witness :
  load (Fixtures.service (Return Null))
    {| config_dexWalletAddress := None; config_chainSymbol := None;
       config_repository := config_repository Fixtures.config |}
  = Throw (PlainError "Dex wallet address not provided in the config").
Proof.
  apply (PostTransactionMore.load_failures (Fixtures.service (Return Null))
           {| config_dexWalletAddress := None; config_chainSymbol := None;
              config_repository := config_repository Fixtures.config |}
           (PlainError "")).
  by left.
Defined.

(** Three packets for the threshold of two. *)
Lemma selectedSignatures_within_supplied_witness :
  let transaction :=
    Fixtures.transaction [Fixtures.packet "bb"; Fixtures.packet "aa"; Fixtures.packet "cc"] in
  let selected := selectedSignatures Fixtures.lib Fixtures.adapter transaction in
  (exists n, selected
             = Fixtures.packet "bb"
               :: take n (shuffle Fixtures.lib [Fixtures.packet "aa"; Fixtures.packet "cc"])) /\
  selected ⊆+ [Fixtures.packet "bb"; Fixtures.packet "aa"; Fixtures.packet "cc"] /\
  (length selected <= 3)%nat.
Proof.
  intros transaction selected.
  apply (PostTransactionMore.selectedSignatures_within_supplied Fixtures.lib Fixtures.adapter
           transaction (Fixtures.packet "bb") [Fixtures.packet "aa"; Fixtures.packet "cc"]).
  - reflexivity.
  - apply reverse_Permutation.
Defined.

(** No packet at all. *)
Lemma postTransaction_without_signatures_witness :
  signatures Fixtures.adapter
    (selectedSignatures Fixtures.lib Fixtures.adapter (Fixtures.transaction []))
  = Return [[]; []; []].
Proof.
  destruct (PostTransactionMore.postTransaction_without_signatures Fixtures.lib
              (Fixtures.service (Return Fixtures.accepted))
              Fixtures.adapter (Fixtures.transaction []) eq_refl) as (_ & Hvector & _).
  apply Hvector. apply (bool_decide_unpack _). by vm_compute.
Defined.

(** Two packets with the key ["bb"]: the second one is sent. *)
Lemma signatures_last_packet_of_key_witness :
  let second := {| SignaturePacket.signerAddress := "lskbb";
                   SignaturePacket.publicKey := "bb";
                   SignaturePacket.signature := "ff" |} in
  (exists vector, signatures Fixtures.adapter [Fixtures.packet "bb"; second] = Return vector) /\
  (forall vector,
     signatures Fixtures.adapter [Fixtures.packet "bb"; second] = Return vector ->
     vector !! 1%nat = Some [255]).
Proof.
  intros second.
  destruct (PostTransactionMore.signatures_last_packet_of_key Fixtures.adapter
              [Fixtures.packet "bb"; second]) as [Hreturns Hentry].
  split.
  - apply Hreturns. apply (bool_decide_unpack _). by vm_compute.
  - intros vector Hvector. exact (Hentry vector 1%nat "bb" Hvector eq_refl).
Defined.

(** A packet of a key that is not of the wallet, among two that are. *)
Lemma signatures_ignore_other_keys_witness :
  signatures Fixtures.adapter
    [Fixtures.packet "bb"; Fixtures.packet "dd"; Fixtures.packet "cc"]
  = signatures Fixtures.adapter [Fixtures.packet "bb"; Fixtures.packet "cc"].
Proof.
  destruct (PostTransactionMore.signatures_ignore_other_keys Fixtures.adapter
              [Fixtures.packet "bb"; Fixtures.packet "dd"; Fixtures.packet "cc"])
    as [_ Hsame].
  - apply (bool_decide_unpack _). by vm_compute.
  - exact Hsame.
Defined.

(** A wallet with a member key named ['constructor'], and a packet of
    its other key. *)
Lemma inherited_member_key_refused_witness :
  let this := {| dexWalletAddress := Some "lskdex"; chainSymbol := "lsk";
                 liskServiceRepo := liskServiceRepo Fixtures.adapter;
                 dexMultisigPublicKeys := ["aa"; "constructor"];
                 dexNumberOfSignatures := 1 |} in
  postTransaction Fixtures.lib (Fixtures.service (Return Fixtures.accepted)) this
    (Fixtures.transaction [Fixtures.packet "aa"])
  = Throw (PlainError invalidFirstArgument).
Proof.
  intros this.
  destruct (PostTransactionMore.inherited_member_key_refused Fixtures.lib
              (Fixtures.service (Return Fixtures.accepted)) this
              [Fixtures.packet "aa"] "constructor") as [_ Hpost].
  - apply (bool_decide_unpack _). by vm_compute.
  - apply (bool_decide_unpack _). by vm_compute.
  - intros p Hp. apply list_elem_of_singleton in Hp as ->. split; discriminate.
  - by apply Hpost.
Defined.

(** The service refuses the submission. *)
Lemma postTransaction_wraps_broadcast_failure_witness :
  let err := HttpError "Request failed with status code 409" (Some 409) in
  postTransaction Fixtures.lib (Fixtures.service (Throw err)) Fixtures.adapter
    (Fixtures.transaction [Fixtures.packet "bb"; Fixtures.packet "cc"])
  = Throw (InvalidActionError transactionBroadcastError
             "Error broadcasting transaction to the lisk network - Request failed with status code 409"
             (Some err)).
Proof.
  intros err.
  eapply eq_trans.
  - eapply (PostTransactionMore.postTransaction_wraps_broadcast_failure Fixtures.lib
              (Fixtures.service (Throw err)) Fixtures.adapter
              (Fixtures.transaction [Fixtures.packet "bb"; Fixtures.packet "cc"]) _ err).
    + reflexivity.
    + right. eexists. split; reflexivity.
  - reflexivity.
Defined.

(** A nonce that is not a number. *)
Lemma postTransaction_conversion_error_unwrapped_witness :
  let transaction :=
    {| PreparedTransaction.signatures := [Fixtures.packet "bb"];
       PreparedTransaction.nonce := "abc";
       PreparedTransaction.fee := "700000";
       PreparedTransaction.senderPublicKey := "aa";
       PreparedTransaction.tokenID := "0000000000000000";
       PreparedTransaction.recipientAddress := "0102";
       PreparedTransaction.amount := "20000000";
       PreparedTransaction.message := "" |} in
  postTransaction Fixtures.lib (Fixtures.service (Return Fixtures.accepted)) Fixtures.adapter
    transaction
  = Throw (PlainError "Cannot convert abc to a BigInt").
Proof.
  intros transaction.
  apply (PostTransactionMore.postTransaction_conversion_error_unwrapped Fixtures.lib
           (Fixtures.service (Return Fixtures.accepted)) Fixtures.adapter transaction
           (PlainError "Cannot convert abc to a BigInt")).
  reflexivity.
Defined.

(** The transaction sent with the packets of ["cc"] and ["bb"], as the
    service reports it afterwards. *)
Lemma reported_signatures_are_the_selected_ones_witness :
  let selected := [Fixtures.packet "cc"; Fixtures.packet "bb"] in
  let transaction := Fixtures.transfer "lskdex" "lskr" 1702420100 [""; "bb01"; "cc01"] in
  let packets :=
    DexTransaction.signatures (transactionMapper Fixtures.lib Fixtures.adapter transaction) in
  let pair := fun p => (SignaturePacket.publicKey p, SignaturePacket.signature p) in
  pair <$> packets ≡ₚ pair <$> selected /\
  SignaturePacket.publicKey <$> packets `sublist_of` ["aa"; "bb"; "cc"].
Proof.
  intros selected transaction packets pair.
  destruct (TransactionMapperFacts.reported_signatures_are_the_selected_ones Fixtures.lib
              Fixtures.adapter selected [[]; [187; 1]; [204; 1]] transaction)
    as (Hpairs & Hsub & _).
  - apply (bool_decide_unpack _). by vm_compute.
  - apply (bool_decide_unpack _). by vm_compute.
  - repeat constructor; try (apply (bool_decide_unpack _); by vm_compute); by vm_compute.
  - reflexivity.
  - reflexivity.
  - split; [exact Hpairs | exact Hsub].
Defined.

End MoreWitnesses.
